(** * Conversation analyzer: a shallow embedding of [conversation_analyzer.py]

    The development follows the Python module function by function:
    [load_conversation_file], [detect_participants], [extract_topics],
    [categorize_time_period], [calculate_duration] and [get_basic_stats].

    Conventions of the embedding.
    - A Python [str] is a [string]; every [ascii] stands for one character
      with code point below 256, so that [String.length] is Python's [len].
    - A Python exception is a value of [exn]; code that may raise returns a
      [result].
    - JSON objects with a fixed set of keys (a conversation, a message, the
      statistics) are records; dictionaries keyed by data (participants,
      words) are association lists in insertion order. *)

From Stdlib Require Import String Ascii List ZArith Arith Bool Lia.
From Stdlib Require Import Permutation Sorted OrderedTypeEx DecimalString.
Import ListNotations.

Open Scope string_scope.
Open Scope list_scope.
Open Scope nat_scope.

(** ** Exceptions and results *)

Inductive exn : Type :=
| ValueError_format      (* raise ValueError("Unrecognized JSON format") *)
| ValueError_strptime    (* ValueError raised by datetime.strptime *)
| KeyError (key : string)
| IndexError.            (* list index out of range *)

Inductive result (A : Type) : Type :=
| Ok (a : A)
| Raise (e : exn).

Arguments Ok {A} a.
Arguments Raise {A} e.

Definition bind {A B : Type} (r : result A) (k : A -> result B) : result B :=
  match r with
  | Ok a => k a
  | Raise e => Raise e
  end.

Notation "x <- r ;; k" := (bind r (fun x => k))
  (at level 61, r at next level, right associativity).

(** A [for] loop whose body may raise: the state is threaded through the
    iterations, and the first exception ends the loop. *)
Fixpoint for_each {A S : Type} (body : S -> A -> result S) (l : list A) (s : S)
  : result S :=
  match l with
  | [] => Ok s
  | a :: l' => s' <- body s a ;; for_each body l' s'
  end.

(** ** Characters and the [str] methods the program calls *)

Module PyStr.

Definition code (c : ascii) : nat := nat_of_ascii c.

Definition between (lo hi : nat) (c : ascii) : bool :=
  Nat.leb lo (code c) && Nat.leb (code c) hi.

(** [\d] and [str.isdecimal] below 256. *)
Definition isdigit (c : ascii) : bool := between 48 57 c.

(** [str.isspace], also the class [\s] of [re] on [str] patterns:
    TAB..CR, FS..US, space, NEL and the no-break space. *)
Definition isspace (c : ascii) : bool :=
  between 9 13 c || between 28 32 c || Nat.eqb (code c) 133 || Nat.eqb (code c) 160.

(** [str.isalnum] on one character: digits, letters, and below 256 also
    the ordinal indicators, the micro sign, the superscript digits, the
    vulgar fractions and the accented letters. *)
Definition isalnum (c : ascii) : bool :=
  between 48 57 c || between 65 90 c || between 97 122 c
  || Nat.eqb (code c) 170 || between 178 179 c || Nat.eqb (code c) 181
  || between 185 186 c || between 188 190 c
  || between 192 214 c || between 216 246 c || between 248 255 c.

(** [str.lower] on one character: A..Z and the accented capitals. *)
Definition lower_char (c : ascii) : ascii :=
  if between 65 90 c || between 192 214 c || between 216 222 c
  then ascii_of_nat (code c + 32)
  else c.

Fixpoint lower (s : string) : string :=
  match s with
  | EmptyString => EmptyString
  | String c s' => String (lower_char c) (lower s')
  end.

(** [''.join(c for c in word if c.isalnum())] *)
Fixpoint keep_alnum (s : string) : string :=
  match s with
  | EmptyString => EmptyString
  | String c s' =>
      if isalnum c then String c (keep_alnum s') else keep_alnum s'
  end.

(** [s.startswith(p)] *)
Fixpoint startswith (p s : string) : bool :=
  match p, s with
  | EmptyString, _ => true
  | String a p', String b s' => Ascii.eqb a b && startswith p' s'
  | String _ _, EmptyString => false
  end.

(** [p in s] for strings. *)
Fixpoint contains (p s : string) : bool :=
  startswith p s
  || match s with
     | EmptyString => false
     | String _ s' => contains p s'
     end.

(** [s.split()]: maximal runs of non-space characters.  [cur] is the word
    being read, held in reverse. *)
Definition rev_string (l : list ascii) : string :=
  string_of_list_ascii (List.rev l).

Definition flush (cur : list ascii) (acc : list string) : list string :=
  match cur with
  | [] => acc
  | _ :: _ => rev_string cur :: acc
  end.

Fixpoint split_ws_aux (s : string) (cur : list ascii) : list string :=
  match s with
  | EmptyString => flush cur []
  | String c s' =>
      if isspace c then flush cur (split_ws_aux s' [])
      else split_ws_aux s' (c :: cur)
  end.

Definition split_ws (s : string) : list string := split_ws_aux s [].

(** [s.split(sep)] for a one-character separator: empty pieces are kept,
    and the result is never empty (its last piece is the one that [s]
    ends with). *)
Fixpoint split_on (sep : ascii) (s : string) : list string :=
  match s with
  | EmptyString => [EmptyString]
  | String c s' =>
      if Ascii.eqb c sep then EmptyString :: split_on sep s'
      else match split_on sep s' with
           | part :: parts => String c part :: parts
           | [] => [String c EmptyString]
           end
  end.

(** [s.replace(old, '')] for a non-empty [old]: occurrences are found
    from the left and do not overlap.  [skip] counts the characters of a
    matched occurrence still to drop. *)
Fixpoint remove_aux (old : string) (s : string) (skip : nat) : string :=
  match s with
  | EmptyString => EmptyString
  | String c s' =>
      match skip with
      | S k => remove_aux old s' k
      | O =>
          if startswith old s then remove_aux old s' (String.length old - 1)
          else String c (remove_aux old s' 0)
      end
  end.

Definition remove_all (old s : string) : string := remove_aux old s 0.

(** [os.path.basename] of [posixpath]: what follows the last slash. *)
Fixpoint basename_aux (s : string) (cur : list ascii) : string :=
  match s with
  | EmptyString => rev_string cur
  | String c s' =>
      if Ascii.eqb c "/" then basename_aux s' []
      else basename_aux s' (c :: cur)
  end.

Definition basename (path : string) : string := basename_aux path [].

(** [s.endswith(p)] and [s.removesuffix(p)], used only to phrase the
    specification. *)
Definition endswith (p s : string) : bool :=
  Nat.leb (String.length p) (String.length s)
  && String.eqb (substring (String.length s - String.length p)
                           (String.length p) s) p.

Definition removesuffix (p s : string) : string :=
  if endswith p s then substring 0 (String.length s - String.length p) s
  else s.

End PyStr.

(** ** Time classifier *)

(** The value of [datetime.strptime(s, "%I:%M %p")]: the date is always
    1900-01-01 and the seconds are 0, only the hour and the minute vary. *)
Record time_obj : Type := mk_time { hour : Z; minute : Z }.

Inductive period : Type := Morning | Afternoon | Evening | Night.

Module Strptime.
Import PyStr.
Local Open Scope Z_scope.

Definition digit_val (c : ascii) : Z := Z.of_nat (code c) - 48.

Inductive ampm : Type := AM | PM.

(** Directive [%I], the pattern [1[0-2]|0[1-9]|[1-9]]. *)
Definition parse_I (s : string) : option (Z * string) :=
  match s with
  | String a (String b rest) =>
      if Ascii.eqb a "1" && between 48 50 b then Some (10 + digit_val b, rest)
      else if Ascii.eqb a "0" && between 49 57 b then Some (digit_val b, rest)
      else if between 49 57 a then Some (digit_val a, String b rest)
      else None
  | String a EmptyString =>
      if between 49 57 a then Some (digit_val a, EmptyString) else None
  | EmptyString => None
  end.

(** Directive [%M], the pattern [[0-5]\d|\d]. *)
Definition parse_M (s : string) : option (Z * string) :=
  match s with
  | String a (String b rest) =>
      if between 48 53 a && isdigit b
      then Some (10 * digit_val a + digit_val b, rest)
      else if isdigit a then Some (digit_val a, String b rest)
      else None
  | String a EmptyString =>
      if isdigit a then Some (digit_val a, EmptyString) else None
  | EmptyString => None
  end.

(** The literal colon of the format. *)
Definition parse_colon (s : string) : option string :=
  match s with
  | String c rest => if Ascii.eqb c ":" then Some rest else None
  | EmptyString => None
  end.

(** The blank of the format, compiled to [\s+]. *)
Fixpoint skip_spaces (s : string) : string :=
  match s with
  | String c rest => if isspace c then skip_spaces rest else s
  | EmptyString => EmptyString
  end.

Definition parse_spaces (s : string) : option string :=
  match s with
  | String c rest => if isspace c then Some (skip_spaces rest) else None
  | EmptyString => None
  end.

(** Directive [%p], the pattern [am|pm] matched ignoring case; nothing may
    follow it ("unconverted data remains"). *)
Definition parse_p (s : string) : option ampm :=
  match s with
  | String a (String m EmptyString) =>
      if Ascii.eqb (lower_char m) "m" then
        if Ascii.eqb (lower_char a) "a" then Some AM
        else if Ascii.eqb (lower_char a) "p" then Some PM
        else None
      else None
  | _ => None
  end.

(** The hour of the day from the 12-hour clock value. *)
Definition hour24 (h : Z) (p : ampm) : Z :=
  match p with
  | AM => if h =? 12 then 0 else h
  | PM => if h =? 12 then h else h + 12
  end.

(** [datetime.strptime(s, "%I:%M %p")] *)
Definition strptime (s : string) : result time_obj :=
  match parse_I s with
  | None => Raise ValueError_strptime
  | Some (h, s1) =>
      match parse_colon s1 with
      | None => Raise ValueError_strptime
      | Some s2 =>
          match parse_M s2 with
          | None => Raise ValueError_strptime
          | Some (m, s3) =>
              match parse_spaces s3 with
              | None => Raise ValueError_strptime
              | Some s4 =>
                  match parse_p s4 with
                  | None => Raise ValueError_strptime
                  | Some p => Ok (mk_time (hour24 h p) m)
                  end
              end
          end
      end
  end.

(** The timestamps of the data model: two-digit hour 01..12, two-digit
    minute 00..59, one blank, AM or PM in capitals. *)
Definition two_digits (n : Z) : string :=
  String (ascii_of_nat (Z.to_nat (48 + n / 10)))
    (String (ascii_of_nat (Z.to_nat (48 + n mod 10))) EmptyString).

Definition marker (p : ampm) : string :=
  match p with AM => "AM" | PM => "PM" end.

Definition format_time (h m : Z) (p : ampm) : string :=
  (two_digits h ++ ":" ++ two_digits m ++ " " ++ marker p)%string.

End Strptime.

Definition strptime := Strptime.strptime.

(** [categorize_time_period(time_string)] *)
Definition categorize_time_period (time_string : string) : result period :=
  time_obj <- strptime time_string ;;
  let hour := hour time_obj in
  if ((6 <=? hour) && (hour <? 12))%Z then Ok Morning
  else if ((12 <=? hour) && (hour <? 17))%Z then Ok Afternoon
  else if ((17 <=? hour) && (hour <? 22))%Z then Ok Evening
  else Ok Night.

(** [(end - start).total_seconds()]: both values lie on the same day. *)
Definition total_seconds (end_ start : time_obj) : Z :=
  ((hour end_ * 3600 + minute end_ * 60)
   - (hour start * 3600 + minute start * 60))%Z.

(** [calculate_duration(start_time, end_time)].  The quotient by 60 is taken
    on a whole number of seconds below 86400 in absolute value, where the
    floating-point division is exact; [int] truncates toward zero, which is
    [Z.quot]. *)
Definition calculate_duration (start_time end_time : string) : result Z :=
  start <- strptime start_time ;;
  end_ <- strptime end_time ;;
  let duration := Z.quot (total_seconds end_ start) 60 in
  Ok duration.

(** ** Built-ins on lists and dictionaries *)

(** [sorted(l)] under the order [le]: a stable sort, by insertion.  An
    element goes in front of the first element it is not greater than, so
    elements that compare equal keep the order they had in [l]. *)
Fixpoint insert_sorted {A : Type} (le : A -> A -> bool) (x : A) (l : list A)
  : list A :=
  match l with
  | [] => [x]
  | y :: l' => if le x y then x :: y :: l' else y :: insert_sorted le x l'
  end.

Definition sorted {A : Type} (le : A -> A -> bool) (l : list A) : list A :=
  fold_right (insert_sorted le) [] l.

(** [enumerate(l)] *)
Definition enumerate {A : Type} (l : list A) : list (nat * A) :=
  combine (seq 0 (List.length l)) l.

(** [s.add(x)] on a set held as a list without duplicates. *)
Definition set_add (x : string) (s : list string) : list string :=
  if existsb (String.eqb x) s then s else s ++ [x].

(** [d.get(k)]: the value under [k], if any. *)
Fixpoint dict_get {V : Type} (k : string) (d : list (string * V)) : option V :=
  match d with
  | [] => None
  | (k', v) :: d' => if String.eqb k k' then Some v else dict_get k d'
  end.

(** [d[k] = v]: a key already there keeps its place, a new key goes last. *)
Fixpoint dict_set {V : Type} (k : string) (v : V) (d : list (string * V))
  : list (string * V) :=
  match d with
  | [] => [(k, v)]
  | (k', v') :: d' =>
      if String.eqb k k' then (k', v) :: d' else (k', v') :: dict_set k v d'
  end.

(** [d[k] = f(d[k])], as in [d[k] += 1] and [d[k].append(x)]: reading a
    missing key raises [KeyError]. *)
Definition dict_modify {V : Type} (k : string) (f : V -> V)
  (d : list (string * V)) : result (list (string * V)) :=
  match dict_get k d with
  | Some v => Ok (dict_set k (f v) d)
  | None => Raise (KeyError k)
  end.

(** [{p: v for p in keys}] *)
Definition dict_from_keys {V : Type} (keys : list string) (v : V)
  : list (string * V) :=
  map (fun p => (p, v)) keys.

(** ** Data model *)

(** The content of a message: a string, or any other JSON value.  The
    program reads the latter only through [str(content)], so it is held by
    that rendering. *)
Inductive content : Type :=
| Text (s : string)
| Structured (rendering : string).

Record Message : Type := mk_message {
  role : string;
  msg_content : content
}.

Record Session : Type := mk_session {
  messages : list Message;
  start_time : string;
  end_time : string
}.

(** The dictionary [load_conversation_file] returns.  Its ['date'] entry may
    be missing: the new format is returned as it was read. *)
Record Log : Type := mk_log {
  date : option string;
  conversations : list Session
}.

(** What [json.load] returns: an object, with its ['date'] and
    ['conversations'] entries when it has them, an array, or any other
    value. *)
Inductive raw_data : Type :=
| RawDict (date : option string) (conversations : option (list Session))
| RawList (items : list Session)
| RawOther.

(** ** Format normalizer *)

(** The loop over the parts of the file name, left at the first match. *)
Fixpoint scan_parts (parts : list string) (date : string) : string :=
  match parts with
  | [] => date
  | part :: rest =>
      if PyStr.startswith "20" part && PyStr.contains ".json" part
      then PyStr.remove_all ".json" part
      else scan_parts rest date
  end.

(** [load_conversation_file(filepath)], from the value [json.load] read in
    the file. *)
Definition load_conversation_file (filepath : string) (raw : raw_data)
  : result Log :=
  match raw with
  | RawDict d (Some convs) => Ok (mk_log d convs)
  | RawList items =>
      let filename := PyStr.basename filepath in
      let date := "Unknown Date" in
      let date :=
        if PyStr.contains "20" filename
        then scan_parts (PyStr.split_on "_" filename) date
        else date in
      Ok (mk_log (Some date) items)
  | _ => Raise ValueError_format
  end.

(** ** Participant detector *)

Definition all_messages (data : Log) : list Message :=
  flat_map messages (conversations data).

(** [detect_participants(data)] *)
Definition detect_participants (data : Log) : list string :=
  let participants :=
    fold_left
      (fun participants conversation =>
         fold_left (fun participants message => set_add (role message) participants)
           (messages conversation) participants)
      (conversations data) [] in
  sorted String.leb participants.

(** ** Topic extractor *)

Definition stop_words : list string :=
  [ "the"; "be"; "to"; "of"; "and"; "a"; "in"; "that"; "have"; "i";
    "it"; "for"; "not"; "on"; "with"; "he"; "as"; "you"; "do"; "at";
    "this"; "but"; "his"; "by"; "from"; "they"; "we"; "say"; "her"; "she";
    "or"; "an"; "will"; "my"; "one"; "all"; "would"; "there"; "their";
    "what"; "so"; "up"; "out"; "if"; "about"; "who"; "get"; "which"; "go";
    "me"; "when"; "make"; "can"; "like"; "time"; "no"; "just"; "him"; "know";
    "take"; "into"; "your"; "some"; "could"; "them"; "see"; "other"; "than";
    "then"; "now"; "look"; "only"; "come"; "its"; "over"; "think"; "also";
    "back"; "after"; "use"; "two"; "how"; "our"; "work"; "first"; "well";
    "way"; "even"; "new"; "want"; "because"; "any"; "these"; "give"; "day";
    "most"; "us"; "is"; "was"; "are"; "been"; "has"; "had"; "were"; "said";
    "did"; "having"; "may"; "am"; "are"; "im"; "youre"; "thats"; "dont";
    "ive"; "isnt"; "arent"; "wasnt"; "werent"; "wont"; "cant"; "couldnt" ].

Definition in_stop_words (w : string) : bool :=
  existsb (String.eqb w) stop_words.

(** The text of a message: the string itself, or [str(content)]. *)
Definition text_of (c : content) : string :=
  match c with
  | Text s => s
  | Structured rendering => rendering
  end.

(** The body of the loop over the words of one message. *)
Definition count_word (word_counts : list (string * nat)) (word : string)
  : list (string * nat) :=
  let clean_word := PyStr.keep_alnum word in
  if (String.length clean_word <? 3) || in_stop_words clean_word
  then word_counts
  else match dict_get clean_word word_counts with
       | Some n => dict_set clean_word (n + 1) word_counts
       | None => dict_set clean_word 1 word_counts
       end.

Definition count_message_words (word_counts : list (string * nat))
  (message : Message) : list (string * nat) :=
  let content := text_of (msg_content message) in
  let words := PyStr.split_ws (PyStr.lower content) in
  fold_left count_word words word_counts.

Definition count_words (data : Log) : list (string * nat) :=
  fold_left
    (fun word_counts conversation =>
       fold_left count_message_words (messages conversation) word_counts)
    (conversations data) [].

(** The order of [sorted(..., key=lambda x: x[1], reverse=True)]. *)
Definition by_count_desc (a b : string * nat) : bool :=
  snd b <=? snd a.

(** [extract_topics(data, top_n)] *)
Definition extract_topics (data : Log) (top_n : nat) : list (string * nat) :=
  let word_counts := count_words data in
  let sorted_topics := sorted by_count_desc word_counts in
  firstn top_n sorted_topics.

(** ** Statistics aggregator *)

(** The summary [conv_info] of one conversation. *)
Record conv_info : Type := mk_conv_info {
  ci_index : nat;
  ci_message_count : nat;
  ci_duration_minutes : Z;
  ci_start_time : string;
  ci_end_time : string;
  ci_time_period : period
}.

(** The dictionary [stats['time_periods']], one counter per period. *)
Record period_counts : Type := mk_period_counts {
  n_morning : nat;
  n_afternoon : nat;
  n_evening : nat;
  n_night : nat
}.

Definition add_to_period (p : period) (n : nat) (c : period_counts)
  : period_counts :=
  match p with
  | Morning => mk_period_counts (n_morning c + n) (n_afternoon c) (n_evening c) (n_night c)
  | Afternoon => mk_period_counts (n_morning c) (n_afternoon c + n) (n_evening c) (n_night c)
  | Evening => mk_period_counts (n_morning c) (n_afternoon c) (n_evening c + n) (n_night c)
  | Night => mk_period_counts (n_morning c) (n_afternoon c) (n_evening c) (n_night c + n)
  end.

(** The dictionary [stats]. *)
Record stats : Type := mk_stats {
  st_date : string;
  st_num_conversations : nat;
  st_total_messages : nat;
  st_participants : list string;
  st_messages_by_participant : list (string * nat);
  st_conversation_lengths : list conv_info;
  st_shortest_conversation : option conv_info;
  st_longest_conversation : option conv_info;
  st_time_periods : period_counts;
  st_conversations_started_by : list (string * nat);
  st_message_lengths_by_participant : list (string * list nat)
}.

(** The body of the loop over the messages of a conversation. *)
Definition count_message (st : stats) (message : Message) : result stats :=
  let total_messages := st_total_messages st + 1 in
  let msg_length := String.length (text_of (msg_content message)) in
  let participant := role message in
  by_participant <-
    dict_modify participant (fun n => n + 1) (st_messages_by_participant st) ;;
  lengths <-
    dict_modify participant (fun l => l ++ [msg_length])
      (st_message_lengths_by_participant st) ;;
  Ok (mk_stats (st_date st) (st_num_conversations st) total_messages
        (st_participants st) by_participant (st_conversation_lengths st)
        (st_shortest_conversation st) (st_longest_conversation st)
        (st_time_periods st) (st_conversations_started_by st) lengths).

(** [stats['shortest_conversation'] is None or message_count < ...] *)
Definition new_shortest (current : option conv_info) (info : conv_info)
  : option conv_info :=
  match current with
  | None => Some info
  | Some c =>
      if ci_message_count info <? ci_message_count c then Some info else Some c
  end.

(** [stats['longest_conversation'] is None or message_count > ...] *)
Definition new_longest (current : option conv_info) (info : conv_info)
  : option conv_info :=
  match current with
  | None => Some info
  | Some c =>
      if ci_message_count c <? ci_message_count info then Some info else Some c
  end.

(** [conversation['messages'][0]] *)
Definition first_message (conversation : Session) : result Message :=
  match messages conversation with
  | [] => Raise IndexError
  | m :: _ => Ok m
  end.

(** The body of the loop over [enumerate(data['conversations'])]. *)
Definition process_conversation (st : stats) (ic : nat * Session)
  : result stats :=
  let (i, conversation) := ic in
  let message_count := List.length (messages conversation) in
  duration <-
    calculate_duration (start_time conversation) (end_time conversation) ;;
  time_period <- categorize_time_period (start_time conversation) ;;
  let time_periods := add_to_period time_period message_count (st_time_periods st) in
  first <- first_message conversation ;;
  let first_speaker := role first in
  started_by <-
    dict_modify first_speaker (fun n => n + 1) (st_conversations_started_by st) ;;
  let info :=
    mk_conv_info (i + 1) message_count duration (start_time conversation)
      (end_time conversation) time_period in
  let st :=
    mk_stats (st_date st) (st_num_conversations st) (st_total_messages st)
      (st_participants st) (st_messages_by_participant st)
      (st_conversation_lengths st ++ [info])
      (new_shortest (st_shortest_conversation st) info)
      (new_longest (st_longest_conversation st) info)
      time_periods started_by (st_message_lengths_by_participant st) in
  for_each count_message (messages conversation) st.

(** The dictionary [stats] before the loop. *)
Definition initial_stats (label : string) (data : Log)
  (participants : list string) : stats :=
  mk_stats label (List.length (conversations data)) 0 participants
    (dict_from_keys participants 0) [] None None
    (mk_period_counts 0 0 0 0)
    (dict_from_keys participants 0)
    (dict_from_keys participants []).

(** [get_basic_stats(data)] *)
Definition get_basic_stats (data : Log) : result stats :=
  let participants := detect_participants data in
  label <- match date data with
           | Some d => Ok d
           | None => Raise (KeyError "date")
           end ;;
  for_each process_conversation (enumerate (conversations data))
    (initial_stats label data participants).

(** ** Report and command line *)

(** The exceptions that reach the report and the command line: those of
    the analysis, the [TypeError] of subscripting [None], and any
    exception of [open] or [json.load] that [main] does not catch. *)
Inductive py_exception : Type :=
| Core (e : exn)
| TypeError
| ReadError.

(** A piece of a printed line.  The three formats of floating-point values
    are kept as they are written, with the integers they are computed
    from, and are not rendered. *)
Inductive fragment : Type :=
| Str (s : string)
| Percent1 (count total : nat)   (* f"{(count / total) * 100:5.1f}" *)
| Mean0 (sum len : nat)          (* f"{sum / len:.0f}" *)
| Mean1 (sum len : nat).         (* f"{sum / len:.1f}" *)

(** The argument of one call of [print]. *)
Definition line : Type := list fragment.

(** How a piece of the program ends: it returns, raises, or leaves through
    [sys.exit]. *)
Inductive outcome (A : Type) : Type :=
| Returns (a : A)
| Raises (e : py_exception)
| Exits (status : nat).

Arguments Returns {A} a.
Arguments Raises {A} e.
Arguments Exits {A} status.

(** The lines printed, in order, and the outcome. *)
Definition io (A : Type) : Type := (list line * outcome A)%type.

Definition io_bind {A B : Type} (m : io A) (k : A -> io B) : io B :=
  match m with
  | (out, Returns a) => let (out', r) := k a in (out ++ out', r)
  | (out, Raises e) => (out, Raises e)
  | (out, Exits n) => (out, Exits n)
  end.

Notation "x <~ m ;; k" := (io_bind m (fun x => k))
  (at level 61, m at next level, right associativity).
Notation "m ;;; k" := (io_bind m (fun _ => k))
  (at level 61, right associativity).

Definition io_ret {A : Type} (a : A) : io A := ([], Returns a).

(** [print(l)] *)
Definition print (l : line) : io unit := ([l], Returns tt).

(** [print(s)] for a string without floating-point values. *)
Definition print_str (s : string) : io unit := print [Str s].

(** A call that may raise one of the exceptions of the analysis. *)
Definition lift {A : Type} (r : result A) : io A :=
  match r with
  | Ok a => ([], Returns a)
  | Raise e => ([], Raises (Core e))
  end.

(** [for x in l: body(x)] *)
Fixpoint io_for {A : Type} (l : list A) (body : A -> io unit) : io unit :=
  match l with
  | [] => io_ret tt
  | a :: l' => body a ;;; io_for l' body
  end.

(** [d[k]] *)
Definition dict_lookup {V : Type} (k : string) (d : list (string * V))
  : result V :=
  match dict_get k d with
  | Some v => Ok v
  | None => Raise (KeyError k)
  end.

(** The character of ["\n"]. *)
Definition nl : string := String (ascii_of_nat 10) EmptyString.

Fixpoint repeat_char (c : ascii) (n : nat) : string :=
  match n with
  | O => EmptyString
  | S n' => String c (repeat_char c n')
  end.

(** ['=' * 50] *)
Definition rule : string := repeat_char "=" 50.

(** [str(n)] for integers. *)
Definition str_of_nat (n : nat) : string :=
  NilZero.string_of_uint (Nat.to_uint n).

Definition str_of_Z (z : Z) : string :=
  NilZero.string_of_int (Z.to_int z).

(** [f"{s:w}"] for a string: padded on the right up to the width [w]. *)
Definition ljust (w : nat) (s : string) : string :=
  (s ++ repeat_char " " (w - String.length s))%string.

(** [f"{n:w}"] for an integer: padded on the left up to the width [w]. *)
Definition rjust (w : nat) (s : string) : string :=
  (repeat_char " " (w - String.length s) ++ s)%string.

(** The name of a period, as [categorize_time_period] returns it. *)
Definition period_name (p : period) : string :=
  match p with
  | Morning => "Morning"
  | Afternoon => "Afternoon"
  | Evening => "Evening"
  | Night => "Night"
  end.

(** [stats['time_periods'].items()] *)
Definition period_items (c : period_counts) : list (period * nat) :=
  [ (Morning, n_morning c); (Afternoon, n_afternoon c);
    (Evening, n_evening c); (Night, n_night c) ].

(** [max(l)] for a list that is not empty. *)
Definition list_max_nat (l : list nat) : nat := fold_right Nat.max 0 l.

(** The two lines that describe the shortest or the longest conversation;
    [sc] is [None] when no conversation was seen, and subscripting it
    raises [TypeError]. *)
Definition print_extreme (sc : option conv_info) : io unit :=
  match sc with
  | None => ([], Raises TypeError)
  | Some sc =>
      print_str ("  Conversation #" ++ str_of_nat (ci_index sc) ++ ": "
                 ++ str_of_nat (ci_message_count sc) ++ " messages, "
                 ++ str_of_Z (ci_duration_minutes sc) ++ " minutes") ;;;
      print_str ("  (" ++ ci_start_time sc ++ " - " ++ ci_end_time sc ++ ") ["
                 ++ period_name (ci_time_period sc) ++ "]")
  end.

(** [print_stats(stats)] *)
Definition print_stats (stats : stats) : io unit :=
  print_str (nl ++ rule) ;;;
  print_str ("Conversation Analysis for " ++ st_date stats) ;;;
  print_str rule ;;;
  print_str (nl ++ "Total Conversations: "
             ++ str_of_nat (st_num_conversations stats)) ;;;
  print_str ("Total Messages: " ++ str_of_nat (st_total_messages stats)) ;;;
  io_for (st_participants stats) (fun participant =>
    count <~ lift (dict_lookup participant (st_messages_by_participant stats)) ;;
    print_str ("  - " ++ participant ++ ": " ++ str_of_nat count)) ;;;
  print_str (nl ++ "--- Time of Day Patterns ---") ;;;
  io_for (period_items (st_time_periods stats)) (fun item =>
    let (period, count) := item in
    if 0 <? st_total_messages stats then
      print [ Str (ljust 12 (period_name period) ++ " "
                   ++ rjust 3 (str_of_nat count) ++ " messages (");
              Percent1 count (st_total_messages stats);
              Str "%)" ]
    else io_ret tt) ;;;
  print_str (nl ++ "--- Conversation Flow ---") ;;;
  print_str (nl ++ "Conversations Started:") ;;;
  io_for (st_participants stats) (fun participant =>
    count <~ lift (dict_lookup participant (st_conversations_started_by stats)) ;;
    print_str ("  - " ++ participant ++ ": " ++ str_of_nat count)) ;;;
  io_for (st_participants stats) (fun participant =>
    lengths <~ lift (dict_lookup participant
                       (st_message_lengths_by_participant stats)) ;;
    match lengths with
    | [] => io_ret tt
    | _ :: _ =>
        let longest := list_max_nat lengths in
        print_str (nl ++ participant ++ "'s Messages:") ;;;
        print [ Str "  - Average length: ";
                Mean0 (list_sum lengths) (List.length lengths);
                Str " characters" ] ;;;
        print_str ("  - Longest message: " ++ str_of_nat longest
                   ++ " characters")
    end) ;;;
  print_str (nl ++ "--- Conversation Lengths ---") ;;;
  print_str (nl ++ "Shortest Conversation:") ;;;
  print_extreme (st_shortest_conversation stats) ;;;
  print_str (nl ++ "Longest Conversation:") ;;;
  print_extreme (st_longest_conversation stats) ;;;
  match st_conversation_lengths stats with
  | [] => io_ret tt
  | _ :: _ =>
      let total_messages_in_convs :=
        list_sum (map ci_message_count (st_conversation_lengths stats)) in
      print [ Str (nl ++ "Average messages per conversation: ");
              Mean1 total_messages_in_convs
                (List.length (st_conversation_lengths stats)) ]
  end ;;;
  print_str (nl ++ rule ++ nl).

(** [enumerate(l, 1)] *)
Definition enumerate_from_1 {A : Type} (l : list A) : list (nat * A) :=
  combine (seq 1 (List.length l)) l.

(** The line of one topic. *)
Definition topic_line (entry : nat * (string * nat)) : string :=
  let '(i, (word, count)) := entry in
  rjust 2 (str_of_nat i) ++ ". " ++ ljust 20 word ++ " ("
  ++ rjust 3 (str_of_nat count) ++ " mentions)".

(** [print_topics(topics)] *)
Definition print_topics (topics : list (string * nat)) : io unit :=
  print_str (nl ++ rule) ;;;
  print_str "Main Topics Discussed" ;;;
  print_str (rule ++ nl) ;;;
  io_for (enumerate_from_1 topics) (fun entry => print_str (topic_line entry)) ;;;
  print_str (nl ++ rule ++ nl).

(** What [open] and [json.load] give for a path. *)
Inductive read_result : Type :=
| FileNotFoundError
| JSONDecodeError
| OtherReadError
| Loaded (raw : raw_data).

(** [main()], for the arguments [argv] of the command line and the files
    [read] finds. *)
Definition main (argv : list string) (read : string -> read_result)
  : io unit :=
  match argv with
  | [] | [_] =>
      print_str (nl ++ "Usage: python conversation_analyzer.py <filename>") ;;;
      print_str ("Example: python conversation_analyzer.py "
                 ++ "daily_conversations_2025-10-30.json" ++ nl) ;;;
      ([], Exits 1)
  | _ :: filepath :: _ =>
      data <~
        (print_str ("Loading conversation file: " ++ filepath ++ "...") ;;;
         match read filepath with
         | Loaded raw => lift (load_conversation_file filepath raw)
         | FileNotFoundError =>
             print_str (nl ++ "Error: File '" ++ filepath ++ "' not found!") ;;;
             print_str ("Make sure the file exists in the current directory."
                        ++ nl) ;;;
             ([], Exits 1)
         | JSONDecodeError =>
             print_str (nl ++ "Error: File '" ++ filepath
                        ++ "' is not valid JSON!") ;;;
             print_str ("Make sure it's a properly formatted JSON file."
                        ++ nl) ;;;
             ([], Exits 1)
         | OtherReadError => ([], Raises ReadError)
         end) ;;
      print_str "Calculating statistics..." ;;;
      stats <~ lift (get_basic_stats data) ;;
      print_str "Extracting topics..." ;;;
      let topics := extract_topics data 15 in
      print_stats stats ;;;
      print_topics topics
  end.

(** * Vocabulary of the properties *)

(** ** Time classifier *)

(** [r] is the time [h]:[m]. *)
Definition time_eqb (r : result time_obj) (h m : Z) : bool :=
  match r with
  | Ok t => ((hour t =? h) && (minute t =? m))%Z
  | Raise _ => false
  end.

(** [strptime] reads every timestamp HH:MM AM/PM, hour 01 to 12 and minute
    00 to 59, as the time it shows. *)
Definition accepts_all_formatted : bool :=
  forallb (fun h =>
    forallb (fun m =>
      forallb (fun p =>
        time_eqb (strptime (Strptime.format_time (Z.of_nat h) (Z.of_nat m) p))
                 (Strptime.hour24 (Z.of_nat h) p) (Z.of_nat m))
        [Strptime.AM; Strptime.PM])
      (seq 0 60))
    (seq 1 12).

(** ** Format normalizer *)

(** The label of the old format as the code derives it from the file name:
    the first part, between underscores, that starts with "20" and contains
    ".json", without its occurrences of ".json". *)
Definition label_of_filename (filename : string) : string :=
  match find (fun part => PyStr.startswith "20" part && PyStr.contains ".json" part)
             (PyStr.split_on "_" filename) with
  | Some part => PyStr.remove_all ".json" part
  | None => "Unknown Date"
  end.

(** The label of the old format as the specification words it: the first
    part that begins with "20" and ends with ".json", with that suffix
    stripped. *)
Definition label_by_spec (hint : string) : string :=
  match find (fun token => PyStr.startswith "20" token && PyStr.endswith ".json" token)
             (PyStr.split_on "_" hint) with
  | Some token => PyStr.removesuffix ".json" token
  | None => "Unknown Date"
  end.

(** The test the loop of [load_conversation_file] applies to a part. *)
Definition dated_part (part : string) : bool :=
  PyStr.startswith "20" part && PyStr.contains ".json" part.

(** ** Dictionaries *)

(** [d.keys()] *)
Definition dict_keys {V : Type} (d : list (string * V)) : list string :=
  map fst d.

(** [sum(d.values())] *)
Definition dict_sum (d : list (string * nat)) : nat :=
  list_sum (map snd d).

(** ** Participant detector *)

(** The inner loop of [detect_participants]. *)
Definition add_roles (participants : list string) (ms : list Message)
  : list string :=
  fold_left (fun participants message => set_add (role message) participants)
    ms participants.

(** ** Statistics aggregator *)

(** A session as the data model describes it: at least one message, and
    two timestamps that [strptime] accepts. *)
Definition well_formed_session (c : Session) : Prop :=
  messages c <> []
  /\ (exists t, strptime (start_time c) = Ok t)
  /\ (exists t, strptime (end_time c) = Ok t).

(** The summary the loop builds for the conversation at position [i]. *)
Definition summarize (i : nat) (c : Session) : result conv_info :=
  duration <- calculate_duration (start_time c) (end_time c) ;;
  time_period <- categorize_time_period (start_time c) ;;
  Ok (mk_conv_info (i + 1) (List.length (messages c)) duration
        (start_time c) (end_time c) time_period).

(** The sum of the four period counters. *)
Definition period_total (c : period_counts) : nat :=
  n_morning c + n_afternoon c + n_evening c + n_night c.

(** The three dictionaries keyed by participant have the keys [ps]. *)
Definition keys_are (ps : list string) (st : stats) : Prop :=
  dict_keys (st_messages_by_participant st) = ps
  /\ dict_keys (st_conversations_started_by st) = ps
  /\ dict_keys (st_message_lengths_by_participant st) = ps.

(** [enumerate] started at [n]. *)
Definition enumerate_from {A : Type} (n : nat) (l : list A) : list (nat * A) :=
  combine (seq n (List.length l)) l.

(** What the loop over the messages [ms] changes in the statistics. *)
Record messages_effect (st : stats) (ms : list Message) (st' : stats)
  : Prop := mk_messages_effect {
  me_date : st_date st' = st_date st;
  me_num : st_num_conversations st' = st_num_conversations st;
  me_total : st_total_messages st' = st_total_messages st + List.length ms;
  me_participants : st_participants st' = st_participants st;
  me_by_participant :
    dict_sum (st_messages_by_participant st')
    = dict_sum (st_messages_by_participant st) + List.length ms;
  me_lengths : st_conversation_lengths st' = st_conversation_lengths st;
  me_shortest : st_shortest_conversation st' = st_shortest_conversation st;
  me_longest : st_longest_conversation st' = st_longest_conversation st;
  me_periods : st_time_periods st' = st_time_periods st;
  me_started : st_conversations_started_by st' = st_conversations_started_by st;
  me_keys : forall ps, keys_are ps st -> keys_are ps st'
}.

(** What one turn of the loop over the conversations changes. *)
Record conversation_effect (st : stats) (c : Session) (info : conv_info)
  (st' : stats) : Prop := mk_conversation_effect {
  ce_nonempty : messages c <> [];
  ce_date : st_date st' = st_date st;
  ce_num : st_num_conversations st' = st_num_conversations st;
  ce_total :
    st_total_messages st' = st_total_messages st + List.length (messages c);
  ce_participants : st_participants st' = st_participants st;
  ce_by_participant :
    dict_sum (st_messages_by_participant st')
    = dict_sum (st_messages_by_participant st) + List.length (messages c);
  ce_lengths :
    st_conversation_lengths st' = st_conversation_lengths st ++ [info];
  ce_shortest :
    st_shortest_conversation st' = new_shortest (st_shortest_conversation st) info;
  ce_longest :
    st_longest_conversation st' = new_longest (st_longest_conversation st) info;
  ce_periods :
    st_time_periods st'
    = add_to_period (ci_time_period info) (List.length (messages c))
        (st_time_periods st);
  ce_started :
    dict_sum (st_conversations_started_by st')
    = dict_sum (st_conversations_started_by st) + 1;
  ce_keys : forall ps, keys_are ps st -> keys_are ps st'
}.

(** [len(conversation['messages'])] *)
Definition message_count (c : Session) : nat := List.length (messages c).

(** The number of messages of the conversations [l]. *)
Definition total_count (l : list Session) : nat :=
  list_sum (map message_count l).

(** [infos] are the summaries of the conversations [l], numbered from [n]. *)
Definition summaries (n : nat) (l : list Session) (infos : list conv_info)
  : Prop :=
  Forall2 (fun ic info => summarize (fst ic) (snd ic) = Ok info)
    (enumerate_from n l) infos.

(** What the loop over the conversations [l] changes in the statistics. *)
Record loop_effect (st : stats) (l : list Session) (infos : list conv_info)
  (st' : stats) : Prop := mk_loop_effect {
  le_nonempty : Forall (fun c => messages c <> []) l;
  le_date : st_date st' = st_date st;
  le_num : st_num_conversations st' = st_num_conversations st;
  le_total : st_total_messages st' = st_total_messages st + total_count l;
  le_participants : st_participants st' = st_participants st;
  le_by_participant :
    dict_sum (st_messages_by_participant st')
    = dict_sum (st_messages_by_participant st) + total_count l;
  le_lengths :
    st_conversation_lengths st' = st_conversation_lengths st ++ infos;
  le_shortest :
    st_shortest_conversation st'
    = fold_left new_shortest infos (st_shortest_conversation st);
  le_longest :
    st_longest_conversation st'
    = fold_left new_longest infos (st_longest_conversation st);
  le_periods :
    period_total (st_time_periods st')
    = period_total (st_time_periods st) + total_count l;
  le_started :
    dict_sum (st_conversations_started_by st')
    = dict_sum (st_conversations_started_by st) + List.length l;
  le_keys : forall ps, keys_are ps st -> keys_are ps st'
}.

(** Two sessions of one message each: a tie for the shortest and for the
    longest conversation. *)
Definition tie_log : Log :=
  mk_log (Some "2025-10-30")
    [ mk_session [mk_message "alice" (Text "good morning")] "09:00 AM" "09:10 AM";
      mk_session [mk_message "bob" (Text "quick chat")] "02:00 PM" "02:02 PM" ].

(** A session with a message, then a session without any. *)
Definition log_with_empty_session : Log :=
  mk_log (Some "2025-10-30")
    [ mk_session [mk_message "alice" (Text "good morning")] "09:00 AM" "09:10 AM";
      mk_session [] "02:00 PM" "02:02 PM" ].

(** The statistics [st] under another label. *)
Definition with_date (d : string) (st : stats) : stats :=
  mk_stats d (st_num_conversations st) (st_total_messages st)
    (st_participants st) (st_messages_by_participant st)
    (st_conversation_lengths st) (st_shortest_conversation st)
    (st_longest_conversation st) (st_time_periods st)
    (st_conversations_started_by st) (st_message_lengths_by_participant st).

(** [f] on the value returned, if any. *)
Definition map_result {A B : Type} (f : A -> B) (r : result A) : result B :=
  match r with
  | Ok a => Ok (f a)
  | Raise e => Raise e
  end.

(** ** Topic extractor *)

(** The order of the ranking: counts do not increase. *)
Definition count_ge (a b : string * nat) : Prop := snd b <= snd a.

(** The entries of [l] with count [n], in the order of [l]. *)
Definition with_count (n : nat) (l : list (string * nat)) : list (string * nat) :=
  filter (fun e => snd e =? n) l.

(** The words of the log as the extractor reads them: each message in
    lower case, cut at white space. *)
Definition raw_tokens (data : Log) : list string :=
  flat_map (fun m => PyStr.split_ws (PyStr.lower (text_of (msg_content m))))
    (all_messages data).

(** A clean word is counted when it has three characters or more and is not
    a stop word. *)
Definition counted (w : string) : bool :=
  negb ((String.length w <? 3) || in_stop_words w).

(** The clean words that are counted, in the order they are read. *)
Definition clean_tokens (data : Log) : list string :=
  filter counted (map PyStr.keep_alnum (raw_tokens data)).

(** The elements of [l] without repetition, each at its first occurrence. *)
Fixpoint first_occurrences (l : list string) : list string :=
  match l with
  | [] => []
  | x :: l' => x :: filter (fun y => negb (String.eqb y x)) (first_occurrences l')
  end.

(** [l.count(w)] *)
Definition occurrences (w : string) (l : list string) : nat :=
  count_occ string_dec l w.

(** Each word of [l] with the number of its occurrences, in the order of
    the first occurrences. *)
Definition tally (l : list string) : list (string * nat) :=
  map (fun w => (w, occurrences w l)) (first_occurrences l).

(** The two branches that count a word. *)
Definition bump (word_counts : list (string * nat)) (w : string)
  : list (string * nat) :=
  match dict_get w word_counts with
  | Some n => dict_set w (n + 1) word_counts
  | None => dict_set w 1 word_counts
  end.

(** The text that the extractor reads in each message. *)
Definition lowered_texts (data : Log) : list string :=
  map (fun m => PyStr.lower (text_of (msg_content m))) (all_messages data).

(** A log whose only message mixes cases, stop words and short words. *)
Definition topic_example : Log :=
  mk_log (Some "2025-10-30")
    [ mk_session
        [mk_message "alice" (Text "The the THE cat sat on a mat and the dog ran")]
        "09:00 AM" "09:10 AM" ].

(** ** Words as the extractor counts them *)

(** A word without its characters that are neither letters nor digits. *)
Definition stripped (word : string) : string :=
  string_of_list_ascii (filter PyStr.isalnum (list_ascii_of_string word)).

(** A capital letter: A..Z, or an accented capital below 256. *)
Definition capital (c : ascii) : bool :=
  PyStr.between 65 90 c || PyStr.between 192 214 c || PyStr.between 216 222 c.

(** Two characters that differ at most by case: the same character, or a
    capital and its small letter, 32 code points above it. *)
Definition same_letter (a b : ascii) : bool :=
  Ascii.eqb a b
  || (capital a && Nat.eqb (PyStr.code b) (PyStr.code a + 32))
  || (capital b && Nat.eqb (PyStr.code a) (PyStr.code b + 32)).

Fixpoint same_up_to_case (s t : string) : bool :=
  match s, t with
  | EmptyString, EmptyString => true
  | String a s', String b t' => same_letter a b && same_up_to_case s' t'
  | _, _ => false
  end.

(** Two logs whose messages, taken in order, have the same text up to
    case. *)
Definition same_texts_up_to_case (data1 data2 : Log) : Prop :=
  Forall2
    (fun m1 m2 =>
       same_up_to_case (text_of (msg_content m1)) (text_of (msg_content m2))
       = true)
    (all_messages data1) (all_messages data2).

(** No character of [s] is white space. *)
Definition no_space (s : string) : bool :=
  forallb (fun c => negb (PyStr.isspace c)) (list_ascii_of_string s).

(** A log whose only message has punctuation inside and around its words,
    a line break and a tabulation between them, and the same words in
    different cases. *)
Definition punctuated_example : Log :=
  mk_log (Some "2025-10-30")
    [ mk_session
        [mk_message "alice"
           (Text ("Hello, world!" ++ nl ++ "It's a co-op:"
                  ++ String (ascii_of_nat 9) "(hello) WORLD?"))]
        "09:00 AM" "09:10 AM" ].

(** The text of [topic_example] in other cases. *)
Definition topic_example_recased : Log :=
  mk_log None
    [ mk_session
        [mk_message "bob" (Text "tHE The the CAT sAt ON A mat AND the dog ran")]
        "" "" ].

(** ** Order of the participants *)

(** [a < b] on strings: the order of the code points, read left to right. *)
Definition str_lt (a b : string) : Prop := String.ltb a b = true.

(** The roles that occur in the log. *)
Definition has_role (data : Log) (y : string) : Prop :=
  exists c m, In c (conversations data) /\ In m (messages c) /\ role m = y.

(** Two logs with the roles bob, Alice and carol, met in different orders
    and a different number of times. *)
Definition roles_log_a : Log :=
  mk_log None
    [ mk_session [mk_message "bob" (Text "hi"); mk_message "Alice" (Text "hi")]
        "09:00 AM" "09:10 AM";
      mk_session [mk_message "carol" (Text "hi"); mk_message "bob" (Text "yo")]
        "02:00 PM" "02:02 PM" ].

Definition roles_log_b : Log :=
  mk_log (Some "2025-10-30")
    [ mk_session
        [mk_message "carol" (Text "x"); mk_message "Alice" (Text "y");
         mk_message "bob" (Text "z")] "" "" ].

(** ** File names *)

(** [c in s] for a character. *)
Fixpoint has_char (c : ascii) (s : string) : bool :=
  match s with
  | EmptyString => false
  | String x s' => Ascii.eqb x c || has_char c s'
  end.

(** A log with one word met twice and two words met once. *)
Definition ranking_example : Log :=
  mk_log None
    [mk_session [mk_message "a" (Text "zebra apple mango apple")] "" ""].

(** ** The twelve-hour clock *)

(** The period of a timestamp read on the twelve-hour clock: in the
    morning half 12 and 1 to 5 are night, 6 to 11 morning; in the afternoon
    half 12 and 1 to 4 are afternoon, 5 to 9 evening, 10 and 11 night. *)
Definition period_on_clock (h : Z) (p : Strptime.ampm) : period :=
  match p with
  | Strptime.AM =>
      if ((h =? 12) || (h <=? 5))%Z then Night else Morning
  | Strptime.PM =>
      if ((h =? 12) || (h <=? 4))%Z then Afternoon
      else if (h <=? 9)%Z then Evening else Night
  end.

(** The minute of the day of a time. *)
Definition minute_of_day (t : time_obj) : Z := (hour t * 60 + minute t)%Z.

(** A session without messages whose end is not on the twelve-hour clock. *)
Definition log_with_bad_timestamp : Log :=
  mk_log (Some "2025-10-30")
    [ mk_session [mk_message "alice" (Text "good morning")] "09:00 AM" "09:10 AM";
      mk_session [] "02:00 PM" "14:02" ].

(** ** What the statistics count *)

(** [len(content)], or [len(str(content))]. *)
Definition msg_length (m : Message) : nat :=
  String.length (text_of (msg_content m)).

(** The messages of [ms] sent by [p], in order. *)
Definition by_role (p : string) (ms : list Message) : list Message :=
  filter (fun m => String.eqb (role m) p) ms.

(** The first message of the conversation is sent by [p]. *)
Definition opened_by (p : string) (c : Session) : bool :=
  match messages c with
  | m :: _ => String.eqb (role m) p
  | [] => false
  end.

Definition period_eqb (p q : period) : bool :=
  match p, q with
  | Morning, Morning | Afternoon, Afternoon
  | Evening, Evening | Night, Night => true
  | _, _ => false
  end.

(** The start of the conversation falls in the period [q]. *)
Definition in_period (q : period) (c : Session) : bool :=
  match categorize_time_period (start_time c) with
  | Ok p => period_eqb p q
  | Raise _ => false
  end.

(** [stats['time_periods'][q]] *)
Definition period_count (q : period) (c : period_counts) : nat :=
  match q with
  | Morning => n_morning c
  | Afternoon => n_afternoon c
  | Evening => n_evening c
  | Night => n_night c
  end.

(** ** The report *)

(** [str(n)] has at most [w] characters for every [n] below [bound]. *)
Definition fits_below (w bound : nat) : bool :=
  forallb (fun n => String.length (str_of_nat n) <=? w) (seq 0 bound).

(** Every participant listed in the statistics is a key of the three
    dictionaries by participant. *)
Definition participants_known (st : stats) : Prop :=
  forall p, In p (st_participants st) ->
    In p (dict_keys (st_messages_by_participant st))
    /\ In p (dict_keys (st_conversations_started_by st))
    /\ In p (dict_keys (st_message_lengths_by_participant st)).

(** ** The command line *)

(** The lines that [main] prints around the analysis. *)
Definition usage_lines : list line :=
  [ [Str (nl ++ "Usage: python conversation_analyzer.py <filename>")];
    [Str ("Example: python conversation_analyzer.py "
          ++ "daily_conversations_2025-10-30.json" ++ nl)] ].

Definition loading_line (filepath : string) : line :=
  [Str ("Loading conversation file: " ++ filepath ++ "...")].

Definition not_found_lines (filepath : string) : list line :=
  [ [Str (nl ++ "Error: File '" ++ filepath ++ "' not found!")];
    [Str ("Make sure the file exists in the current directory." ++ nl)] ].

Definition not_json_lines (filepath : string) : list line :=
  [ [Str (nl ++ "Error: File '" ++ filepath ++ "' is not valid JSON!")];
    [Str ("Make sure it's a properly formatted JSON file." ++ nl)] ].

(** A file that holds the sessions of [log_with_empty_session] as a bare
    array. *)
Definition read_empty_session (path : string) : read_result :=
  Loaded (RawList (conversations log_with_empty_session)).

(** A file that holds the sessions of [tie_log] as a bare array. *)
Definition read_tie_log (path : string) : read_result :=
  Loaded (RawList (conversations tie_log)).

(** * Properties *)

(** ** The error monad *)

Lemma bind_ok {A B : Type} (r : result A) (k : A -> result B) (b : B) :
  bind r k = Ok b -> exists a, r = Ok a /\ k a = Ok b.
Proof.
  destruct r as [a | e]; simpl; intros H; [exists a; auto | discriminate].
Qed.

Lemma for_each_app {A S : Type} (body : S -> A -> result S) (l1 l2 : list A)
  (s : S) :
  for_each body (l1 ++ l2) s = (s' <- for_each body l1 s ;; for_each body l2 s').
Proof.
  revert s; induction l1 as [| a l1 IH]; intros s; simpl; [reflexivity |].
  destruct (body s a); simpl; auto.
Qed.

(** ** Time classifier *)

Section TimeFacts.
Import PyStr Strptime.
Local Open Scope Z_scope.

Lemma between_spec (lo hi : nat) (c : ascii) :
  between lo hi c = true -> (lo <= code c <= hi)%nat.
Proof.
  unfold between; intros H.
  apply andb_true_iff in H as [H1 H2].
  apply Nat.leb_le in H1, H2; lia.
Qed.

Lemma digit_val_range (lo hi : nat) (c : ascii) :
  between lo hi c = true ->
  Z.of_nat lo - 48 <= digit_val c <= Z.of_nat hi - 48.
Proof.
  intros H; apply between_spec in H; unfold digit_val; lia.
Qed.

Lemma parse_I_range (s rest : string) (h : Z) :
  parse_I s = Some (h, rest) -> 1 <= h <= 12.
Proof.
  unfold parse_I.
  destruct s as [| a [| b s']]; [discriminate | |].
  - destruct (between 49 57 a) eqn:Ha; [| discriminate].
    apply digit_val_range in Ha.
    intros H; replace h with (digit_val a) by congruence; lia.
  - destruct (Ascii.eqb a "1" && between 48 50 b)%bool eqn:H1.
    { apply andb_true_iff in H1 as [_ Hb]. apply digit_val_range in Hb.
      intros H; replace h with (10 + digit_val b) by congruence; lia. }
    destruct (Ascii.eqb a "0" && between 49 57 b)%bool eqn:H2.
    { apply andb_true_iff in H2 as [_ Hb]. apply digit_val_range in Hb.
      intros H; replace h with (digit_val b) by congruence; lia. }
    destruct (between 49 57 a) eqn:Ha; [| discriminate].
    apply digit_val_range in Ha.
    intros H; replace h with (digit_val a) by congruence; lia.
Qed.

Lemma parse_M_range (s rest : string) (m : Z) :
  parse_M s = Some (m, rest) -> 0 <= m <= 59.
Proof.
  unfold parse_M, isdigit.
  destruct s as [| a [| b s']]; [discriminate | |].
  - destruct (between 48 57 a) eqn:Ha; [| discriminate].
    apply digit_val_range in Ha.
    intros H; replace m with (digit_val a) by congruence; lia.
  - destruct (between 48 53 a && between 48 57 b)%bool eqn:H1.
    { apply andb_true_iff in H1 as [Ha Hb].
      apply digit_val_range in Ha, Hb.
      intros H; replace m with (10 * digit_val a + digit_val b) by congruence.
      lia. }
    destruct (between 48 57 a) eqn:Ha; [| discriminate].
    apply digit_val_range in Ha.
    intros H; replace m with (digit_val a) by congruence; lia.
Qed.

Lemma hour24_range (h : Z) (p : ampm) :
  1 <= h <= 12 -> 0 <= hour24 h p <= 23.
Proof.
  intros Hh; unfold hour24.
  destruct p; destruct (Z.eqb_spec h 12); lia.
Qed.

(** Every time [strptime] returns is a time of the day. *)
Lemma strptime_range (s : string) (t : time_obj) :
  Strptime.strptime s = Ok t ->
  0 <= hour t <= 23 /\ 0 <= minute t <= 59.
Proof.
  unfold Strptime.strptime.
  destruct (parse_I s) as [[h s1] |] eqn:HI; [| discriminate].
  destruct (parse_colon s1) as [s2 |]; [| discriminate].
  destruct (parse_M s2) as [[m s3] |] eqn:HM; [| discriminate].
  destruct (parse_spaces s3) as [s4 |]; [| discriminate].
  destruct (parse_p s4) as [p |]; [| discriminate].
  intros [= <-]; simpl.
  apply parse_I_range in HI. apply parse_M_range in HM.
  split; [apply hour24_range; assumption | assumption].
Qed.

Lemma time_eqb_spec (r : result time_obj) (h m : Z) :
  time_eqb r h m = true -> r = Ok (mk_time h m).
Proof.
  destruct r as [[h' m'] | e]; simpl; [| discriminate].
  intros H; apply andb_true_iff in H as [H1 H2].
  apply Z.eqb_eq in H1, H2; subst; reflexivity.
Qed.

Lemma accepts_all_formatted_true : accepts_all_formatted = true.
Proof. vm_compute. reflexivity. Qed.

(** The timestamps of the data model are accepted, and read as the hour
    and the minute they show. *)
Lemma strptime_format_time (h m : Z) (p : ampm) :
  1 <= h <= 12 -> 0 <= m <= 59 ->
  Strptime.strptime (format_time h m p) = Ok (mk_time (hour24 h p) m).
Proof.
  intros Hh Hm.
  pose proof accepts_all_formatted_true as H.
  unfold accepts_all_formatted in H.
  rewrite forallb_forall in H.
  specialize (H (Z.to_nat h)).
  rewrite in_seq, forallb_forall in H.
  specialize (H ltac:(lia) (Z.to_nat m)).
  rewrite in_seq, forallb_forall in H.
  specialize (H ltac:(lia) p).
  rewrite !Z2Nat.id in H by lia.
  apply time_eqb_spec, H.
  destruct p; simpl; auto.
Qed.

End TimeFacts.

(** What [calculate_duration] returns on two accepted timestamps: the
    difference of the minutes of the day. *)
Lemma calculate_duration_ok (s e : string) (ts te : time_obj) :
  strptime s = Ok ts -> strptime e = Ok te ->
  calculate_duration s e
  = Ok ((hour te * 60 + minute te) - (hour ts * 60 + minute ts))%Z.
Proof.
  intros Hs He; unfold calculate_duration, total_seconds.
  rewrite Hs, He; simpl. f_equal.
  replace (hour te * 3600 + minute te * 60
           - (hour ts * 3600 + minute ts * 60))%Z
    with (((hour te * 60 + minute te) - (hour ts * 60 + minute ts)) * 60)%Z
    by lia.
  apply Z.quot_mul; lia.
Qed.

(** What [categorize_time_period] returns on an accepted timestamp. *)
Lemma categorize_time_period_ok (s : string) (t : time_obj) :
  strptime s = Ok t -> exists p, categorize_time_period s = Ok p.
Proof.
  intros Hs; unfold categorize_time_period; rewrite Hs; simpl.
  repeat match goal with |- context [if ?b then _ else _] => destruct b end;
    eauto.
Qed.

(** C4. For timestamps that [strptime] accepts, which include every
    well-formed 12-hour timestamp HH:MM AM/PM, [calculate_duration start end]
    is the minute of the day of [end] minus the minute of the day of
    [start], a whole number of minutes; it is negative whenever [end] is
    earlier in the day than [start]; and the duration from 03:03 PM to
    03:08 PM is 5. *)
Theorem calculate_duration_minutes :
  (forall (s e : string) (ts te : time_obj),
      strptime s = Ok ts -> strptime e = Ok te ->
      let start_minute := (hour ts * 60 + minute ts)%Z in
      let end_minute := (hour te * 60 + minute te)%Z in
      calculate_duration s e = Ok (end_minute - start_minute)%Z
      /\ ((end_minute < start_minute)%Z ->
          exists d, calculate_duration s e = Ok d /\ (d < 0)%Z))
  /\ (forall (h m : Z) (p : Strptime.ampm),
         (1 <= h <= 12)%Z -> (0 <= m <= 59)%Z ->
         strptime (Strptime.format_time h m p)
         = Ok (mk_time (Strptime.hour24 h p) m))
  /\ calculate_duration "03:03 PM" "03:08 PM" = Ok 5%Z.
Proof.
  split; [| split].
  - intros s e ts te Hs He start_minute end_minute.
    pose proof (calculate_duration_ok s e ts te Hs He) as H.
    split; [exact H |].
    intros Hlt; eexists; split; [exact H |].
    subst start_minute end_minute; lia.
  - intros h m p Hh Hm; apply strptime_format_time; assumption.
  - reflexivity.
Qed.

Lemma calculate_duration_minutes_witness :
  calculate_duration "11:55 PM" "12:05 AM" = Ok (-1430)%Z
  /\ exists d, calculate_duration "11:55 PM" "12:05 AM" = Ok d /\ (d < 0)%Z.
Proof.
  pose proof (proj1 calculate_duration_minutes
                "11:55 PM" "12:05 AM" (mk_time 23 55) (mk_time 0 5)
                eq_refl eq_refl) as [H1 H2].
  split; [exact H1 | apply H2; simpl; lia].
Defined.

(** C6. On a timestamp that [strptime] accepts, with hour of the day [h]
    between 0 and 23, [categorize_time_period] returns Morning exactly when
    6 <= h < 12, Afternoon exactly when 12 <= h < 17, Evening exactly when
    17 <= h < 22 and Night in every other case; the eight boundary
    timestamps fall in Morning, Morning, Afternoon, Afternoon, Evening,
    Evening, Night and Night. *)
Theorem categorize_time_period_buckets :
  (forall (s : string) (t : time_obj),
      strptime s = Ok t ->
      (0 <= hour t <= 23)%Z
      /\ exists p,
          categorize_time_period s = Ok p
          /\ (p = Morning <-> (6 <= hour t < 12)%Z)
          /\ (p = Afternoon <-> (12 <= hour t < 17)%Z)
          /\ (p = Evening <-> (17 <= hour t < 22)%Z)
          /\ (p = Night <-> ~ (6 <= hour t < 22)%Z))
  /\ categorize_time_period "06:00 AM" = Ok Morning
  /\ categorize_time_period "11:59 AM" = Ok Morning
  /\ categorize_time_period "12:00 PM" = Ok Afternoon
  /\ categorize_time_period "04:59 PM" = Ok Afternoon
  /\ categorize_time_period "05:00 PM" = Ok Evening
  /\ categorize_time_period "09:59 PM" = Ok Evening
  /\ categorize_time_period "10:00 PM" = Ok Night
  /\ categorize_time_period "05:59 AM" = Ok Night.
Proof.
  split; [| repeat split; reflexivity].
  intros s t Hs.
  split; [apply (strptime_range s t Hs) |].
  unfold categorize_time_period; rewrite Hs; simpl.
  destruct (6 <=? hour t)%Z eqn:H6; destruct (hour t <? 12)%Z eqn:H12;
    destruct (12 <=? hour t)%Z eqn:H12'; destruct (hour t <? 17)%Z eqn:H17;
    destruct (17 <=? hour t)%Z eqn:H17'; destruct (hour t <? 22)%Z eqn:H22;
    simpl; eexists; (split; [reflexivity |]);
    try apply Z.leb_le in H6; try apply Z.leb_gt in H6;
    try apply Z.ltb_lt in H12; try apply Z.ltb_ge in H12;
    try apply Z.leb_le in H12'; try apply Z.leb_gt in H12';
    try apply Z.ltb_lt in H17; try apply Z.ltb_ge in H17;
    try apply Z.leb_le in H17'; try apply Z.leb_gt in H17';
    try apply Z.ltb_lt in H22; try apply Z.ltb_ge in H22;
    repeat split; intros; try discriminate; try lia; try reflexivity.
Qed.

Lemma categorize_time_period_buckets_witness :
  strptime "04:59 PM" = Ok (mk_time 16 59)
  /\ exists p,
      categorize_time_period "04:59 PM" = Ok p
      /\ (p = Afternoon <-> (12 <= 16 < 17)%Z).
Proof.
  split; [reflexivity |].
  destruct (proj1 categorize_time_period_buckets
              "04:59 PM" (mk_time 16 59) eq_refl)
    as [_ [p [Hp [_ [Ha _]]]]].
  exists p; split; [exact Hp | exact Ha].
Defined.

(** ** Format normalizer *)

Section NormalizerFacts.
Import PyStr.

Lemma scan_parts_find (parts : list string) (d : string) :
  scan_parts parts d
  = match find (fun part => startswith "20" part && contains ".json" part) parts with
    | Some part => remove_all ".json" part
    | None => d
    end.
Proof.
  induction parts as [| part rest IH]; cbn [scan_parts find]; [reflexivity |].
  destruct (startswith "20" part && contains ".json" part); auto.
Qed.

Lemma startswith_nil_r (p : string) :
  startswith p EmptyString = true -> p = EmptyString.
Proof. destruct p; simpl; [reflexivity | discriminate]. Qed.

Lemma startswith_app (p s t : string) :
  startswith p s = true -> startswith p (s ++ t)%string = true.
Proof.
  revert s; induction p as [| a p IH]; intros s; simpl; [reflexivity |].
  destruct s as [| b s]; simpl; [discriminate |].
  intros H; apply andb_true_iff in H as [H1 H2].
  rewrite H1; simpl; auto.
Qed.

Lemma contains_startswith (p s : string) :
  startswith p s = true -> contains p s = true.
Proof. intros H; destruct s; simpl in *; rewrite H; reflexivity. Qed.

Lemma contains_cons (p : string) (c : ascii) (s : string) :
  contains p s = true -> contains p (String c s) = true.
Proof. intros H; simpl; rewrite H; apply orb_true_r. Qed.

(** The first piece of [split_on] is a prefix of the string. *)
Lemma split_on_head (sep : ascii) (s : string) :
  exists part parts rest,
    split_on sep s = part :: parts /\ s = (part ++ rest)%string.
Proof.
  induction s as [| c s IH]; simpl.
  - exists EmptyString, [], EmptyString; auto.
  - destruct (Ascii.eqb c sep).
    + exists EmptyString, (split_on sep s), (String c s); auto.
    + destruct IH as (part & parts & rest & -> & Hs).
      exists (String c part), parts, rest; simpl; rewrite <- Hs; auto.
Qed.

(** A piece that starts with [p] shows that the string contains [p]. *)
Lemma split_on_contains (sep : ascii) (p s part : string) :
  In part (split_on sep s) -> startswith p part = true -> contains p s = true.
Proof.
  revert part; induction s as [| c s IH]; intros part; simpl.
  - intros [<- | []] H. apply startswith_nil_r in H; subst; reflexivity.
  - destruct (Ascii.eqb c sep).
    + intros [<- | Hin] H.
      * apply startswith_nil_r in H; subst; reflexivity.
      * rewrite (IH part Hin H); apply orb_true_r.
    + destruct (split_on_head sep s) as (q & qs & rest & Hq & Hs).
      rewrite Hq in *.
      intros [<- | Hin] H.
      * rewrite Hs. change (String c (q ++ rest)) with (String c q ++ rest)%string.
        rewrite (startswith_app _ _ rest H); reflexivity.
      * rewrite (IH part (or_intror Hin) H); apply orb_true_r.
Qed.

(** The test ["20" in filename] changes nothing: without "20" in the file
    name no part starts with "20". *)
Lemma label_of_filename_guard (filename : string) :
  contains "20" filename = false -> label_of_filename filename = "Unknown Date".
Proof.
  intros H; unfold label_of_filename.
  destruct (find _ _) as [part |] eqn:Hf; [| reflexivity].
  apply find_some in Hf as [Hin Hp].
  apply andb_true_iff in Hp as [Hp _].
  rewrite (split_on_contains _ _ _ _ Hin Hp) in H; discriminate.
Qed.

Lemma load_list (filepath : string) (items : list Session) :
  load_conversation_file filepath (RawList items)
  = Ok (mk_log (Some (label_of_filename (basename filepath))) items).
Proof.
  unfold load_conversation_file.
  destruct (contains "20" (basename filepath)) eqn:H.
  - rewrite scan_parts_find; reflexivity.
  - rewrite label_of_filename_guard by assumption; reflexivity.
Qed.

(** Removing ".json" keeps a leading "20". *)
Lemma remove_json_keeps_20 (part : string) :
  startswith "20" part = true ->
  startswith "20" (remove_all ".json" part) = true.
Proof.
  destruct part as [| c1 [| c2 r]]; cbn [startswith]; try discriminate.
  - rewrite andb_false_r; discriminate.
  - intros H; apply andb_true_iff in H as [H1 H2].
    apply andb_true_iff in H2 as [H2 _].
    apply Ascii.eqb_eq in H1, H2; subst c1 c2.
    reflexivity.
Qed.

Lemma label_of_filename_cases (filename : string) :
  label_of_filename filename = "Unknown Date"
  \/ startswith "20" (label_of_filename filename) = true.
Proof.
  unfold label_of_filename.
  destruct (find _ _) as [part |] eqn:Hf; [right | left; reflexivity].
  apply find_some in Hf as [_ Hp].
  apply andb_true_iff in Hp as [Hp _].
  apply remove_json_keeps_20; assumption.
Qed.

Lemma label_of_filename_nonempty (filename : string) :
  label_of_filename filename <> EmptyString.
Proof.
  destruct (label_of_filename_cases filename) as [H | H]; rewrite ?H.
  - discriminate.
  - intros E; rewrite E in H; discriminate.
Qed.

End NormalizerFacts.

Section SuffixFacts.
Import PyStr.

(** An occurrence of ".json" that starts inside [s] lies inside [s]: it
    cannot run over into a ".json" that follows. *)
Lemma startswith_json_app (c : ascii) (r : string) :
  startswith ".json" (String c r ++ ".json")%string = true ->
  startswith ".json" (String c r) = true.
Proof.
  destruct r as [| c2 [| c3 [| c4 [| c5 r]]]];
    cbn [startswith append];
    repeat match goal with
      | |- context [Ascii.eqb ?a ?b] =>
          destruct (Ascii.eqb_spec a b); try discriminate; subst;
          cbn [andb]
      end;
    try discriminate; auto.
Qed.

(** When ".json" occurs in a part only as its suffix, removing every
    occurrence strips the suffix. *)
Lemma remove_all_suffix_only (stem : string) :
  contains ".json" stem = false ->
  remove_all ".json" (stem ++ ".json")%string = stem.
Proof.
  unfold remove_all.
  induction stem as [| c r IH]; [reflexivity |].
  intros H. cbn [contains] in H.
  apply orb_false_iff in H as [H1 H2].
  change (String c r ++ ".json")%string with (String c (r ++ ".json")).
  cbn [remove_aux].
  destruct (startswith ".json" (String c (r ++ ".json"))) eqn:Hs.
  - apply (startswith_json_app c r) in Hs. rewrite Hs in H1; discriminate.
  - rewrite (IH H2); reflexivity.
Qed.

End SuffixFacts.

(** C1, as amended. For every bare array (old format) the dictionary
    returned carries a label that is not empty: one derived from the file
    name, which starts with "20", or "Unknown Date" when no part of the
    file name yields one. An object with a ['conversations'] entry (new
    format) is returned as it was read: its label is the one the input
    carries, and is missing when the input has none. Every other value is
    refused. *)
Theorem normalized_label :
  (forall (filepath : string) (items : list Session),
      exists label,
        load_conversation_file filepath (RawList items)
        = Ok (mk_log (Some label) items)
        /\ label <> EmptyString
        /\ (label = "Unknown Date" \/ PyStr.startswith "20" label = true)
        /\ (find dated_part (PyStr.split_on "_" (PyStr.basename filepath)) = None ->
            label = "Unknown Date"))
  /\ (forall (filepath : string) (d : option string) (convs : list Session),
         load_conversation_file filepath (RawDict d (Some convs))
         = Ok (mk_log d convs))
  /\ (forall (filepath : string) (d : option string),
         load_conversation_file filepath (RawDict d None)
         = Raise ValueError_format)
  /\ (forall filepath : string,
         load_conversation_file filepath RawOther = Raise ValueError_format).
Proof.
  repeat split; try reflexivity.
  intros filepath items.
  exists (label_of_filename (PyStr.basename filepath)).
  split; [apply load_list |].
  split; [apply label_of_filename_nonempty |].
  split; [apply label_of_filename_cases |].
  intros H; unfold label_of_filename.
  change (fun part => PyStr.startswith "20" part && PyStr.contains ".json" part)
    with dated_part.
  rewrite H; reflexivity.
Qed.

Lemma normalized_label_witness :
  find dated_part (PyStr.split_on "_" (PyStr.basename "logs/chat.json")) = None
  /\ load_conversation_file "logs/chat.json" (RawList [])
     = Ok (mk_log (Some "Unknown Date") []).
Proof.
  split; [reflexivity |].
  destruct (proj1 normalized_label "logs/chat.json" [])
    as (label & Hload & _ & _ & Hnone).
  rewrite Hload, (Hnone eq_refl); reflexivity.
Defined.

(** C1 fails as stated: an object of the new format without a ['date']
    entry is accepted and returned without a label, and [get_basic_stats]
    then raises [KeyError]. *)
Lemma normalized_label_counterexample :
  load_conversation_file "log.json" (RawDict None (Some []))
  = Ok (mk_log None [])
  /\ get_basic_stats (mk_log None []) = Raise (KeyError "date")
  /\ ~ (forall (filepath : string) (raw : raw_data) (log : Log),
           load_conversation_file filepath raw = Ok log ->
           exists label, date log = Some label /\ label <> EmptyString).
Proof.
  split; [reflexivity |]. split; [reflexivity |].
  intros H.
  destruct (H "log.json" (RawDict None (Some [])) (mk_log None []) eq_refl)
    as (label & Hd & _).
  discriminate Hd.
Qed.

(** C3, as amended. For a bare array the label comes from the base name of
    the file path, cut at underscores: the first part that starts with "20"
    and contains ".json" becomes the label, with every occurrence of
    ".json" removed; when ".json" occurs in that part only as its suffix,
    the label is the part with the suffix stripped; when no part starts
    with "20" and contains ".json", the label is "Unknown Date". *)
Theorem old_format_label (filepath : string) (items : list Session) :
  let parts := PyStr.split_on "_" (PyStr.basename filepath) in
  (forall part : string,
      find dated_part parts = Some part ->
      load_conversation_file filepath (RawList items)
      = Ok (mk_log (Some (PyStr.remove_all ".json" part)) items))
  /\ (forall stem : string,
         find dated_part parts = Some (stem ++ ".json")%string ->
         PyStr.contains ".json" stem = false ->
         load_conversation_file filepath (RawList items)
         = Ok (mk_log (Some stem) items))
  /\ (find dated_part parts = None ->
      load_conversation_file filepath (RawList items)
      = Ok (mk_log (Some "Unknown Date") items)).
Proof.
  intros parts.
  assert (Hl : load_conversation_file filepath (RawList items)
               = Ok (mk_log (Some match find dated_part parts with
                                  | Some part => PyStr.remove_all ".json" part
                                  | None => "Unknown Date"
                                  end) items)) by apply load_list.
  repeat split.
  - intros part H; rewrite Hl, H; reflexivity.
  - intros stem H Hc; rewrite Hl, H, remove_all_suffix_only by assumption.
    reflexivity.
  - intros H; rewrite Hl, H; reflexivity.
Qed.

Lemma old_format_label_witness :
  find dated_part
    (PyStr.split_on "_" (PyStr.basename "logs/daily_conversations_2025-10-25.json"))
  = Some ("2025-10-25" ++ ".json")%string
  /\ PyStr.contains ".json" "2025-10-25" = false
  /\ load_conversation_file "logs/daily_conversations_2025-10-25.json" (RawList [])
     = Ok (mk_log (Some "2025-10-25") []).
Proof.
  split; [reflexivity |]. split; [reflexivity |].
  exact (proj1 (proj2 (old_format_label
                         "logs/daily_conversations_2025-10-25.json" []))
           "2025-10-25" eq_refl eq_refl).
Defined.

(** C3 fails as stated: in "a_2025.json.bak" no part both starts with "20"
    and ends with ".json", so the label should be "Unknown Date", but the
    code returns "2025.bak". *)
Lemma old_format_label_counterexample :
  find (fun token => PyStr.startswith "20" token && PyStr.endswith ".json" token)
       (PyStr.split_on "_" (PyStr.basename "a_2025.json.bak")) = None
  /\ label_by_spec (PyStr.basename "a_2025.json.bak") = "Unknown Date"
  /\ load_conversation_file "a_2025.json.bak" (RawList [])
     = Ok (mk_log (Some "2025.bak") []).
Proof. repeat split; reflexivity. Qed.

(** ** Dictionaries and sorting *)

Section DictFacts.
Context {V : Type}.
Implicit Types (d : list (string * V)) (k : string).

Lemma dict_get_in k d : In k (dict_keys d) -> exists v, dict_get k d = Some v.
Proof.
  induction d as [| [k' v'] d IH]; simpl; [intros [] |].
  destruct (String.eqb_spec k k') as [-> | Hne]; [eauto |].
  intros [E | Hin]; [congruence | auto].
Qed.

Lemma dict_get_some_in k d v : dict_get k d = Some v -> In k (dict_keys d).
Proof.
  induction d as [| [k' v'] d IH]; simpl; [discriminate |].
  destruct (String.eqb_spec k k') as [-> | Hne]; auto.
Qed.

Lemma dict_set_keys k d v v' :
  dict_get k d = Some v -> dict_keys (dict_set k v' d) = dict_keys d.
Proof.
  induction d as [| [k0 v0] d IH]; simpl; [discriminate |].
  destruct (String.eqb_spec k k0) as [-> | Hne]; simpl; [reflexivity |].
  intros H; rewrite (IH H); reflexivity.
Qed.

Lemma dict_set_keys_new k d v :
  dict_get k d = None -> dict_keys (dict_set k v d) = dict_keys d ++ [k].
Proof.
  induction d as [| [k0 v0] d IH]; simpl; [reflexivity |].
  destruct (String.eqb_spec k k0) as [-> | Hne]; simpl; [discriminate |].
  intros H; rewrite (IH H); reflexivity.
Qed.

Lemma dict_modify_ok k (f : V -> V) d :
  In k (dict_keys d) -> exists d', dict_modify k f d = Ok d'.
Proof.
  intros H; destruct (dict_get_in k d H) as [v Hv].
  unfold dict_modify; rewrite Hv; eauto.
Qed.

Lemma dict_modify_inv k (f : V -> V) d d' :
  dict_modify k f d = Ok d' ->
  exists v, dict_get k d = Some v /\ d' = dict_set k (f v) d.
Proof.
  unfold dict_modify; destruct (dict_get k d) as [v |]; [| discriminate].
  intros [= <-]; eauto.
Qed.

Lemma dict_modify_keys k (f : V -> V) d d' :
  dict_modify k f d = Ok d' -> dict_keys d' = dict_keys d.
Proof.
  intros H; apply dict_modify_inv in H as (v & Hv & ->).
  eapply dict_set_keys; eassumption.
Qed.

Lemma dict_from_keys_keys (ps : list string) (v : V) :
  dict_keys (dict_from_keys ps v) = ps.
Proof.
  unfold dict_keys, dict_from_keys; rewrite map_map; simpl; apply map_id.
Qed.

End DictFacts.

Lemma dict_set_sum (k : string) (d : list (string * nat)) (v v' : nat) :
  dict_get k d = Some v -> dict_sum (dict_set k v' d) + v = dict_sum d + v'.
Proof.
  unfold dict_sum.
  induction d as [| [k0 v0] d IH]; simpl; [discriminate |].
  destruct (String.eqb_spec k k0) as [-> | Hne]; simpl.
  - intros [= ->]; lia.
  - intros H; specialize (IH H); lia.
Qed.

Lemma dict_modify_sum (k : string) (d d' : list (string * nat)) :
  dict_modify k (fun n => n + 1) d = Ok d' -> dict_sum d' = dict_sum d + 1.
Proof.
  intros H; apply dict_modify_inv in H as (v & Hv & ->).
  pose proof (dict_set_sum k d v (v + 1) Hv); lia.
Qed.

Lemma dict_from_keys_sum (ps : list string) : dict_sum (dict_from_keys ps 0) = 0.
Proof.
  unfold dict_sum, dict_from_keys; induction ps; simpl; auto.
Qed.

Section SortedFacts.
Context {A : Type} (le : A -> A -> bool).

Lemma insert_sorted_perm (x : A) (l : list A) :
  Permutation (insert_sorted le x l) (x :: l).
Proof.
  induction l as [| y l IH]; simpl; [reflexivity |].
  destruct (le x y); [reflexivity |].
  rewrite IH; apply perm_swap.
Qed.

Lemma sorted_perm (l : list A) : Permutation (sorted le l) l.
Proof.
  induction l as [| x l IH]; simpl; [reflexivity |].
  rewrite insert_sorted_perm; auto.
Qed.

Lemma sorted_in (x : A) (l : list A) : In x (sorted le l) <-> In x l.
Proof.
  split; apply Permutation_in; [| symmetry]; apply sorted_perm.
Qed.

End SortedFacts.

(** ** Participant detector *)

Lemma set_add_in (x y : string) (s : list string) :
  In y (set_add x s) <-> y = x \/ In y s.
Proof.
  unfold set_add.
  destruct (existsb (String.eqb x) s) eqn:E.
  - apply existsb_exists in E as (z & Hz & Hxz).
    apply String.eqb_eq in Hxz; subst z.
    split; [auto | intros [-> | H]; auto].
  - rewrite in_app_iff; simpl; intuition.
Qed.

Lemma add_roles_in (ms : list Message) (ps : list string) (y : string) :
  In y (add_roles ps ms) <-> In y ps \/ exists m, In m ms /\ role m = y.
Proof.
  unfold add_roles; revert ps; induction ms as [| m ms IH]; intros ps; simpl.
  - split; [auto | intros [H | (m & [] & _)]; auto].
  - rewrite IH, set_add_in. split.
    + intros [[-> | H] | (m' & Hm' & E)]; eauto.
    + intros [H | (m' & [<- | Hm'] & E)]; eauto.
Qed.

Lemma add_all_roles_in (convs : list Session) (ps : list string) (y : string) :
  In y (fold_left (fun ps c => add_roles ps (messages c)) convs ps)
  <-> In y ps \/ exists c m, In c convs /\ In m (messages c) /\ role m = y.
Proof.
  revert ps; induction convs as [| c convs IH]; intros ps; simpl.
  - split; [auto | intros [H | (c & m & [] & _)]; auto].
  - rewrite IH, add_roles_in. split.
    + intros [[H | (m & Hm & E)] | (c' & m & Hc & Hm & E)]; eauto 8.
    + intros [H | (c' & m & [<- | Hc] & Hm & E)]; eauto 8.
Qed.

(** The participants are the roles of the messages of the log. *)
Lemma detect_participants_in (data : Log) (y : string) :
  In y (detect_participants data)
  <-> exists c m, In c (conversations data) /\ In m (messages c) /\ role m = y.
Proof.
  unfold detect_participants; rewrite sorted_in.
  change (fold_left _ (conversations data) [])
    with (fold_left (fun ps c => add_roles ps (messages c)) (conversations data) []).
  rewrite add_all_roles_in; simpl; intuition.
Qed.

(** ** Statistics aggregator *)

Lemma count_message_inv (st st' : stats) (m : Message) :
  count_message st m = Ok st' -> messages_effect st [m] st'.
Proof.
  unfold count_message; intros H.
  apply bind_ok in H as (bp & Hbp & H).
  apply bind_ok in H as (ls & Hls & H).
  injection H as <-.
  constructor; simpl; auto.
  - rewrite (dict_modify_sum _ _ _ Hbp); reflexivity.
  - intros ps (K1 & K2 & K3); repeat split; simpl; auto.
    + rewrite (dict_modify_keys _ _ _ _ Hbp); assumption.
    + rewrite (dict_modify_keys _ _ _ _ Hls); assumption.
Qed.

Lemma count_message_ok (ps : list string) (st : stats) (m : Message) :
  keys_are ps st -> In (role m) ps -> exists st', count_message st m = Ok st'.
Proof.
  intros (K1 & _ & K3) Hin; unfold count_message.
  destruct (dict_modify_ok (role m) (fun n => n + 1)
              (st_messages_by_participant st)) as [bp ->];
    [rewrite K1; assumption |].
  destruct (dict_modify_ok (role m)
              (fun l => l ++ [String.length (text_of (msg_content m))])
              (st_message_lengths_by_participant st)) as [ls ->];
    [rewrite K3; assumption |].
  simpl; eauto.
Qed.

Lemma messages_effect_refl (st : stats) : messages_effect st [] st.
Proof. constructor; simpl; auto. Qed.

Lemma messages_effect_cons (st st1 st2 : stats) (m : Message)
  (ms : list Message) :
  messages_effect st [m] st1 -> messages_effect st1 ms st2 ->
  messages_effect st (m :: ms) st2.
Proof.
  intros [] []; constructor; simpl in *; try congruence; try lia; auto.
Qed.

Lemma count_messages_inv (ms : list Message) (st st' : stats) :
  for_each count_message ms st = Ok st' -> messages_effect st ms st'.
Proof.
  revert st; induction ms as [| m ms IH]; intros st; simpl.
  - intros [= <-]; apply messages_effect_refl.
  - intros H; apply bind_ok in H as (st1 & H1 & H2).
    eapply messages_effect_cons; [apply count_message_inv | apply IH]; eauto.
Qed.

Lemma count_messages_ok (ps : list string) (ms : list Message) (st : stats) :
  keys_are ps st -> (forall m, In m ms -> In (role m) ps) ->
  exists st', for_each count_message ms st = Ok st'.
Proof.
  revert st; induction ms as [| m ms IH]; intros st K Hin; simpl; [eauto |].
  destruct (count_message_ok ps st m K) as [st1 H1]; [apply Hin; simpl; auto |].
  rewrite H1; simpl.
  apply IH; [| intros; apply Hin; simpl; auto].
  apply (me_keys _ _ _ (count_message_inv _ _ _ H1)); assumption.
Qed.

Lemma summarize_ok (i : nat) (c : Session) :
  (exists t, strptime (start_time c) = Ok t) ->
  (exists t, strptime (end_time c) = Ok t) ->
  exists info, summarize i c = Ok info.
Proof.
  intros [ts Hs] [te He]; unfold summarize.
  rewrite (calculate_duration_ok _ _ _ _ Hs He); simpl.
  destruct (categorize_time_period_ok _ _ Hs) as [p ->]; simpl; eauto.
Qed.

Lemma summarize_fields (i : nat) (c : Session) (info : conv_info) :
  summarize i c = Ok info ->
  ci_index info = i + 1
  /\ ci_message_count info = List.length (messages c)
  /\ ci_start_time info = start_time c
  /\ ci_end_time info = end_time c
  /\ calculate_duration (start_time c) (end_time c)
     = Ok (ci_duration_minutes info)
  /\ categorize_time_period (start_time c) = Ok (ci_time_period info).
Proof.
  unfold summarize; intros H.
  apply bind_ok in H as (d & Hd & H).
  apply bind_ok in H as (p & Hp & H).
  injection H as <-; simpl; auto 6.
Qed.

Lemma process_conversation_inv (st st' : stats) (i : nat) (c : Session) :
  process_conversation st (i, c) = Ok st' ->
  exists info, summarize i c = Ok info /\ conversation_effect st c info st'.
Proof.
  unfold process_conversation, summarize; intros H.
  apply bind_ok in H as (d & Hd & H); rewrite Hd.
  apply bind_ok in H as (p & Hp & H); rewrite Hp.
  apply bind_ok in H as (first & Hf & H).
  apply bind_ok in H as (sb & Hsb & H).
  apply count_messages_inv in H; destruct H; simpl in *.
  eexists; split; [reflexivity |].
  constructor; simpl; auto.
  - unfold first_message in Hf; intros E; rewrite E in Hf; discriminate.
  - rewrite me_started0; apply (dict_modify_sum _ _ _ Hsb).
  - intros ps (K1 & K2 & K3); apply me_keys0; repeat split; simpl; auto.
    rewrite (dict_modify_keys _ _ _ _ Hsb); assumption.
Qed.

Lemma process_conversation_ok (ps : list string) (st : stats) (i : nat)
  (c : Session) :
  keys_are ps st -> well_formed_session c ->
  (forall m, In m (messages c) -> In (role m) ps) ->
  exists st', process_conversation st (i, c) = Ok st'.
Proof.
  intros (K1 & K2 & K3) (Hne & [ts Hs] & [te He]) Hin.
  unfold process_conversation.
  rewrite (calculate_duration_ok _ _ _ _ Hs He); cbn [bind].
  destruct (categorize_time_period_ok _ _ Hs) as [p ->]; cbn [bind].
  unfold first_message.
  destruct (messages c) as [| m ms] eqn:Hm; [congruence |]; cbn [bind].
  destruct (dict_modify_ok (role m) (fun n => n + 1)
              (st_conversations_started_by st)) as [sb Hsb];
    [rewrite K2; apply Hin; simpl; auto |].
  rewrite Hsb; cbn [bind].
  apply (count_messages_ok ps); [| assumption].
  repeat split; simpl; auto.
  rewrite (dict_modify_keys _ _ _ _ Hsb); assumption.
Qed.

Lemma enumerate_from_cons {A : Type} (n : nat) (a : A) (l : list A) :
  enumerate_from n (a :: l) = (n, a) :: enumerate_from (S n) l.
Proof. reflexivity. Qed.

Lemma enumerate_from_app {A : Type} (l1 l2 : list A) (n : nat) :
  enumerate_from n (l1 ++ l2)
  = enumerate_from n l1 ++ enumerate_from (n + List.length l1) l2.
Proof.
  revert n; induction l1 as [| a l1 IH]; intros n.
  - simpl; rewrite Nat.add_0_r; reflexivity.
  - rewrite <- app_comm_cons, !enumerate_from_cons, IH; simpl.
    rewrite Nat.add_succ_r; reflexivity.
Qed.

Lemma period_total_add (p : period) (n : nat) (c : period_counts) :
  period_total (add_to_period p n c) = period_total c + n.
Proof. destruct p; unfold period_total; simpl; lia. Qed.

Lemma loop_effect_nil (st : stats) : loop_effect st [] [] st.
Proof.
  constructor; unfold total_count; simpl; auto; try lia.
  symmetry; apply app_nil_r.
Qed.

Lemma loop_effect_cons (st st1 st2 : stats) (c : Session) (l : list Session)
  (info : conv_info) (infos : list conv_info) :
  conversation_effect st c info st1 -> loop_effect st1 l infos st2 ->
  loop_effect st (c :: l) (info :: infos) st2.
Proof.
  intros [] []; constructor; unfold total_count in *; simpl in *;
    fold (message_count c); try congruence; try lia; auto.
  - rewrite le_total0, ce_total0; unfold message_count; lia.
  - rewrite le_by_participant0, ce_by_participant0; unfold message_count; lia.
  - rewrite le_lengths0, ce_lengths0, <- app_assoc; reflexivity.
  - rewrite le_periods0, ce_periods0, period_total_add.
    unfold message_count; lia.
Qed.

Lemma conversations_inv (l : list Session) (n : nat) (st st' : stats) :
  for_each process_conversation (enumerate_from n l) st = Ok st' ->
  exists infos, summaries n l infos /\ loop_effect st l infos st'.
Proof.
  revert n st; induction l as [| c l IH]; intros n st.
  - simpl; intros [= <-]; exists []; split; [constructor | apply loop_effect_nil].
  - rewrite enumerate_from_cons; cbn [for_each]; intros H.
    apply bind_ok in H as (st1 & H1 & H2).
    apply process_conversation_inv in H1 as (info & Hi & He).
    apply IH in H2 as (infos & Hs & Hl).
    exists (info :: infos); split.
    + unfold summaries; rewrite enumerate_from_cons; constructor; assumption.
    + eapply loop_effect_cons; eassumption.
Qed.

Lemma conversations_ok (ps : list string) (l : list Session) (n : nat)
  (st : stats) :
  keys_are ps st -> Forall well_formed_session l ->
  (forall c m, In c l -> In m (messages c) -> In (role m) ps) ->
  exists st', for_each process_conversation (enumerate_from n l) st = Ok st'.
Proof.
  revert n st; induction l as [| c l IH]; intros n st K Hwf Hin.
  - simpl; eauto.
  - rewrite enumerate_from_cons; cbn [for_each].
    inversion Hwf as [| ? ? Hc Hl]; subst.
    destruct (process_conversation_ok ps st n c K Hc) as [st1 H1];
      [intros m Hm; apply (Hin c m); simpl; auto |].
    rewrite H1; cbn [bind].
    apply IH; [| assumption | intros c' m Hc' Hm; apply (Hin c' m); simpl; auto].
    apply process_conversation_inv in H1 as (info & _ & He).
    apply (ce_keys _ _ _ _ He); assumption.
Qed.

Lemma initial_stats_keys (label : string) (data : Log) (ps : list string) :
  keys_are ps (initial_stats label data ps).
Proof. repeat split; simpl; apply dict_from_keys_keys. Qed.

(** On a log with a label whose sessions are well formed, the aggregator
    returns statistics. *)
Lemma get_basic_stats_ok (data : Log) (label : string) :
  date data = Some label -> Forall well_formed_session (conversations data) ->
  exists st, get_basic_stats data = Ok st.
Proof.
  intros Hd Hwf; unfold get_basic_stats; rewrite Hd; cbn [bind].
  apply (conversations_ok (detect_participants data));
    [apply initial_stats_keys | assumption |].
  intros c m Hc Hm; apply detect_participants_in; eauto.
Qed.

(** What the statistics returned are made of. *)
Lemma get_basic_stats_inv (data : Log) (st : stats) :
  get_basic_stats data = Ok st ->
  exists label infos,
    date data = Some label
    /\ summaries 0 (conversations data) infos
    /\ loop_effect (initial_stats label data (detect_participants data))
         (conversations data) infos st.
Proof.
  unfold get_basic_stats; intros H.
  destruct (date data) as [label |]; [| discriminate].
  cbn [bind] in H. apply conversations_inv in H as (infos & Hs & Hl).
  eauto.
Qed.

(** ** Shortest and longest conversation *)

(** The running extreme of a loop that replaces the stored summary only by
    one with a strictly smaller key. *)
Section RunningExtreme.
Variable key : conv_info -> Z.
Variable update : option conv_info -> conv_info -> option conv_info.
Hypothesis update_none : forall info, update None info = Some info.
Hypothesis update_some : forall c info,
  update (Some c) info = if (key info <? key c)%Z then Some info else Some c.

Lemma running_extreme (infos : list conv_info) (c : conv_info) :
  exists pre x post,
    c :: infos = pre ++ x :: post
    /\ fold_left update infos (Some c) = Some x
    /\ (forall y, In y pre -> (key x < key y)%Z)
    /\ (forall y, In y post -> (key x <= key y)%Z).
Proof.
  revert c; induction infos as [| y infos IH]; intros c.
  - exists [], c, []; simpl; intuition.
  - cbn [fold_left]; rewrite update_some.
    destruct (Z.ltb_spec (key y) (key c)) as [Hlt | Hge].
    + destruct (IH y) as (pre & x & post & E & Hf & Hpre & Hpost).
      exists (c :: pre), x, post; rewrite E; split; [reflexivity |].
      split; [assumption |]. split; [| assumption].
      assert (Hxy : (key x <= key y)%Z).
      { destruct pre as [| p pre]; injection E as <- _; [lia |].
        specialize (Hpre y (or_introl eq_refl)); lia. }
      intros z [<- | Hz]; [lia | auto].
    + destruct (IH c) as (pre & x & post & E & Hf & Hpre & Hpost).
      destruct pre as [| p pre]; injection E as E1 E2.
      * subst x post. exists [], c, (y :: infos); split; [reflexivity |].
        split; [assumption |]. split; [intros ? [] |].
        intros z [<- | Hz]; [lia | auto].
      * subst p infos. exists (c :: y :: pre), x, post.
        split; [reflexivity |]. split; [assumption |]. split; [| assumption].
        pose proof (Hpre c (or_introl eq_refl)) as Hc.
        intros z [<- | [<- | Hz]]; [assumption | lia | apply Hpre; simpl; auto].
Qed.

Lemma running_extreme_from_none (infos : list conv_info) :
  match infos with
  | [] => fold_left update infos None = None
  | _ :: _ =>
      exists pre x post,
        infos = pre ++ x :: post
        /\ fold_left update infos None = Some x
        /\ (forall y, In y pre -> (key x < key y)%Z)
        /\ (forall y, In y post -> (key x <= key y)%Z)
  end.
Proof.
  destruct infos as [| c infos]; [reflexivity |].
  cbn [fold_left]; rewrite update_none; apply running_extreme.
Qed.

End RunningExtreme.

Lemma summaries_app_inv (pre : list conv_info) (x : conv_info)
  (post : list conv_info) (n : nat) (l : list Session) :
  summaries n l (pre ++ x :: post) ->
  exists lpre c lpost,
    l = lpre ++ c :: lpost
    /\ List.length lpre = List.length pre
    /\ summaries n lpre pre
    /\ summarize (n + List.length lpre) c = Ok x
    /\ summaries (n + List.length lpre + 1) lpost post.
Proof.
  unfold summaries; revert n l; induction pre as [| p pre IH]; intros n l H.
  - destruct l as [| c l]; [inversion H |].
    rewrite enumerate_from_cons in H; simpl in H.
    inversion H as [| ? ? ? ? Hc Hl]; subst.
    exists [], c, l; simpl in *.
    rewrite !Nat.add_0_r, Nat.add_1_r. repeat split; auto; constructor.
  - destruct l as [| c l]; [inversion H |].
    rewrite enumerate_from_cons in H; simpl in H.
    inversion H as [| ? ? ? ? Hc Hl]; subst.
    apply IH in Hl as (lpre & c0 & lpost & -> & Hlen & Hpre & Hx & Hpost).
    exists (c :: lpre), c0, lpost; simpl.
    rewrite Nat.add_succ_r; simpl in *.
    repeat split; auto.
    rewrite enumerate_from_cons; constructor; assumption.
Qed.

Lemma summaries_counts (n : nat) (l : list Session) (infos : list conv_info) :
  summaries n l infos ->
  forall c, In c l ->
  exists info, In info infos /\ ci_message_count info = message_count c.
Proof.
  unfold summaries; revert n infos; induction l as [| c l IH]; intros n infos H.
  - intros c [].
  - rewrite enumerate_from_cons in H.
    inversion H as [| ? info ? infos' Hc Hl]; subst; simpl in Hc.
    intros c' [<- | Hin].
    + exists info; split; [simpl; auto |].
      apply summarize_fields in Hc; tauto.
    + destruct (IH _ _ Hl c' Hin) as (i' & Hi' & E).
      exists i'; simpl; auto.
Qed.

Lemma summaries_length (n : nat) (l : list Session) (infos : list conv_info) :
  summaries n l infos -> List.length infos = List.length l.
Proof.
  unfold summaries, enumerate_from; intros H.
  apply Forall2_length in H.
  rewrite length_combine, length_seq, Nat.min_id in H; auto.
Qed.

Lemma new_shortest_key (c info : conv_info) :
  new_shortest (Some c) info
  = if (Z.of_nat (ci_message_count info) <? Z.of_nat (ci_message_count c))%Z
    then Some info else Some c.
Proof.
  simpl.
  destruct (Nat.ltb_spec (ci_message_count info) (ci_message_count c));
    destruct (Z.ltb_spec (Z.of_nat (ci_message_count info))
                (Z.of_nat (ci_message_count c))); auto; lia.
Qed.

Lemma new_longest_key (c info : conv_info) :
  new_longest (Some c) info
  = if (- Z.of_nat (ci_message_count info) <? - Z.of_nat (ci_message_count c))%Z
    then Some info else Some c.
Proof.
  simpl.
  destruct (Nat.ltb_spec (ci_message_count c) (ci_message_count info));
    destruct (Z.ltb_spec (- Z.of_nat (ci_message_count info))
                (- Z.of_nat (ci_message_count c))); auto; lia.
Qed.

(** The conversation behind a summary found at a given place in the list
    of summaries. *)
Lemma summary_session (convs : list Session) (pre : list conv_info)
  (x : conv_info) (post : list conv_info) :
  summaries 0 convs (pre ++ x :: post) ->
  exists lpre c lpost,
    convs = lpre ++ c :: lpost
    /\ List.length lpre = List.length pre
    /\ summarize (List.length lpre) c = Ok x
    /\ (forall c', In c' lpre ->
        exists y, In y pre /\ ci_message_count y = message_count c')
    /\ (forall c', In c' lpost ->
        exists y, In y post /\ ci_message_count y = message_count c').
Proof.
  intros H.
  apply summaries_app_inv in H as (lpre & c & lpost & E & Hlen & Hpre & Hx & Hpost).
  exists lpre, c, lpost; repeat split; auto.
  - eapply summaries_counts; eassumption.
  - eapply summaries_counts; eassumption.
Qed.

(** C9. On a log with a label whose sessions are well formed (at least one
    message each, timestamps accepted), [get_basic_stats] returns
    statistics in which [shortest_conversation] is the summary of the first
    conversation, in input order, with the least number of messages: every
    conversation before it has strictly more messages and every one after
    it has at least as many. Likewise [longest_conversation] is the summary
    of the first conversation with the greatest number of messages. A later
    conversation with an equal count does not replace it. With no
    conversation both are None. *)
Theorem extremes_first_wins (data : Log) (label : string) :
  date data = Some label ->
  Forall well_formed_session (conversations data) ->
  exists st,
    get_basic_stats data = Ok st
    /\ match conversations data with
       | [] =>
           st_shortest_conversation st = None
           /\ st_longest_conversation st = None
       | _ :: _ =>
           (exists pre c post info,
               conversations data = pre ++ c :: post
               /\ (forall c', In c' pre -> message_count c < message_count c')
               /\ (forall c', In c' post -> message_count c <= message_count c')
               /\ st_shortest_conversation st = Some info
               /\ nth_error (st_conversation_lengths st) (List.length pre)
                  = Some info
               /\ ci_index info = List.length pre + 1
               /\ ci_message_count info = message_count c)
           /\ (exists pre c post info,
                  conversations data = pre ++ c :: post
                  /\ (forall c', In c' pre -> message_count c' < message_count c)
                  /\ (forall c', In c' post -> message_count c' <= message_count c)
                  /\ st_longest_conversation st = Some info
                  /\ nth_error (st_conversation_lengths st) (List.length pre)
                     = Some info
                  /\ ci_index info = List.length pre + 1
                  /\ ci_message_count info = message_count c)
       end.
Proof.
  intros Hd Hwf.
  destruct (get_basic_stats_ok data label Hd Hwf) as [st Hst].
  exists st; split; [assumption |].
  destruct (get_basic_stats_inv data st Hst) as (label' & infos & _ & Hs & Hl).
  destruct Hl; simpl in *.
  pose proof (summaries_length _ _ _ Hs) as Hlen.
  destruct (conversations data) as [| c0 convs] eqn:Hc.
  { destruct infos; [| discriminate].
    rewrite le_shortest0, le_longest0; auto. }
  destruct infos as [| i0 infos]; [discriminate |].
  split.
  - pose proof (running_extreme_from_none
                  (fun i => Z.of_nat (ci_message_count i)) new_shortest
                  (fun _ => eq_refl) new_shortest_key (i0 :: infos))
      as (pre & x & post & E & Hf & Hpre & Hpost).
    rewrite E in Hs.
    destruct (summary_session _ _ _ _ Hs)
      as (lpre & c & lpost & Ec & Hlp & Hx & Hlpre & Hlpost).
    pose proof (summarize_fields _ _ _ Hx) as (Hi & Hm & _).
    exists lpre, c, lpost, x. split; [assumption |].
    split; [| split; [| split; [| split; [| split]]]]; auto.
    + intros c' Hc'. destruct (Hlpre c' Hc') as (y & Hy & Ey).
      specialize (Hpre y Hy). unfold message_count in *; lia.
    + intros c' Hc'. destruct (Hlpost c' Hc') as (y & Hy & Ey).
      specialize (Hpost y Hy). unfold message_count in *; lia.
    + rewrite le_shortest0; assumption.
    + rewrite le_lengths0, E, Hlp, nth_error_app2, Nat.sub_diag by lia.
      reflexivity.
  - pose proof (running_extreme_from_none
                  (fun i => (- Z.of_nat (ci_message_count i))%Z) new_longest
                  (fun _ => eq_refl) new_longest_key (i0 :: infos))
      as (pre & x & post & E & Hf & Hpre & Hpost).
    rewrite E in Hs.
    destruct (summary_session _ _ _ _ Hs)
      as (lpre & c & lpost & Ec & Hlp & Hx & Hlpre & Hlpost).
    pose proof (summarize_fields _ _ _ Hx) as (Hi & Hm & _).
    exists lpre, c, lpost, x. split; [assumption |].
    split; [| split; [| split; [| split; [| split]]]]; auto.
    + intros c' Hc'. destruct (Hlpre c' Hc') as (y & Hy & Ey).
      specialize (Hpre y Hy). unfold message_count in *; lia.
    + intros c' Hc'. destruct (Hlpost c' Hc') as (y & Hy & Ey).
      specialize (Hpost y Hy). unfold message_count in *; lia.
    + rewrite le_longest0; assumption.
    + rewrite le_lengths0, E, Hlp, nth_error_app2, Nat.sub_diag by lia.
      reflexivity.
Qed.

Lemma tie_log_well_formed : Forall well_formed_session (conversations tie_log).
Proof.
  repeat constructor; simpl; try discriminate; eexists; reflexivity.
Defined.

Lemma extremes_first_wins_witness :
  date tie_log = Some "2025-10-30"
  /\ Forall well_formed_session (conversations tie_log)
  /\ exists st pre c post info,
      get_basic_stats tie_log = Ok st
      /\ conversations tie_log = pre ++ c :: post
      /\ st_shortest_conversation st = Some info
      /\ ci_index info = List.length pre + 1.
Proof.
  split; [reflexivity |]. split; [exact tie_log_well_formed |].
  destruct (extremes_first_wins tie_log "2025-10-30" eq_refl tie_log_well_formed)
    as (st & Hst & Hm).
  simpl in Hm.
  destruct Hm as ((pre & c & post & info & E & _ & _ & Hs & _ & Hi & _) & _).
  exists st, pre, c, post, info; auto.
Defined.

(** The tie is settled for the first session, for both extremes. *)
Example tie_log_extremes :
  exists st s l,
    get_basic_stats tie_log = Ok st
    /\ st_shortest_conversation st = Some s /\ ci_index s = 1
    /\ st_longest_conversation st = Some l /\ ci_index l = 1.
Proof. do 3 eexists; repeat split; reflexivity. Qed.

(** C10. On a log with a label whose sessions are well formed (at least one
    message each, timestamps accepted), [get_basic_stats] returns
    statistics in which the four period totals add up to [total_messages],
    the message counts of the participants add up to [total_messages], and
    the opener counts of the participants add up to the number of
    conversations, which is [num_conversations]. *)
Theorem statistics_consistent (data : Log) (label : string) :
  date data = Some label ->
  Forall well_formed_session (conversations data) ->
  exists st,
    get_basic_stats data = Ok st
    /\ n_morning (st_time_periods st) + n_afternoon (st_time_periods st)
       + n_evening (st_time_periods st) + n_night (st_time_periods st)
       = st_total_messages st
    /\ dict_sum (st_messages_by_participant st) = st_total_messages st
    /\ dict_sum (st_conversations_started_by st)
       = List.length (conversations data)
    /\ st_num_conversations st = List.length (conversations data).
Proof.
  intros Hd Hwf.
  destruct (get_basic_stats_ok data label Hd Hwf) as [st Hst].
  exists st; split; [assumption |].
  destruct (get_basic_stats_inv data st Hst) as (label' & infos & _ & _ & Hl).
  destruct Hl; simpl in *.
  rewrite dict_from_keys_sum in *.
  unfold period_total in le_periods0; simpl in le_periods0.
  repeat split; lia.
Qed.

Lemma statistics_consistent_witness :
  date tie_log = Some "2025-10-30"
  /\ Forall well_formed_session (conversations tie_log)
  /\ exists st,
      get_basic_stats tie_log = Ok st
      /\ dict_sum (st_messages_by_participant st) = st_total_messages st
      /\ dict_sum (st_conversations_started_by st) = 2.
Proof.
  split; [reflexivity |]. split; [exact tie_log_well_formed |].
  destruct (statistics_consistent tie_log "2025-10-30" eq_refl tie_log_well_formed)
    as (st & Hst & _ & Hm & Ho & _).
  exists st; auto.
Defined.

(** The statistics that [get_basic_stats] returns never come from a log
    with a session without messages. *)
Lemma get_basic_stats_nonempty (data : Log) (st : stats) :
  get_basic_stats data = Ok st ->
  Forall (fun c => messages c <> []) (conversations data).
Proof.
  intros H; destruct (get_basic_stats_inv data st H) as (? & ? & _ & _ & Hl).
  apply (le_nonempty _ _ _ _ Hl).
Qed.

(** C5. When a session of the log has no message, [get_basic_stats] returns
    no statistics. When moreover the log has a label, the sessions before
    that one are well formed (so it is the first without messages) and its
    own timestamps are accepted, the failure is the [IndexError] raised by
    reading the first message of that session. *)
Theorem empty_session_fails (data : Log) (pre post : list Session)
  (c : Session) :
  conversations data = pre ++ c :: post ->
  messages c = [] ->
  (forall st, get_basic_stats data <> Ok st)
  /\ (forall label,
         date data = Some label ->
         Forall well_formed_session pre ->
         (exists t, strptime (start_time c) = Ok t) ->
         (exists t, strptime (end_time c) = Ok t) ->
         get_basic_stats data = Raise IndexError).
Proof.
  intros Hc Hm; split.
  - intros st Hst. apply get_basic_stats_nonempty in Hst.
    rewrite Hc in Hst. apply Forall_app in Hst as [_ Hst].
    inversion Hst; subst; contradiction.
  - intros label Hd Hpre [ts Hs] [te He].
    unfold get_basic_stats; rewrite Hd; cbn [bind].
    change (enumerate (conversations data))
      with (enumerate_from 0 (conversations data)).
    rewrite Hc, enumerate_from_app, for_each_app.
    destruct (conversations_ok (detect_participants data) pre 0
                (initial_stats label data (detect_participants data)))
      as [st1 H1]; [apply initial_stats_keys | assumption | |].
    { intros c' m Hc' Hm'; apply detect_participants_in.
      exists c', m; rewrite Hc, in_app_iff; auto. }
    rewrite H1; cbn [bind]. rewrite enumerate_from_cons; cbn [for_each].
    unfold process_conversation at 1.
    rewrite (calculate_duration_ok _ _ _ _ Hs He); cbn [bind].
    destruct (categorize_time_period_ok _ _ Hs) as [p ->]; cbn [bind].
    unfold first_message; rewrite Hm; reflexivity.
Qed.

Lemma empty_session_fails_witness :
  get_basic_stats log_with_empty_session = Raise IndexError.
Proof.
  refine (proj2 (empty_session_fails log_with_empty_session
                   [mk_session [mk_message "alice" (Text "good morning")]
                      "09:00 AM" "09:10 AM"]
                   [] (mk_session [] "02:00 PM" "02:02 PM") eq_refl eq_refl)
            "2025-10-30" eq_refl _ _ _).
  - repeat constructor; simpl; try discriminate; eexists; reflexivity.
  - eexists; reflexivity.
  - eexists; reflexivity.
Defined.

Lemma summarize_inv (i : nat) (c : Session) (info : conv_info) :
  summarize i c = Ok info ->
  (exists t, strptime (start_time c) = Ok t)
  /\ (exists t, strptime (end_time c) = Ok t).
Proof.
  unfold summarize, calculate_duration; intros H.
  apply bind_ok in H as (d & Hd & _).
  apply bind_ok in Hd as (ts & Hts & Hd).
  apply bind_ok in Hd as (te & Hte & _).
  eauto.
Qed.

Lemma conversations_well_formed (l : list Session) (n : nat) (st st' : stats) :
  for_each process_conversation (enumerate_from n l) st = Ok st' ->
  Forall well_formed_session l.
Proof.
  revert n st; induction l as [| c l IH]; intros n st; [constructor |].
  rewrite enumerate_from_cons; cbn [for_each]; intros H.
  apply bind_ok in H as (st1 & H1 & H2).
  apply process_conversation_inv in H1 as (info & Hi & He).
  constructor; [| eapply IH; eassumption].
  split; [apply (ce_nonempty _ _ _ _ He) | eapply summarize_inv; eassumption].
Qed.

(** The aggregator succeeds only on such logs: a label, and well-formed
    sessions. *)
Lemma get_basic_stats_ok_inv (data : Log) (st : stats) :
  get_basic_stats data = Ok st ->
  (exists label, date data = Some label)
  /\ Forall well_formed_session (conversations data).
Proof.
  unfold get_basic_stats; intros H.
  destruct (date data) as [label |]; [| discriminate].
  cbn [bind] in H; split; [eauto |].
  eapply conversations_well_formed; eassumption.
Qed.

(** ** The two input formats *)

Lemma for_each_map {A S : Type} (f : S -> S) (body : S -> A -> result S) :
  (forall s a, body (f s) a = map_result f (body s a)) ->
  forall l s, for_each body l (f s) = map_result f (for_each body l s).
Proof.
  intros Hb l; induction l as [| a l IH]; intros s; simpl; [reflexivity |].
  rewrite Hb; destruct (body s a); simpl; auto.
Qed.

Lemma count_message_with_date (d : string) (st : stats) (m : Message) :
  count_message (with_date d st) m = map_result (with_date d) (count_message st m).
Proof.
  unfold count_message; simpl.
  destruct (dict_modify _ _ (st_messages_by_participant st)); simpl; auto.
  destruct (dict_modify _ _ (st_message_lengths_by_participant st)); simpl; auto.
Qed.

Lemma process_conversation_with_date (d : string) (st : stats)
  (ic : nat * Session) :
  process_conversation (with_date d st) ic
  = map_result (with_date d) (process_conversation st ic).
Proof.
  destruct ic as [i c]; unfold process_conversation.
  destruct (calculate_duration _ _); simpl; auto.
  destruct (categorize_time_period _); simpl; auto.
  destruct (first_message c); simpl; auto.
  destruct (dict_modify _ _ (st_conversations_started_by st)); simpl; auto.
  match goal with
  | |- for_each _ _ ?x = map_result _ (for_each _ _ ?y) =>
      change x with (with_date d y)
  end.
  apply for_each_map, count_message_with_date.
Qed.

(** The label of the log reaches the statistics only as their ['date']. *)
Lemma get_basic_stats_label (d1 d2 : string) (convs : list Session) :
  get_basic_stats (mk_log (Some d2) convs)
  = map_result (with_date d2) (get_basic_stats (mk_log (Some d1) convs)).
Proof.
  unfold get_basic_stats; simpl.
  match goal with
  | |- for_each _ _ ?x = map_result _ (for_each _ _ ?y) =>
      change x with (with_date d2 y)
  end.
  apply for_each_map, process_conversation_with_date.
Qed.

(** C2. For well-formed sessions, the statistics of the bare array and the
    statistics of the same array under the ['conversations'] key of an
    object with a label both exist, and they agree on every entry other
    than the label. *)
Theorem format_equivalence (filepath_list filepath_dict label : string)
  (sessions : list Session) :
  Forall well_formed_session sessions ->
  exists log_list log_dict st_list st_dict,
    load_conversation_file filepath_list (RawList sessions) = Ok log_list
    /\ load_conversation_file filepath_dict (RawDict (Some label) (Some sessions))
       = Ok log_dict
    /\ get_basic_stats log_list = Ok st_list
    /\ get_basic_stats log_dict = Ok st_dict
    /\ st_dict = with_date label st_list
    /\ st_num_conversations st_dict = st_num_conversations st_list
    /\ st_total_messages st_dict = st_total_messages st_list
    /\ st_participants st_dict = st_participants st_list
    /\ st_messages_by_participant st_dict = st_messages_by_participant st_list
    /\ st_conversation_lengths st_dict = st_conversation_lengths st_list
    /\ st_shortest_conversation st_dict = st_shortest_conversation st_list
    /\ st_longest_conversation st_dict = st_longest_conversation st_list
    /\ st_time_periods st_dict = st_time_periods st_list
    /\ st_conversations_started_by st_dict = st_conversations_started_by st_list
    /\ st_message_lengths_by_participant st_dict
       = st_message_lengths_by_participant st_list.
Proof.
  intros Hwf.
  rewrite load_list.
  set (d := label_of_filename (PyStr.basename filepath_list)).
  destruct (get_basic_stats_ok (mk_log (Some d) sessions) d eq_refl Hwf)
    as [st Hst].
  exists (mk_log (Some d) sessions), (mk_log (Some label) sessions),
    st, (with_date label st).
  split; [reflexivity |]. split; [reflexivity |]. split; [assumption |].
  split; [rewrite (get_basic_stats_label d label), Hst; reflexivity |].
  repeat split.
Qed.

Lemma format_equivalence_witness :
  Forall well_formed_session (conversations tie_log)
  /\ exists st_list st_dict,
      get_basic_stats (mk_log (Some "Unknown Date") (conversations tie_log))
      = Ok st_list
      /\ get_basic_stats (mk_log (Some "2025-10-30") (conversations tie_log))
         = Ok st_dict
      /\ st_dict = with_date "2025-10-30" st_list.
Proof.
  split; [exact tie_log_well_formed |].
  destruct (format_equivalence "chat.json" "chat.json" "2025-10-30"
              (conversations tie_log) tie_log_well_formed)
    as (log_list & log_dict & st_list & st_dict & Hl & Hd & Hsl & Hsd & E & _).
  injection Hl as <-. injection Hd as <-.
  exists st_list, st_dict; auto.
Defined.

(** ** Topic extractor *)

Lemma insert_by_count_sorted (x : string * nat) (l : list (string * nat)) :
  StronglySorted count_ge l ->
  StronglySorted count_ge (insert_sorted by_count_desc x l).
Proof.
  induction 1 as [| y l Hl IH Hy]; simpl.
  - repeat constructor.
  - unfold by_count_desc at 1.
    destruct (Nat.leb_spec (snd y) (snd x)) as [Hle | Hgt].
    + constructor; [constructor; assumption |].
      constructor; [exact Hle |].
      rewrite Forall_forall in *; intros z Hz.
      specialize (Hy z Hz); unfold count_ge in *; lia.
    + constructor; [assumption |].
      rewrite Forall_forall in *; intros z Hz.
      apply (Permutation_in _ (insert_sorted_perm by_count_desc x l)) in Hz.
      destruct Hz as [<- | Hz]; [unfold count_ge; lia | auto].
Qed.

Lemma sorted_by_count_sorted (l : list (string * nat)) :
  StronglySorted count_ge (sorted by_count_desc l).
Proof.
  induction l as [| x l IH]; simpl; [constructor |].
  apply insert_by_count_sorted; assumption.
Qed.

(** Insertion puts an entry in front of the entries with the same count. *)
Lemma insert_by_count_stable (n : nat) (x : string * nat)
  (l : list (string * nat)) :
  with_count n (insert_sorted by_count_desc x l) = with_count n (x :: l).
Proof.
  induction l as [| y l IH]; [reflexivity |].
  cbn [insert_sorted]; unfold by_count_desc at 1.
  destruct (Nat.leb_spec (snd y) (snd x)) as [Hle | Hgt]; [reflexivity |].
  unfold with_count in *; cbn [filter] in *; rewrite IH.
  destruct (Nat.eqb_spec (snd x) n), (Nat.eqb_spec (snd y) n);
    try reflexivity; lia.
Qed.

Lemma sorted_by_count_stable (n : nat) (l : list (string * nat)) :
  with_count n (sorted by_count_desc l) = with_count n l.
Proof.
  induction l as [| x l IH]; [reflexivity |].
  cbn [sorted fold_right]; fold (sorted by_count_desc l).
  rewrite insert_by_count_stable.
  unfold with_count in *; cbn [filter]; rewrite IH; reflexivity.
Qed.

Lemma count_word_bump (wc : list (string * nat)) (word : string) :
  count_word wc word
  = if counted (PyStr.keep_alnum word) then bump wc (PyStr.keep_alnum word)
    else wc.
Proof.
  unfold count_word, counted, bump.
  destruct (_ || _); reflexivity.
Qed.

Lemma count_words_filter (words : list string) (wc : list (string * nat)) :
  fold_left count_word words wc
  = fold_left bump (filter counted (map PyStr.keep_alnum words)) wc.
Proof.
  revert wc; induction words as [| w words IH]; intros wc; [reflexivity |].
  cbn [fold_left map filter]; rewrite count_word_bump.
  destruct (counted (PyStr.keep_alnum w)); cbn [fold_left]; apply IH.
Qed.

Lemma fold_left_flat_map {A B C : Type} (f : A -> C -> A) (g : B -> list C)
  (l : list B) (a : A) :
  fold_left f (flat_map g l) a = fold_left (fun a x => fold_left f (g x) a) l a.
Proof.
  revert a; induction l as [| x l IH]; intros a; simpl; [reflexivity |].
  rewrite fold_left_app; apply IH.
Qed.

Lemma count_words_tokens (data : Log) :
  count_words data = fold_left bump (clean_tokens data) [].
Proof.
  unfold count_words, clean_tokens, raw_tokens, all_messages.
  rewrite <- count_words_filter, !fold_left_flat_map.
  reflexivity.
Qed.

Lemma first_occurrences_in (l : list string) (x : string) :
  In x (first_occurrences l) <-> In x l.
Proof.
  induction l as [| y l IH]; simpl; [tauto |].
  rewrite filter_In, IH.
  destruct (String.eqb_spec x y) as [-> | Hne]; simpl; intuition congruence.
Qed.

Lemma first_occurrences_nodup (l : list string) : NoDup (first_occurrences l).
Proof.
  induction l as [| y l IH]; simpl; constructor.
  - rewrite filter_In, String.eqb_refl; simpl; intros [_ H]; discriminate.
  - apply NoDup_filter; assumption.
Qed.

Lemma first_occurrences_snoc (l : list string) (w : string) :
  first_occurrences (l ++ [w])
  = if in_dec string_dec w l then first_occurrences l
    else first_occurrences l ++ [w].
Proof.
  induction l as [| x l IH]; [reflexivity |].
  cbn [app first_occurrences]; rewrite IH.
  destruct (in_dec string_dec w l) as [Hin | Hnin];
    destruct (in_dec string_dec w (x :: l)) as [Hin' | Hnin'];
    simpl in *; try tauto.
  - rewrite filter_app; simpl.
    destruct Hin' as [-> | ?]; [| tauto].
    rewrite String.eqb_refl; simpl; rewrite app_nil_r; reflexivity.
  - rewrite filter_app; simpl.
    destruct (String.eqb_spec w x) as [-> | Hne]; [tauto | reflexivity].
Qed.

Lemma occurrences_snoc (l : list string) (w x : string) :
  occurrences x (l ++ [w])
  = occurrences x l + (if String.eqb x w then 1 else 0).
Proof.
  unfold occurrences; rewrite count_occ_app; simpl.
  destruct (string_dec w x) as [-> | Hne].
  - rewrite String.eqb_refl; reflexivity.
  - destruct (String.eqb_spec x w); [congruence | reflexivity].
Qed.

Lemma dict_get_map (f : string -> nat) (ks : list string) (w : string) :
  dict_get w (map (fun x => (x, f x)) ks)
  = if in_dec string_dec w ks then Some (f w) else None.
Proof.
  induction ks as [| k ks IH]; [reflexivity |].
  cbn [map dict_get]; rewrite IH.
  destruct (String.eqb_spec w k) as [-> | Hne].
  - destruct (in_dec string_dec k (k :: ks)) as [? | H]; [reflexivity |].
    exfalso; apply H; simpl; auto.
  - destruct (in_dec string_dec w ks), (in_dec string_dec w (k :: ks));
      simpl in *; try reflexivity; exfalso; intuition congruence.
Qed.

Lemma dict_set_map (f : string -> nat) (ks : list string) (w : string) (v : nat) :
  NoDup ks -> In w ks ->
  dict_set w v (map (fun x => (x, f x)) ks)
  = map (fun x => (x, if String.eqb x w then v else f x)) ks.
Proof.
  induction 1 as [| k ks Hk Hnd IH]; [intros [] |].
  cbn [map dict_set]; intros Hin.
  destruct (String.eqb_spec w k) as [-> | Hne].
  - rewrite String.eqb_refl; f_equal.
    apply map_ext_in; intros x Hx.
    destruct (String.eqb_spec x k); [congruence | reflexivity].
  - destruct Hin as [-> | Hin]; [congruence |].
    rewrite (IH Hin).
    destruct (String.eqb_spec k w); [congruence | reflexivity].
Qed.

Lemma dict_set_absent (d : list (string * nat)) (w : string) (v : nat) :
  dict_get w d = None -> dict_set w v d = d ++ [(w, v)].
Proof.
  induction d as [| [k n] d IH]; [reflexivity |].
  cbn [dict_get dict_set].
  destruct (String.eqb_spec w k); [discriminate |].
  intros H; rewrite (IH H); reflexivity.
Qed.

Lemma bump_tally (l : list string) (w : string) :
  bump (tally l) w = tally (l ++ [w]).
Proof.
  unfold bump, tally.
  rewrite dict_get_map, first_occurrences_snoc.
  destruct (in_dec string_dec w (first_occurrences l)) as [Hin | Hnin];
    destruct (in_dec string_dec w l) as [Hin' | Hnin'];
    try (exfalso; rewrite first_occurrences_in in *; tauto).
  - rewrite dict_set_map by (auto using first_occurrences_nodup).
    apply map_ext; intros x; rewrite occurrences_snoc.
    destruct (String.eqb_spec x w) as [-> | Hne]; f_equal; lia.
  - rewrite dict_set_absent
      by (rewrite dict_get_map;
          destruct (in_dec string_dec w (first_occurrences l)); tauto).
    rewrite map_app; cbn [map]. f_equal.
    + apply map_ext_in; intros x Hx; rewrite occurrences_snoc.
      destruct (String.eqb_spec x w) as [-> | Hne]; [tauto |].
      rewrite Nat.add_0_r; reflexivity.
    + rewrite occurrences_snoc, String.eqb_refl.
      unfold occurrences; rewrite (proj1 (count_occ_not_In _ _ _) Hnin').
      reflexivity.
Qed.

Lemma fold_bump_tally (l : list string) : fold_left bump l [] = tally l.
Proof.
  induction l as [| w l IH] using rev_ind; [reflexivity |].
  rewrite fold_left_app; cbn [fold_left]; rewrite IH; apply bump_tally.
Qed.

(** The dictionary [word_counts] after the loops: the counted clean words
    in the order of their first occurrence, each with the number of its
    occurrences. *)
Lemma count_words_tally (data : Log) :
  count_words data = tally (clean_tokens data).
Proof. rewrite count_words_tokens; apply fold_bump_tally. Qed.

Lemma firstn_in {A : Type} (n : nat) (l : list A) (x : A) :
  In x (firstn n l) -> In x l.
Proof.
  intros H; rewrite <- (firstn_skipn n l); apply in_or_app; auto.
Qed.

Lemma extract_topics_tally (data : Log) (top_n : nat) :
  extract_topics data top_n
  = firstn top_n (sorted by_count_desc (tally (clean_tokens data))).
Proof. unfold extract_topics; rewrite count_words_tally; reflexivity. Qed.

(** C7. The topics returned are the first [top_n] entries of a ranking of
    the (clean word, count) pairs: the ranking holds each counted clean
    word once with the number of its occurrences, its counts do not
    increase, and entries with equal counts stand in the order in which the
    words were first met. When there are no more than [top_n] words, the
    whole ranking is returned. *)
Theorem topics_ranked (data : Log) (top_n : nat) :
  let word_counts := tally (clean_tokens data) in
  exists ranked,
    extract_topics data top_n = firstn top_n ranked
    /\ count_words data = word_counts
    /\ Permutation ranked word_counts
    /\ StronglySorted count_ge ranked
    /\ (forall n, with_count n ranked = with_count n word_counts)
    /\ List.length (extract_topics data top_n)
       = Nat.min top_n (List.length word_counts)
    /\ (List.length word_counts <= top_n ->
        extract_topics data top_n = ranked).
Proof.
  intros word_counts.
  exists (sorted by_count_desc word_counts).
  pose proof (sorted_perm by_count_desc word_counts) as Hp.
  split; [apply extract_topics_tally |].
  split; [apply count_words_tally |].
  split; [assumption |].
  split; [apply sorted_by_count_sorted |].
  split; [intros n; apply sorted_by_count_stable |].
  rewrite extract_topics_tally; fold word_counts.
  split.
  - rewrite length_firstn, (Permutation_length Hp); reflexivity.
  - intros Hle; apply firstn_all2.
    rewrite (Permutation_length Hp); assumption.
Qed.

(** Two words met once each and one met twice: the one met twice comes
    first, the other two keep the order in which they were met. *)
Example topics_ranked_example :
  extract_topics
    (mk_log None
       [mk_session [mk_message "a" (Text "zebra apple mango apple")] "" ""]) 15
  = [("apple", 2); ("zebra", 1); ("mango", 1)].
Proof. reflexivity. Qed.

Lemma in_stop_words_false (w : string) :
  in_stop_words w = false -> ~ In w stop_words.
Proof.
  unfold in_stop_words; intros H Hin.
  assert (existsb (String.eqb w) stop_words = true)
    by (apply existsb_exists; exists w; split; [assumption | apply String.eqb_refl]).
  congruence.
Qed.

Lemma raw_tokens_lowered (data : Log) :
  raw_tokens data = flat_map PyStr.split_ws (lowered_texts data).
Proof.
  unfold raw_tokens, lowered_texts.
  induction (all_messages data) as [| m ms IH]; simpl; [reflexivity |].
  rewrite IH; reflexivity.
Qed.

(** The characters that [keep_alnum] leaves. *)
Lemma keep_alnum_stripped (word : string) :
  PyStr.keep_alnum word = stripped word.
Proof.
  unfold stripped.
  induction word as [| c s IH]; [reflexivity |].
  cbn [PyStr.keep_alnum list_ascii_of_string filter].
  destruct (PyStr.isalnum c); cbn [string_of_list_ascii]; rewrite IH;
    reflexivity.
Qed.

Lemma stripped_chars (word : string) :
  list_ascii_of_string (stripped word)
  = filter PyStr.isalnum (list_ascii_of_string word).
Proof. apply list_ascii_of_string_of_list_ascii. Qed.

Lemma stripped_in (word : string) (c : ascii) :
  In c (list_ascii_of_string (stripped word)) ->
  In c (list_ascii_of_string word) /\ PyStr.isalnum c = true.
Proof. rewrite stripped_chars; apply filter_In. Qed.

Lemma lower_char_small (c : ascii) : capital (PyStr.lower_char c) = false.
Proof. destruct c as [[] [] [] [] [] [] [] []]; reflexivity. Qed.

Lemma lower_char_idempotent (c : ascii) :
  PyStr.lower_char (PyStr.lower_char c) = PyStr.lower_char c.
Proof. destruct c as [[] [] [] [] [] [] [] []]; reflexivity. Qed.

Lemma lower_small (s : string) (c : ascii) :
  In c (list_ascii_of_string (PyStr.lower s)) -> capital c = false.
Proof.
  induction s as [| a s IH]; simpl; [tauto |].
  intros [<- | H]; [apply lower_char_small | auto].
Qed.

Lemma capital_lower_char (a b : ascii) :
  capital a = true -> PyStr.code b = PyStr.code a + 32 ->
  PyStr.lower_char a = b.
Proof.
  unfold capital, PyStr.lower_char; intros -> E.
  rewrite <- E; apply ascii_nat_embedding.
Qed.

Lemma same_letter_lower (a b : ascii) :
  same_letter a b = true -> PyStr.lower_char a = PyStr.lower_char b.
Proof.
  unfold same_letter; intros H.
  apply orb_true_iff in H as [H | H]; [apply orb_true_iff in H as [H | H] |].
  - apply Ascii.eqb_eq in H; congruence.
  - apply andb_true_iff in H as [Hc E]; apply Nat.eqb_eq in E.
    rewrite <- (capital_lower_char a b Hc E).
    symmetry; apply lower_char_idempotent.
  - apply andb_true_iff in H as [Hc E]; apply Nat.eqb_eq in E.
    rewrite <- (capital_lower_char b a Hc E).
    apply lower_char_idempotent.
Qed.

Lemma same_up_to_case_lower (s t : string) :
  same_up_to_case s t = true -> PyStr.lower s = PyStr.lower t.
Proof.
  revert t; induction s as [| a s IH]; intros [| b t] H;
    try discriminate H; [reflexivity |].
  cbn [same_up_to_case] in H; apply andb_true_iff in H as [Hab Hst].
  cbn [PyStr.lower]; rewrite (same_letter_lower a b Hab), (IH t Hst).
  reflexivity.
Qed.

Lemma same_texts_lowered (data1 data2 : Log) :
  same_texts_up_to_case data1 data2 ->
  lowered_texts data1 = lowered_texts data2.
Proof.
  unfold same_texts_up_to_case, lowered_texts.
  induction 1 as [| m1 m2 l1 l2 H _ IH]; [reflexivity |].
  cbn [map]; rewrite (same_up_to_case_lower _ _ H), IH; reflexivity.
Qed.

(** ** [str.split] without argument *)

Lemma flush_app (cur : list ascii) (acc rest : list string) :
  PyStr.flush cur (acc ++ rest) = PyStr.flush cur acc ++ rest.
Proof. destruct cur; reflexivity. Qed.

Lemma split_ws_aux_no_space (s : string) (cur : list ascii) :
  no_space s = true ->
  PyStr.split_ws_aux s cur
  = PyStr.flush (List.rev (list_ascii_of_string s) ++ cur) [].
Proof.
  unfold no_space; revert cur; induction s as [| c s IH]; intros cur H;
    [reflexivity |].
  cbn [list_ascii_of_string forallb] in H.
  apply andb_true_iff in H as [Hc Hs]; apply negb_true_iff in Hc.
  cbn [PyStr.split_ws_aux list_ascii_of_string List.rev]; rewrite Hc.
  rewrite (IH _ Hs), <- app_assoc; reflexivity.
Qed.

Lemma split_ws_aux_space (a b : string) (c : ascii) (cur : list ascii) :
  PyStr.isspace c = true ->
  PyStr.split_ws_aux (a ++ String c b) cur
  = PyStr.split_ws_aux a cur ++ PyStr.split_ws b.
Proof.
  intros Hc; revert cur; induction a as [| x a IH]; intros cur.
  - cbn [append PyStr.split_ws_aux]; rewrite Hc.
    apply (flush_app cur [] (PyStr.split_ws b)).
  - cbn [append PyStr.split_ws_aux].
    destruct (PyStr.isspace x); [| apply IH].
    rewrite IH; apply flush_app.
Qed.

Lemma split_ws_aux_chars (s : string) :
  forall (cur : list ascii) (t : string) (c : ascii),
    In t (PyStr.split_ws_aux s cur) ->
    In c (list_ascii_of_string t) ->
    In c cur \/ In c (list_ascii_of_string s).
Proof.
  assert (Hflush : forall cur acc t c,
             In t (PyStr.flush cur acc) -> In c (list_ascii_of_string t) ->
             In c cur \/ In t acc).
  { intros [| x cur] acc t c Ht Hc; [right; exact Ht |].
    destruct Ht as [<- | Ht]; [left | right; exact Ht].
    unfold PyStr.rev_string in Hc.
    rewrite list_ascii_of_string_of_list_ascii in Hc.
    apply in_rev; exact Hc. }
  induction s as [| x s IH]; intros cur t c Ht Hc.
  - cbn [PyStr.split_ws_aux] in Ht.
    destruct (Hflush _ _ _ _ Ht Hc) as [H | []]; left; exact H.
  - cbn [PyStr.split_ws_aux] in Ht. cbn [list_ascii_of_string].
    destruct (PyStr.isspace x).
    + destruct (Hflush _ _ _ _ Ht Hc) as [H | H]; [left; exact H |].
      destruct (IH [] t c H Hc) as [[] | H']; right; right; exact H'.
    + destruct (IH _ t c Ht Hc) as [[<- | H] | H].
      * right; left; reflexivity.
      * left; exact H.
      * right; right; exact H.
Qed.

Lemma raw_tokens_small (data : Log) (word : string) (c : ascii) :
  In word (raw_tokens data) -> In c (list_ascii_of_string word) ->
  capital c = false.
Proof.
  unfold raw_tokens; rewrite in_flat_map; intros (m & _ & Hw) Hc.
  destruct (split_ws_aux_chars _ _ _ _ Hw Hc) as [[] | H].
  apply (lower_small _ _ H).
Qed.

(** ** The words that are counted *)

Lemma string_length_chars (s : string) :
  List.length (list_ascii_of_string s) = String.length s.
Proof. induction s; simpl; congruence. Qed.

Lemma counted_spec (w : string) :
  counted w = true <-> 3 <= String.length w /\ ~ In w stop_words.
Proof.
  unfold counted; rewrite negb_true_iff, orb_false_iff, Nat.ltb_ge.
  split; intros [Hl Hs]; split; try assumption.
  - apply in_stop_words_false; assumption.
  - unfold in_stop_words.
    destruct (existsb (String.eqb w) stop_words) eqn:E; [| reflexivity].
    apply existsb_exists in E as (x & Hx & Ex).
    apply String.eqb_eq in Ex; subst x; contradiction.
Qed.

Lemma clean_tokens_stripped (data : Log) (w : string) :
  In w (clean_tokens data) <->
  counted w = true /\ exists word, In word (raw_tokens data) /\ stripped word = w.
Proof.
  unfold clean_tokens; rewrite filter_In, in_map_iff.
  split.
  - intros [(word & <- & Hword) Hc]; split; [exact Hc |].
    exists word; split; [exact Hword | symmetry; apply keep_alnum_stripped].
  - intros [Hc (word & Hword & <-)]; split; [| exact Hc].
    exists word; split; [apply keep_alnum_stripped | exact Hword].
Qed.

Lemma occurrences_stripped (w : string) (l : list string) :
  counted w = true ->
  occurrences w (filter counted (map PyStr.keep_alnum l))
  = List.length (filter (fun word => String.eqb (stripped word) w) l).
Proof.
  intros Hw; unfold occurrences.
  induction l as [| t l IH]; [reflexivity |].
  cbn [map filter]; rewrite keep_alnum_stripped.
  destruct (String.eqb_spec (stripped t) w) as [-> | Hne].
  - rewrite Hw; cbn [count_occ List.length].
    destruct (string_dec w w) as [_ | Hne]; [| contradiction].
    rewrite IH; reflexivity.
  - destruct (counted (stripped t)); [| exact IH].
    cbn [count_occ].
    destruct (string_dec (stripped t) w) as [E | _]; [contradiction | exact IH].
Qed.

Lemma first_occurrences_length (l : list string) :
  List.length (first_occurrences l) <= List.length l.
Proof.
  induction l as [| x l IH]; simpl; [lia |].
  pose proof (filter_length_le (fun y => negb (String.eqb y x))
                (first_occurrences l)).
  lia.
Qed.

Lemma ranking_length (data : Log) :
  List.length (sorted by_count_desc (tally (clean_tokens data)))
  <= List.length (raw_tokens data).
Proof.
  rewrite (Permutation_length (sorted_perm _ _)).
  unfold tally, clean_tokens; rewrite length_map.
  etransitivity; [apply first_occurrences_length |].
  etransitivity; [apply filter_length_le |].
  rewrite length_map; lia.
Qed.

Lemma lower_same_up_to_case (text : string) :
  same_up_to_case text (PyStr.lower text) = true.
Proof.
  induction text as [| c s IH]; [reflexivity |].
  cbn [PyStr.lower same_up_to_case]; rewrite IH, andb_true_r.
  destruct c as [[] [] [] [] [] [] [] []]; reflexivity.
Qed.

Lemma split_ws_word (word : string) :
  word <> "" -> no_space word = true -> PyStr.split_ws word = [word].
Proof.
  intros Hne Hs; unfold PyStr.split_ws.
  rewrite (split_ws_aux_no_space _ _ Hs), app_nil_r.
  destruct word as [| c s]; [contradiction |].
  cbn [list_ascii_of_string List.rev].
  destruct (List.rev (list_ascii_of_string s) ++ [c]) as [| x l] eqn:E;
    [destruct (List.rev (list_ascii_of_string s)); discriminate E |].
  cbn [PyStr.flush]; unfold PyStr.rev_string; rewrite <- E.
  rewrite rev_app_distr, rev_involutive; cbn [List.rev app].
  cbn [string_of_list_ascii]; rewrite string_of_list_ascii_of_string.
  reflexivity.
Qed.

(** C8. Every topic returned has at least three characters, is not a stop
    word, consists of letters and digits only, none of them a capital, and
    its count is the number of words read in the log that spell it once
    their other characters are dropped; every word read whose letters and
    digits make at least three characters and no stop word is a topic when
    [top_n] is large enough. The words read are those of the text in lower
    case, cut at white space: the lower-case text is the text up to case,
    a text without white space is one word, and a text is cut at each
    white-space character. Logs whose messages differ only by case have
    the same topics. The message "The the THE cat sat on a mat and the dog
    ran" yields cat, sat, mat, dog and ran with count 1 each, and none of
    the, and, on, a; a message with punctuation, "Hello, world!", a line
    break, "It's a co-op:", a tabulation, "(hello) WORLD?", yields hello
    and world with count 2 and coop with count 1. *)
Theorem topics_filtered :
  (forall (data : Log) (top_n : nat) (w : string) (n : nat),
      In (w, n) (extract_topics data top_n) ->
      3 <= String.length w
      /\ ~ In w stop_words
      /\ Forall (fun c => PyStr.isalnum c = true /\ capital c = false)
           (list_ascii_of_string w)
      /\ n = List.length
               (filter (fun word => String.eqb (stripped word) w)
                  (raw_tokens data))
      /\ 1 <= n)
  /\ (forall (data : Log) (top_n : nat) (word : string),
         In word (raw_tokens data) ->
         3 <= String.length (stripped word) ->
         ~ In (stripped word) stop_words ->
         List.length (raw_tokens data) <= top_n ->
         exists n, In (stripped word, n) (extract_topics data top_n))
  /\ (forall text : string, same_up_to_case text (PyStr.lower text) = true)
  /\ PyStr.split_ws "" = []
  /\ (forall word : string,
         word <> "" -> no_space word = true -> PyStr.split_ws word = [word])
  /\ (forall (a b : string) (c : ascii),
         PyStr.isspace c = true ->
         PyStr.split_ws (a ++ String c b) = PyStr.split_ws a ++ PyStr.split_ws b)
  /\ (forall (data1 data2 : Log) (top_n : nat),
         lowered_texts data1 = lowered_texts data2 ->
         extract_topics data1 top_n = extract_topics data2 top_n)
  /\ (forall (data1 data2 : Log) (top_n : nat),
         same_texts_up_to_case data1 data2 ->
         extract_topics data1 top_n = extract_topics data2 top_n)
  /\ extract_topics topic_example 15
     = [("cat", 1); ("sat", 1); ("mat", 1); ("dog", 1); ("ran", 1)]
  /\ (forall n, ~ In ("the", n) (extract_topics topic_example 15)
                /\ ~ In ("and", n) (extract_topics topic_example 15)
                /\ ~ In ("on", n) (extract_topics topic_example 15)
                /\ ~ In ("a", n) (extract_topics topic_example 15))
  /\ extract_topics punctuated_example 15
     = [("hello", 2); ("world", 2); ("coop", 1)].
Proof.
  assert (Hcase : forall data1 data2 top_n,
             lowered_texts data1 = lowered_texts data2 ->
             extract_topics data1 top_n = extract_topics data2 top_n).
  { intros data1 data2 top_n H.
    rewrite !extract_topics_tally; unfold clean_tokens.
    rewrite !raw_tokens_lowered, H; reflexivity. }
  repeat apply conj.
  - intros data top_n w n Hin.
    rewrite extract_topics_tally in Hin.
    apply firstn_in in Hin.
    apply sorted_in in Hin.
    unfold tally in Hin; apply in_map_iff in Hin as (w' & E & Hw').
    injection E as -> <-.
    apply (proj1 (first_occurrences_in _ _)) in Hw'.
    destruct (proj1 (clean_tokens_stripped data w) Hw')
      as (Hc & word & Hword & <-).
    destruct (proj1 (counted_spec _) Hc) as [Hl Hs].
    split; [exact Hl |]. split; [exact Hs |]. split; [| split].
    + apply Forall_forall; intros c Hin.
      destruct (stripped_in _ _ Hin) as [Hin' Ha].
      split; [exact Ha | exact (raw_tokens_small data word c Hword Hin')].
    + unfold clean_tokens; apply occurrences_stripped; exact Hc.
    + unfold occurrences; apply count_occ_In; exact Hw'.
  - intros data top_n word Hword Hl Hs Hn.
    assert (Hin : In (stripped word) (clean_tokens data)).
    { apply clean_tokens_stripped; split; [apply counted_spec; auto | eauto]. }
    exists (occurrences (stripped word) (clean_tokens data)).
    rewrite extract_topics_tally, firstn_all2
      by (pose proof (ranking_length data); lia).
    apply sorted_in; unfold tally; apply in_map_iff.
    exists (stripped word); split; [reflexivity |].
    apply first_occurrences_in; exact Hin.
  - exact lower_same_up_to_case.
  - reflexivity.
  - exact split_ws_word.
  - intros a b c Hc; apply (split_ws_aux_space a b c [] Hc).
  - exact Hcase.
  - intros data1 data2 top_n H; apply Hcase, same_texts_lowered, H.
  - vm_compute; reflexivity.
  - intros n.
    replace (extract_topics topic_example 15)
      with [("cat", 1); ("sat", 1); ("mat", 1); ("dog", 1); ("ran", 1)]
      by (vm_compute; reflexivity).
    repeat split; simpl; intros H;
      repeat (destruct H as [H | H]; [discriminate H |]); exact H.
  - vm_compute; reflexivity.
Qed.

Lemma topics_filtered_witness :
  In ("hello", 2) (extract_topics punctuated_example 15)
  /\ In "co-op:" (raw_tokens punctuated_example)
  /\ 3 <= String.length (stripped "co-op:")
  /\ ~ In (stripped "co-op:") stop_words
  /\ List.length (raw_tokens punctuated_example) <= 15
  /\ "cat" <> ""
  /\ no_space "cat" = true
  /\ PyStr.isspace " " = true
  /\ lowered_texts topic_example = lowered_texts topic_example_recased
  /\ same_texts_up_to_case topic_example topic_example_recased
  /\ (3 <= String.length "hello"
      /\ ~ In "hello" stop_words
      /\ Forall (fun c => PyStr.isalnum c = true /\ capital c = false)
           (list_ascii_of_string "hello")
      /\ 2 = List.length
               (filter (fun word => String.eqb (stripped word) "hello")
                  (raw_tokens punctuated_example))
      /\ 1 <= 2)
  /\ (exists n, In (stripped "co-op:", n) (extract_topics punctuated_example 15))
  /\ PyStr.split_ws "cat" = ["cat"]
  /\ PyStr.split_ws ("the" ++ String " " "cat")
     = PyStr.split_ws "the" ++ PyStr.split_ws "cat"
  /\ extract_topics topic_example 15
     = extract_topics topic_example_recased 15
  /\ extract_topics topic_example 15
     = extract_topics topic_example_recased 15.
Proof.
  assert (H1 : In ("hello", 2) (extract_topics punctuated_example 15))
    by (vm_compute; left; reflexivity).
  assert (H2 : In "co-op:" (raw_tokens punctuated_example))
    by (vm_compute; do 4 right; left; reflexivity).
  assert (H3 : 3 <= String.length (stripped "co-op:")) by (vm_compute; lia).
  assert (H4 : ~ In (stripped "co-op:") stop_words)
    by (apply in_stop_words_false; vm_compute; reflexivity).
  assert (H5 : List.length (raw_tokens punctuated_example) <= 15)
    by (vm_compute; lia).
  assert (H6 : "cat" <> "") by discriminate.
  assert (H7 : no_space "cat" = true) by reflexivity.
  assert (H8 : PyStr.isspace " " = true) by reflexivity.
  assert (H9 : lowered_texts topic_example
               = lowered_texts topic_example_recased)
    by (vm_compute; reflexivity).
  assert (H10 : same_texts_up_to_case topic_example topic_example_recased)
    by (unfold same_texts_up_to_case; vm_compute; repeat constructor).
  destruct topics_filtered
    as (T1 & T2 & _ & _ & T5 & T6 & T7 & T8 & _).
  split; [exact H1 |]. split; [exact H2 |]. split; [exact H3 |].
  split; [exact H4 |]. split; [exact H5 |]. split; [exact H6 |].
  split; [exact H7 |]. split; [exact H8 |]. split; [exact H9 |].
  split; [exact H10 |].
  split; [exact (T1 punctuated_example 15 "hello" 2 H1) |].
  split; [exact (T2 punctuated_example 15 "co-op:" H2 H3 H4 H5) |].
  split; [exact (T5 "cat" H6 H7) |].
  split; [exact (T6 "the" "cat" " "%char H8) |].
  split; [exact (T7 topic_example topic_example_recased 15 H9) |].
  exact (T8 topic_example topic_example_recased 15 H10).
Defined.

Lemma topics_ranked_witness :
  List.length (tally (clean_tokens topic_example)) <= 15
  /\ exists ranked,
      extract_topics topic_example 15 = ranked
      /\ StronglySorted count_ge ranked
      /\ Permutation ranked (tally (clean_tokens topic_example)).
Proof.
  assert (Hle : List.length (tally (clean_tokens topic_example)) <= 15)
    by (simpl; lia).
  split; [exact Hle |].
  destruct (topics_ranked topic_example 15)
    as (ranked & _ & _ & Hp & Hs & _ & _ & Hall).
  exists ranked; split; [exact (Hall Hle) |]. split; assumption.
Defined.

(** * Further properties *)

(** ** Participant detector: order and uniqueness *)

Lemma string_ltb_lt (a b : string) : str_lt a b <-> String_as_OT.lt a b.
Proof.
  unfold str_lt, String.ltb; rewrite <- String_as_OT.cmp_lt.
  unfold String_as_OT.cmp; destruct (String.compare a b);
    split; intros H; try reflexivity; discriminate.
Qed.

Lemma str_lt_trans (a b c : string) : str_lt a b -> str_lt b c -> str_lt a c.
Proof. rewrite !string_ltb_lt; apply String_as_OT.lt_trans. Qed.

Lemma str_lt_irrefl (a : string) : ~ str_lt a a.
Proof.
  rewrite string_ltb_lt; intros H.
  exact (String_as_OT.lt_not_eq _ _ H eq_refl).
Qed.

Lemma string_leb_cases (a b : string) :
  String.leb a b = true <-> a = b \/ str_lt a b.
Proof.
  unfold str_lt, String.leb, String.ltb.
  pose proof (String_as_OT.cmp_eq a b) as He; unfold String_as_OT.cmp in He.
  destruct (String.compare a b) eqn:E.
  - split; [left; apply He; reflexivity | reflexivity].
  - split; [right; reflexivity | reflexivity].
  - split; [discriminate |].
    intros [H | H]; [apply He in H |]; discriminate.
Qed.

Lemma string_leb_false (a b : string) : String.leb a b = false -> str_lt b a.
Proof.
  unfold str_lt, String.leb, String.ltb; rewrite (String.compare_antisym b a).
  destruct (String.compare a b); simpl; intros H; try discriminate; reflexivity.
Qed.

Lemma string_leb_trans (a b c : string) :
  String.leb a b = true -> String.leb b c = true -> String.leb a c = true.
Proof.
  rewrite !string_leb_cases.
  intros [-> | Hab] [-> | Hbc]; auto.
  right; eapply str_lt_trans; eassumption.
Qed.

Lemma insert_string_sorted (x : string) (l : list string) :
  StronglySorted (fun a b => String.leb a b = true) l ->
  StronglySorted (fun a b => String.leb a b = true)
    (insert_sorted String.leb x l).
Proof.
  induction 1 as [| y l Hl IH Hy]; simpl; [repeat constructor |].
  destruct (String.leb x y) eqn:E.
  - constructor; [constructor; assumption |].
    constructor; [assumption |].
    rewrite Forall_forall in *; intros z Hz.
    eapply string_leb_trans; [exact E | auto].
  - constructor; [assumption |].
    rewrite Forall_forall in *; intros z Hz.
    apply (Permutation_in _ (insert_sorted_perm String.leb x l)) in Hz.
    destruct Hz as [<- | Hz]; [| auto].
    apply string_leb_cases; right; apply string_leb_false; assumption.
Qed.

Lemma sorted_strings_sorted (l : list string) :
  StronglySorted (fun a b => String.leb a b = true) (sorted String.leb l).
Proof.
  induction l as [| x l IH]; simpl; [constructor |].
  apply insert_string_sorted; assumption.
Qed.

Lemma sorted_nodup_strict (l : list string) :
  StronglySorted (fun a b => String.leb a b = true) l -> NoDup l ->
  StronglySorted str_lt l.
Proof.
  induction 1 as [| x l Hl IH Hx]; intros Hnd; [constructor |].
  inversion Hnd as [| ? ? Hnin Hnd']; subst.
  constructor; [auto |].
  rewrite Forall_forall in *; intros z Hz.
  destruct (proj1 (string_leb_cases x z) (Hx z Hz)) as [-> | H];
    [contradiction | assumption].
Qed.

Lemma set_add_nodup (x : string) (s : list string) :
  NoDup s -> NoDup (set_add x s).
Proof.
  unfold set_add; intros H.
  destruct (existsb (String.eqb x) s) eqn:E; [assumption |].
  apply NoDup_app; [assumption | repeat constructor; intros [] |].
  intros y Hy [-> | []].
  assert (existsb (String.eqb y) s = true); [| congruence].
  apply existsb_exists; exists y; split; [assumption | apply String.eqb_refl].
Qed.

Lemma add_roles_nodup (ms : list Message) (ps : list string) :
  NoDup ps -> NoDup (add_roles ps ms).
Proof.
  unfold add_roles; revert ps; induction ms as [| m ms IH]; intros ps H;
    simpl; [assumption |].
  apply IH, set_add_nodup, H.
Qed.

Lemma add_all_roles_nodup (convs : list Session) (ps : list string) :
  NoDup ps ->
  NoDup (fold_left (fun ps c => add_roles ps (messages c)) convs ps).
Proof.
  revert ps; induction convs as [| c convs IH]; intros ps H; simpl;
    [assumption |].
  apply IH, add_roles_nodup, H.
Qed.

Lemma detect_participants_nodup (data : Log) : NoDup (detect_participants data).
Proof.
  unfold detect_participants.
  eapply Permutation_NoDup; [symmetry; apply sorted_perm |].
  change (fold_left _ (conversations data) [])
    with (fold_left (fun ps c => add_roles ps (messages c)) (conversations data) []).
  apply add_all_roles_nodup; constructor.
Qed.

Lemma detect_participants_strict (data : Log) :
  StronglySorted str_lt (detect_participants data).
Proof.
  apply sorted_nodup_strict;
    [apply sorted_strings_sorted | apply detect_participants_nodup].
Qed.

(** X1. The participants are exactly the roles of the messages of the log,
    each listed once, in strictly ascending order of code points; a log
    without messages has no participants. *)
Theorem detect_participants_sorted_unique (data : Log) :
  (forall y, In y (detect_participants data) <-> has_role data y)
  /\ StronglySorted str_lt (detect_participants data)
  /\ NoDup (detect_participants data)
  /\ (all_messages data = [] -> detect_participants data = []).
Proof.
  split; [intros y; apply detect_participants_in |].
  split; [apply detect_participants_strict |].
  split; [apply detect_participants_nodup |].
  intros He.
  destruct (detect_participants data) as [| y ps] eqn:E; [reflexivity |].
  assert (Hy : has_role data y)
    by (apply detect_participants_in; rewrite E; simpl; auto).
  destruct Hy as (c & m & Hc & Hm & _).
  assert (In m (all_messages data))
    by (unfold all_messages; apply in_flat_map; eauto).
  rewrite He in H; destruct H.
Qed.

Lemma detect_participants_sorted_unique_witness :
  all_messages (mk_log None [mk_session [] "" ""]) = []
  /\ detect_participants (mk_log None [mk_session [] "" ""]) = [].
Proof.
  split; [reflexivity |].
  exact (proj2 (proj2 (proj2 (detect_participants_sorted_unique
                                (mk_log None [mk_session [] "" ""]))))
           eq_refl).
Defined.

(** A strictly ascending list is determined by its elements. *)
Lemma strictly_sorted_unique (l1 l2 : list string) :
  StronglySorted str_lt l1 -> StronglySorted str_lt l2 ->
  (forall y, In y l1 <-> In y l2) -> l1 = l2.
Proof.
  intros H1; revert l2; induction H1 as [| x l1 Hl1 IH Hx]; intros l2 H2 Heq.
  - destruct l2 as [| y l2]; [reflexivity |].
    destruct (proj2 (Heq y) (or_introl eq_refl)).
  - destruct l2 as [| y l2].
    { destruct (proj1 (Heq x) (or_introl eq_refl)). }
    inversion H2 as [| ? ? Hl2 Hy]; subst.
    rewrite Forall_forall in Hx, Hy.
    assert (x = y) as ->.
    { destruct (proj1 (Heq x) (or_introl eq_refl)) as [E | Hin]; [auto |].
      destruct (proj2 (Heq y) (or_introl eq_refl)) as [E | Hin']; [auto |].
      exfalso; apply (str_lt_irrefl x).
      eapply str_lt_trans; [apply Hx | apply Hy]; assumption. }
    f_equal; apply IH; [assumption |].
    intros z; split; intros Hz.
    + destruct (proj1 (Heq z) (or_intror Hz)) as [<- | ?]; [| assumption].
      exfalso; exact (str_lt_irrefl _ (Hx _ Hz)).
    + destruct (proj2 (Heq z) (or_intror Hz)) as [<- | ?]; [| assumption].
      exfalso; exact (str_lt_irrefl _ (Hy _ Hz)).
Qed.

(** X2. The participants depend only on which roles occur in the log: two
    logs with the same roles, in whatever order and however often, have the
    same list of participants. *)
Theorem detect_participants_by_roles (data1 data2 : Log) :
  (forall y, has_role data1 y <-> has_role data2 y) ->
  detect_participants data1 = detect_participants data2.
Proof.
  intros H.
  apply strictly_sorted_unique; try apply detect_participants_strict.
  intros y; rewrite !detect_participants_in; apply H.
Qed.

Lemma detect_participants_by_roles_witness :
  (forall y, has_role roles_log_a y <-> has_role roles_log_b y)
  /\ detect_participants roles_log_a = detect_participants roles_log_b
  /\ detect_participants roles_log_a = ["Alice"; "bob"; "carol"].
Proof.
  assert (H : forall y, has_role roles_log_a y <-> has_role roles_log_b y).
  { intros y; unfold has_role; rewrite <- !detect_participants_in.
    reflexivity. }
  split; [exact H |].
  split; [exact (detect_participants_by_roles roles_log_a roles_log_b H) |].
  reflexivity.
Defined.

(** ** Format normalizer: the file name *)

Section FileNameFacts.
Import PyStr.

Lemma string_of_list_ascii_app (l1 l2 : list ascii) :
  string_of_list_ascii (l1 ++ l2)
  = (string_of_list_ascii l1 ++ string_of_list_ascii l2)%string.
Proof. induction l1 as [| c l1 IH]; simpl; [| rewrite IH]; reflexivity. Qed.

Lemma append_assoc (a b c : string) :
  ((a ++ b) ++ c = a ++ (b ++ c))%string.
Proof. induction a as [| x a IH]; simpl; [| rewrite IH]; reflexivity. Qed.

Lemma basename_aux_no_slash (s : string) (cur : list ascii) :
  has_char "/" s = false -> basename_aux s cur = (rev_string cur ++ s)%string.
Proof.
  revert cur; induction s as [| c s IH]; intros cur; simpl.
  - intros _. induction (rev_string cur); simpl; [| rewrite <- IHs]; reflexivity.
  - destruct (Ascii.eqb c "/"); simpl; [discriminate |].
    intros H; rewrite (IH _ H).
    unfold rev_string; simpl.
    rewrite string_of_list_ascii_app, append_assoc; reflexivity.
Qed.

Lemma basename_aux_after_slash (dir name : string) (cur : list ascii) :
  basename_aux (dir ++ String "/" name) cur = basename_aux name [].
Proof.
  revert cur; induction dir as [| c dir IH]; intros cur; simpl; [reflexivity |].
  destruct (Ascii.eqb c "/"); apply IH.
Qed.

(** What follows the last slash of a path. *)
Lemma basename_after_slash (dir name : string) :
  has_char "/" name = false ->
  basename (dir ++ String "/" name) = name.
Proof.
  intros H; unfold basename.
  rewrite basename_aux_after_slash, basename_aux_no_slash by assumption.
  reflexivity.
Qed.

Lemma basename_no_slash (name : string) :
  has_char "/" name = false -> basename name = name.
Proof. intros H; unfold basename; rewrite basename_aux_no_slash; auto. Qed.

Lemma split_on_no_sep (sep : ascii) (s : string) :
  has_char sep s = false -> split_on sep s = [s].
Proof.
  induction s as [| c s IH]; simpl; [reflexivity |].
  destruct (Ascii.eqb c sep); simpl; [discriminate |].
  intros H; rewrite (IH H); reflexivity.
Qed.

Lemma split_on_app_sep (sep : ascii) (p s : string) :
  split_on sep (p ++ String sep s) = split_on sep p ++ split_on sep s.
Proof.
  induction p as [| c p IH]; simpl.
  - rewrite Ascii.eqb_refl; reflexivity.
  - destruct (Ascii.eqb c sep); [rewrite IH; reflexivity |].
    rewrite IH.
    destruct (split_on_head sep p) as (q & qs & rest & -> & _); reflexivity.
Qed.

Lemma find_app_skip {A : Type} (f : A -> bool) (l1 l2 : list A) :
  (forall x, In x l1 -> f x = false) -> find f (l1 ++ l2) = find f l2.
Proof.
  induction l1 as [| x l1 IH]; intros H; simpl; [reflexivity |].
  rewrite (H x (or_introl eq_refl)); apply IH.
  intros y Hy; apply H; simpl; auto.
Qed.

Lemma contains_suffix (p s : string) : contains p (s ++ p) = true.
Proof.
  induction s as [| c s IH]; simpl.
  - assert (H : startswith p p = true).
    { induction p as [| a p IHp]; simpl; [reflexivity |].
      rewrite Ascii.eqb_refl; assumption. }
    destruct p; simpl in *; [reflexivity | rewrite H; reflexivity].
  - rewrite IH; apply orb_true_r.
Qed.

End FileNameFacts.

(** X3. For the old format the label depends only on what follows the last
    slash of the path: the directories, whatever their names, do not change
    the result. *)
Theorem label_ignores_directories (dir name : string)
  (items : list Session) :
  has_char "/" name = false ->
  load_conversation_file (dir ++ String "/" name) (RawList items)
  = load_conversation_file name (RawList items).
Proof.
  intros H; rewrite !load_list.
  rewrite basename_after_slash, basename_no_slash by assumption.
  reflexivity.
Qed.

Lemma label_ignores_directories_witness :
  load_conversation_file "logs_2024.json_old/chat_2025-10-25.json" (RawList [])
  = load_conversation_file "chat_2025-10-25.json" (RawList [])
  /\ load_conversation_file "chat_2025-10-25.json" (RawList [])
     = Ok (mk_log (Some "2025-10-25") []).
Proof.
  split; [| reflexivity].
  exact (label_ignores_directories "logs_2024.json_old" "chat_2025-10-25.json"
           [] eq_refl).
Defined.

(** X4. A file named <prefix>_<date>.json, where the prefix nowhere contains
    "20" and the date starts with "20" and holds no underscore and no
    ".json", is given the label <date>, whatever the directory. *)
Theorem label_of_dated_file_name (filepath prefix d : string)
  (items : list Session) :
  PyStr.basename filepath = (prefix ++ String "_" (d ++ ".json"))%string ->
  PyStr.contains "20" prefix = false ->
  PyStr.startswith "20" d = true ->
  has_char "_" d = false ->
  PyStr.contains ".json" d = false ->
  load_conversation_file filepath (RawList items) = Ok (mk_log (Some d) items).
Proof.
  intros Hb Hp Hd Hu Hj.
  rewrite load_list, Hb; unfold label_of_filename.
  rewrite split_on_app_sep, find_app_skip.
  - rewrite split_on_no_sep.
    + cbn [find].
      rewrite (startswith_app _ _ ".json" Hd), contains_suffix; cbn [andb].
      rewrite remove_all_suffix_only by assumption; reflexivity.
    + clear -Hu. induction d as [| c d IH]; simpl in *; [reflexivity |].
      apply orb_false_iff in Hu as [-> Hu]; simpl; auto.
  - intros part Hin.
    destruct (PyStr.startswith "20" part) eqn:E; [| reflexivity].
    rewrite (split_on_contains _ _ _ _ Hin E) in Hp; discriminate.
Qed.

Lemma label_of_dated_file_name_witness :
  load_conversation_file "exports/daily_conversations_2025-10-25.json"
    (RawList [])
  = Ok (mk_log (Some "2025-10-25") []).
Proof.
  exact (label_of_dated_file_name
           "exports/daily_conversations_2025-10-25.json"
           "daily_conversations" "2025-10-25" []
           eq_refl eq_refl eq_refl eq_refl eq_refl).
Defined.

(** ** Topic extractor: the ranking *)

Lemma firstn_nodup {A : Type} (n : nat) (l : list A) :
  NoDup l -> NoDup (firstn n l).
Proof.
  intros H; rewrite <- (firstn_skipn n l) in H.
  exact (NoDup_app_remove_r _ _ H).
Qed.

Lemma tally_keys (l : list string) : map fst (tally l) = first_occurrences l.
Proof. unfold tally; rewrite map_map; simpl; apply map_id. Qed.

(** X5. No word is listed twice among the topics. *)
Theorem topics_distinct (data : Log) (top_n : nat) :
  NoDup (map fst (extract_topics data top_n)).
Proof.
  rewrite extract_topics_tally, <- firstn_map; apply firstn_nodup.
  eapply Permutation_NoDup.
  - apply Permutation_map; symmetry; apply sorted_perm.
  - rewrite tally_keys; apply first_occurrences_nodup.
Qed.

(** X6. Asking for more topics only adds topics at the end: the [n] topics
    are the first [n] of the [n + k] topics. *)
Theorem topics_prefix (data : Log) (n k : nat) :
  extract_topics data n = firstn n (extract_topics data (n + k)).
Proof.
  rewrite !extract_topics_tally, firstn_firstn.
  replace (Nat.min n (n + k)) with n by lia; reflexivity.
Qed.

Lemma sorted_app_ge (l1 l2 : list (string * nat)) :
  StronglySorted count_ge (l1 ++ l2) ->
  forall a b, In a l1 -> In b l2 -> count_ge a b.
Proof.
  induction l1 as [| x l1 IH]; simpl; intros H a b Ha Hb; [destruct Ha |].
  inversion H as [| ? ? Hs Hx]; subst.
  destruct Ha as [<- | Ha]; [| eauto].
  rewrite Forall_forall in Hx; apply Hx, in_or_app; auto.
Qed.

(** X7. The topics returned are the most frequent words: a counted word
    that is left out occurs at most as often as every topic returned. *)
Theorem topics_dominate (data : Log) (top_n : nat) (w w' : string) (c : nat) :
  In (w, c) (extract_topics data top_n) ->
  In w' (clean_tokens data) ->
  ~ In w' (map fst (extract_topics data top_n)) ->
  occurrences w' (clean_tokens data) <= c.
Proof.
  rewrite extract_topics_tally.
  set (ranked := sorted by_count_desc (tally (clean_tokens data))).
  intros Hin Hw' Hout.
  assert (Hr : In (w', occurrences w' (clean_tokens data)) ranked).
  { apply sorted_in; unfold tally.
    apply in_map_iff; exists w'; split; [reflexivity |].
    apply first_occurrences_in; assumption. }
  rewrite <- (firstn_skipn top_n ranked) in Hr.
  apply in_app_or in Hr as [Hr | Hr].
  - exfalso; apply Hout, in_map_iff; eexists; split; [| exact Hr]; reflexivity.
  - pose proof (sorted_by_count_sorted (tally (clean_tokens data))) as Hs.
    fold ranked in Hs; rewrite <- (firstn_skipn top_n ranked) in Hs.
    exact (sorted_app_ge _ _ Hs _ _ Hin Hr).
Qed.

Lemma topics_dominate_witness :
  In ("apple", 2) (extract_topics ranking_example 1)
  /\ In "zebra" (clean_tokens ranking_example)
  /\ ~ In "zebra" (map fst (extract_topics ranking_example 1))
  /\ occurrences "zebra" (clean_tokens ranking_example) <= 2.
Proof.
  assert (H1 : In ("apple", 2) (extract_topics ranking_example 1)).
  { vm_compute; left; reflexivity. }
  assert (H2 : In "zebra" (clean_tokens ranking_example)).
  { vm_compute; left; reflexivity. }
  assert (H3 : ~ In "zebra" (map fst (extract_topics ranking_example 1))).
  { vm_compute; intros [H | []]; discriminate H. }
  split; [exact H1 |]. split; [exact H2 |]. split; [exact H3 |].
  exact (topics_dominate ranking_example 1 "apple" "zebra" 2 H1 H2 H3).
Defined.

Lemma bump_sum (d : list (string * nat)) (w : string) :
  dict_sum (bump d w) = dict_sum d + 1.
Proof.
  unfold bump; destruct (dict_get w d) as [n |] eqn:E.
  - pose proof (dict_set_sum w d n (n + 1) E); lia.
  - rewrite dict_set_absent by assumption.
    unfold dict_sum; rewrite map_app, list_sum_app; simpl; lia.
Qed.

Lemma fold_bump_sum (l : list string) (d : list (string * nat)) :
  dict_sum (fold_left bump l d) = dict_sum d + List.length l.
Proof.
  revert d; induction l as [| w l IH]; intros d; simpl; [lia |].
  rewrite IH, bump_sum; lia.
Qed.

Lemma dict_sum_perm (d1 d2 : list (string * nat)) :
  Permutation d1 d2 -> dict_sum d1 = dict_sum d2.
Proof.
  unfold dict_sum; induction 1; simpl; lia.
Qed.

Lemma dict_sum_firstn (n : nat) (d : list (string * nat)) :
  dict_sum (firstn n d) <= dict_sum d.
Proof.
  rewrite <- (firstn_skipn n d) at 2.
  unfold dict_sum; rewrite map_app, list_sum_app; lia.
Qed.

(** X8. The counts of the topics never add up to more than the number of
    counted words read in the log, and add up to exactly that number when
    every word is returned. *)
Theorem topics_counts_total (data : Log) (top_n : nat) :
  dict_sum (extract_topics data top_n) <= List.length (clean_tokens data)
  /\ (List.length (first_occurrences (clean_tokens data)) <= top_n ->
      dict_sum (extract_topics data top_n) = List.length (clean_tokens data)).
Proof.
  rewrite extract_topics_tally.
  assert (Hs : dict_sum (sorted by_count_desc (tally (clean_tokens data)))
               = List.length (clean_tokens data)).
  { rewrite (dict_sum_perm _ _ (sorted_perm by_count_desc _)).
    rewrite <- fold_bump_tally, fold_bump_sum; reflexivity. }
  split.
  - rewrite <- Hs; apply dict_sum_firstn.
  - intros Hle; rewrite firstn_all2; [assumption |].
    rewrite (Permutation_length (sorted_perm by_count_desc _)).
    unfold tally; rewrite length_map; assumption.
Qed.

Lemma topics_counts_total_witness :
  List.length (first_occurrences (clean_tokens ranking_example)) <= 15
  /\ dict_sum (extract_topics ranking_example 15) = 4.
Proof.
  assert (H : List.length (first_occurrences (clean_tokens ranking_example)) <= 15)
    by (vm_compute; lia).
  split; [exact H |].
  exact (proj2 (topics_counts_total ranking_example 15) H).
Defined.

(** ** Time classifier: durations and the twelve-hour clock *)

(** X9. For timestamps that [strptime] accepts, durations behave like
    differences: from a time to itself the duration is 0, swapping the two
    times negates it, durations over consecutive stretches add up, and a
    duration is always strictly less than a day, in either direction. *)
Theorem duration_algebra (a b c : string) (ta tb tc : time_obj) :
  strptime a = Ok ta -> strptime b = Ok tb -> strptime c = Ok tc ->
  exists dab dba dbc dac,
    calculate_duration a b = Ok dab
    /\ calculate_duration b a = Ok dba
    /\ calculate_duration b c = Ok dbc
    /\ calculate_duration a c = Ok dac
    /\ calculate_duration a a = Ok 0%Z
    /\ dba = (- dab)%Z
    /\ dac = (dab + dbc)%Z
    /\ (-1439 <= dab <= 1439)%Z.
Proof.
  intros Ha Hb Hc.
  pose proof (strptime_range a ta Ha) as Ra.
  pose proof (strptime_range b tb Hb) as Rb.
  rewrite (calculate_duration_ok a b ta tb Ha Hb),
          (calculate_duration_ok b a tb ta Hb Ha),
          (calculate_duration_ok b c tb tc Hb Hc),
          (calculate_duration_ok a c ta tc Ha Hc),
          (calculate_duration_ok a a ta ta Ha Ha).
  do 4 eexists.
  repeat (split; [reflexivity |]).
  split; [f_equal; lia |].
  repeat split; lia.
Qed.

Lemma duration_algebra_witness :
  exists dab dba dbc dac,
    calculate_duration "11:55 PM" "12:05 AM" = Ok dab
    /\ calculate_duration "12:05 AM" "11:55 PM" = Ok dba
    /\ calculate_duration "12:05 AM" "09:30 AM" = Ok dbc
    /\ calculate_duration "11:55 PM" "09:30 AM" = Ok dac
    /\ dba = (- dab)%Z /\ dac = (dab + dbc)%Z.
Proof.
  destruct (duration_algebra "11:55 PM" "12:05 AM" "09:30 AM"
              (mk_time 23 55) (mk_time 0 5) (mk_time 9 30)
              eq_refl eq_refl eq_refl)
    as (dab & dba & dbc & dac & H1 & H2 & H3 & H4 & _ & H5 & H6 & _).
  exists dab, dba, dbc, dac; repeat split; assumption.
Defined.

Lemma strptime_raises (s : string) (e : exn) :
  strptime s = Raise e -> e = ValueError_strptime.
Proof.
  unfold strptime, Strptime.strptime.
  repeat match goal with
    | |- context [match ?x with _ => _ end] => destruct x
    end; intros H; congruence.
Qed.

(** X10. Both time functions fail only on a timestamp that [strptime]
    rejects, and then with the [ValueError] of [strptime]:
    [calculate_duration] fails exactly when one of its two timestamps is
    rejected, [categorize_time_period] exactly when its timestamp is. *)
Theorem time_functions_errors (s e : string) :
  (forall x, calculate_duration s e = Raise x -> x = ValueError_strptime)
  /\ (calculate_duration s e = Raise ValueError_strptime
      <-> strptime s = Raise ValueError_strptime
          \/ strptime e = Raise ValueError_strptime)
  /\ (forall x, categorize_time_period s = Raise x -> x = ValueError_strptime)
  /\ (categorize_time_period s = Raise ValueError_strptime
      <-> strptime s = Raise ValueError_strptime).
Proof.
  unfold calculate_duration, categorize_time_period.
  destruct (strptime s) as [ts | xs] eqn:Hs;
    destruct (strptime e) as [te | xe] eqn:He; cbn [bind];
    try (pose proof (strptime_raises _ _ Hs); subst xs);
    try (pose proof (strptime_raises _ _ He); subst xe);
    repeat match goal with
      | |- context [if ?b then _ else _] => destruct b
      end;
    repeat split; try congruence; auto;
    try (intros [H | H]; congruence).
Qed.

Lemma time_functions_errors_witness :
  calculate_duration "09:00 AM" "13:00 PM" = Raise ValueError_strptime
  /\ categorize_time_period "00:15 AM" = Raise ValueError_strptime.
Proof.
  split.
  - apply (proj1 (proj2 (time_functions_errors "09:00 AM" "13:00 PM"))).
    right; reflexivity.
  - apply (proj2 (proj2 (proj2 (time_functions_errors "00:15 AM" "")))).
    reflexivity.
Defined.

(** X11. A well-formed timestamp is classified by its reading on the
    twelve-hour clock: before noon, 12 and 1 to 5 are Night and 6 to 11 are
    Morning; from noon on, 12 and 1 to 4 are Afternoon, 5 to 9 are Evening,
    10 and 11 are Night. In particular 12:MM AM is Night and 12:MM PM is
    Afternoon. *)
Theorem categorize_on_clock (h m : Z) (p : Strptime.ampm) :
  (1 <= h <= 12)%Z -> (0 <= m <= 59)%Z ->
  categorize_time_period (Strptime.format_time h m p)
  = Ok (period_on_clock h p).
Proof.
  intros Hh Hm; unfold categorize_time_period.
  change strptime with Strptime.strptime.
  rewrite (strptime_format_time h m p Hh Hm); cbn [bind hour].
  unfold period_on_clock, Strptime.hour24.
  destruct p; destruct (Z.eqb_spec h 12); cbn [orb];
    repeat match goal with
      | |- context [(?a <=? ?b)%Z] => destruct (Z.leb_spec a b)
      | |- context [(?a <? ?b)%Z] => destruct (Z.ltb_spec a b)
      end; cbn [andb orb]; try reflexivity; try lia.
Qed.

Lemma categorize_on_clock_witness :
  categorize_time_period "12:30 AM" = Ok Night
  /\ categorize_time_period "12:30 PM" = Ok Afternoon.
Proof.
  split.
  - exact (categorize_on_clock 12 30 Strptime.AM ltac:(lia) ltac:(lia)).
  - exact (categorize_on_clock 12 30 Strptime.PM ltac:(lia) ltac:(lia)).
Defined.

(** ** Statistics aggregator: when it fails *)

Lemma calculate_duration_raises (s e : string) (x : exn) :
  calculate_duration s e = Raise x -> x = ValueError_strptime.
Proof.
  unfold calculate_duration.
  destruct (strptime s) eqn:Hs; cbn [bind];
    [| intros [= <-]; eapply strptime_raises; eassumption].
  destruct (strptime e) eqn:He; cbn [bind]; [discriminate |].
  intros [= <-]; eapply strptime_raises; eassumption.
Qed.

Lemma categorize_raises (s : string) (x : exn) :
  categorize_time_period s = Raise x -> x = ValueError_strptime.
Proof.
  unfold categorize_time_period.
  destruct (strptime s) eqn:Hs; cbn [bind];
    [| intros [= <-]; eapply strptime_raises; eassumption].
  repeat match goal with
    | |- context [if ?b then _ else _] => destruct b
    end; discriminate.
Qed.

Lemma process_conversation_raises (ps : list string) (st : stats) (i : nat)
  (c : Session) (x : exn) :
  keys_are ps st ->
  (forall m, In m (messages c) -> In (role m) ps) ->
  process_conversation st (i, c) = Raise x ->
  x = ValueError_strptime \/ x = IndexError.
Proof.
  intros (K1 & K2 & K3) Hin; unfold process_conversation.
  destruct (calculate_duration _ _) eqn:Hd; cbn [bind];
    [| intros [= <-]; left; eapply calculate_duration_raises; eassumption].
  destruct (categorize_time_period _) eqn:Hp; cbn [bind];
    [| intros [= <-]; left; eapply categorize_raises; eassumption].
  unfold first_message.
  destruct (messages c) as [| m ms] eqn:Hm; cbn [bind];
    [intros [= <-]; right; reflexivity |].
  destruct (dict_modify_ok (role m) (fun n => n + 1)
              (st_conversations_started_by st)) as [sb Hsb];
    [rewrite K2; apply Hin; simpl; auto |].
  rewrite Hsb; cbn [bind]; intros H.
  match type of H with
  | for_each count_message _ ?s = _ =>
      destruct (count_messages_ok ps (m :: ms) s) as [st' Hst']
  end.
  - repeat split; simpl; auto.
    rewrite (dict_modify_keys _ _ _ _ Hsb); assumption.
  - assumption.
  - rewrite Hst' in H; discriminate.
Qed.

Lemma conversations_raise (ps : list string) (l : list Session) (n : nat)
  (st : stats) (x : exn) :
  keys_are ps st ->
  (forall c m, In c l -> In m (messages c) -> In (role m) ps) ->
  for_each process_conversation (enumerate_from n l) st = Raise x ->
  x = ValueError_strptime \/ x = IndexError.
Proof.
  revert n st; induction l as [| c l IH]; intros n st K Hin;
    [discriminate |].
  rewrite enumerate_from_cons; cbn [for_each].
  destruct (process_conversation st (n, c)) as [st1 | x1] eqn:H1; cbn [bind].
  - apply IH; [| intros c' m Hc' Hm; apply (Hin c' m); simpl; auto].
    apply process_conversation_inv in H1 as (info & _ & He).
    apply (ce_keys _ _ _ _ He); assumption.
  - intros [= <-].
    eapply process_conversation_raises; [exact K | | exact H1].
    intros m Hm; apply (Hin c m); simpl; auto.
Qed.

(** X12. The aggregator returns statistics exactly for the logs that have
    a label and whose sessions all have at least one message and two
    timestamps that [strptime] accepts. *)
Theorem get_basic_stats_succeeds_iff (data : Log) :
  (exists st, get_basic_stats data = Ok st)
  <-> (exists label, date data = Some label)
      /\ Forall well_formed_session (conversations data).
Proof.
  split.
  - intros [st H]; eapply get_basic_stats_ok_inv; eassumption.
  - intros [[label Hd] Hwf]; eapply get_basic_stats_ok; eassumption.
Qed.

Lemma get_basic_stats_succeeds_iff_witness :
  exists st, get_basic_stats tie_log = Ok st.
Proof.
  apply (proj2 (get_basic_stats_succeeds_iff tie_log)).
  split; [exists "2025-10-30"; reflexivity | exact tie_log_well_formed].
Defined.

(** X13. The aggregator raises nothing but the [KeyError] of a missing
    label, the [ValueError] of a timestamp and the [IndexError] of a
    session without messages; the label is read first, so a log without
    label fails with that [KeyError] whatever its sessions are; and the
    look-ups by participant never fail. *)
Theorem get_basic_stats_exceptions (data : Log) (x : exn) :
  get_basic_stats data = Raise x ->
  (date data = None /\ x = KeyError "date")
  \/ (date data <> None /\ (x = ValueError_strptime \/ x = IndexError)).
Proof.
  unfold get_basic_stats.
  destruct (date data) as [label |]; cbn [bind].
  - intros H; right; split; [discriminate |].
    eapply (conversations_raise (detect_participants data));
      [apply initial_stats_keys | | exact H].
    intros c m Hc Hm; apply detect_participants_in; eauto.
  - intros [= <-]; left; auto.
Qed.

Lemma get_basic_stats_exceptions_witness :
  get_basic_stats (mk_log None (conversations log_with_empty_session))
  = Raise (KeyError "date")
  /\ date (mk_log None (conversations log_with_empty_session)) = None.
Proof.
  assert (H : get_basic_stats
                (mk_log None (conversations log_with_empty_session))
              = Raise (KeyError "date")) by reflexivity.
  split; [exact H |].
  destruct (get_basic_stats_exceptions _ _ H) as [[Hd _] | [Hd _]];
    [exact Hd | reflexivity].
Defined.

(** X14. A timestamp that [strptime] rejects stops the aggregator with its
    [ValueError] as soon as its session is reached, before the messages of
    that session are looked at: even when the session has no message, the
    failure is the [ValueError], not the [IndexError]. *)
Theorem bad_timestamp_fails (data : Log) (label : string)
  (pre post : list Session) (c : Session) :
  date data = Some label ->
  conversations data = pre ++ c :: post ->
  Forall well_formed_session pre ->
  strptime (start_time c) = Raise ValueError_strptime
  \/ strptime (end_time c) = Raise ValueError_strptime ->
  get_basic_stats data = Raise ValueError_strptime.
Proof.
  intros Hd Hc Hpre Hbad.
  unfold get_basic_stats; rewrite Hd; cbn [bind].
  change (enumerate (conversations data))
    with (enumerate_from 0 (conversations data)).
  rewrite Hc, enumerate_from_app, for_each_app.
  destruct (conversations_ok (detect_participants data) pre 0
              (initial_stats label data (detect_participants data)))
    as [st1 H1]; [apply initial_stats_keys | assumption | |].
  { intros c' m Hc' Hm'; apply detect_participants_in.
    exists c', m; rewrite Hc, in_app_iff; auto. }
  rewrite H1; cbn [bind]. rewrite enumerate_from_cons; cbn [for_each].
  unfold process_conversation at 1, calculate_duration.
  destruct Hbad as [Hs | He].
  - rewrite Hs; reflexivity.
  - rewrite He.
    destruct (strptime (start_time c)) as [ts | xs] eqn:Hs; cbn [bind];
      [reflexivity |].
    rewrite (strptime_raises _ _ Hs); reflexivity.
Qed.

Lemma bad_timestamp_fails_witness :
  get_basic_stats log_with_bad_timestamp = Raise ValueError_strptime.
Proof.
  refine (bad_timestamp_fails log_with_bad_timestamp "2025-10-30"
            [mk_session [mk_message "alice" (Text "good morning")]
               "09:00 AM" "09:10 AM"]
            [] (mk_session [] "02:00 PM" "14:02") eq_refl eq_refl _ _).
  - repeat constructor; simpl; try discriminate; eexists; reflexivity.
  - right; reflexivity.
Defined.

(** ** Statistics aggregator: what each entry counts *)

Lemma dict_get_set {V : Type} (k p : string) (v : V) (d : list (string * V)) :
  dict_get p (dict_set k v d)
  = if String.eqb p k then Some v else dict_get p d.
Proof.
  induction d as [| [k0 v0] d IH]; simpl.
  - destruct (String.eqb p k); reflexivity.
  - destruct (String.eqb_spec k k0) as [-> | Hne]; simpl.
    + destruct (String.eqb_spec p k0); reflexivity.
    + rewrite IH.
      destruct (String.eqb_spec p k0) as [-> | ?]; [| reflexivity].
      destruct (String.eqb_spec k0 k); [congruence | reflexivity].
Qed.

Lemma dict_get_modify {V : Type} (k p : string) (f : V -> V)
  (d d' : list (string * V)) :
  dict_modify k f d = Ok d' ->
  dict_get p d'
  = if String.eqb p k then option_map f (dict_get p d) else dict_get p d.
Proof.
  intros H; apply dict_modify_inv in H as (v & Hv & ->).
  rewrite dict_get_set.
  destruct (String.eqb_spec p k) as [-> | ?]; [rewrite Hv |]; reflexivity.
Qed.

Lemma dict_get_from_keys {V : Type} (ps : list string) (v : V) (p : string) :
  dict_get p (dict_from_keys ps v) = if in_dec string_dec p ps then Some v else None.
Proof.
  unfold dict_from_keys; induction ps as [| k ps IH]; simpl; [reflexivity |].
  rewrite IH.
  destruct (String.eqb_spec p k) as [E | Hne];
    destruct (string_dec k p) as [E' | E']; try congruence;
    try reflexivity; destruct (in_dec string_dec p ps); reflexivity.
Qed.

(** What the loop over the messages does to the dictionaries by
    participant. *)
Lemma count_messages_dicts (ms : list Message) (st st' : stats) (p : string) :
  for_each count_message ms st = Ok st' ->
  dict_get p (st_messages_by_participant st')
  = option_map (fun n => n + List.length (by_role p ms))
      (dict_get p (st_messages_by_participant st))
  /\ dict_get p (st_message_lengths_by_participant st')
     = option_map (fun l => l ++ map msg_length (by_role p ms))
         (dict_get p (st_message_lengths_by_participant st)).
Proof.
  revert st; induction ms as [| m ms IH]; intros st; simpl.
  - intros [= <-]; split.
    + destruct (dict_get p _); simpl; [rewrite Nat.add_0_r |]; reflexivity.
    + destruct (dict_get p _); simpl; [rewrite app_nil_r |]; reflexivity.
  - intros H; apply bind_ok in H as (st1 & H1 & H2).
    destruct (IH _ H2) as [IH1 IH2]; rewrite IH1, IH2; clear IH IH1 IH2 H2.
    unfold count_message in H1.
    apply bind_ok in H1 as (bp & Hbp & H1).
    apply bind_ok in H1 as (ls & Hls & H1).
    injection H1 as <-; cbn [st_messages_by_participant
                             st_message_lengths_by_participant].
    rewrite (dict_get_modify _ p _ _ _ Hbp), (dict_get_modify _ p _ _ _ Hls).
    rewrite (String.eqb_sym (role m) p).
    destruct (String.eqb p (role m)); simpl; split;
      try (destruct (dict_get p _); simpl; f_equal; lia);
      destruct (dict_get p _); simpl; try reflexivity.
    rewrite <- app_assoc; reflexivity.
Qed.

(** What one turn of the loop over the conversations does to them, and to
    the counters of openers and of periods. *)
Lemma process_conversation_dicts (st st' : stats) (i : nat) (c : Session)
  (p : string) (q : period) :
  process_conversation st (i, c) = Ok st' ->
  dict_get p (st_messages_by_participant st')
  = option_map (fun n => n + List.length (by_role p (messages c)))
      (dict_get p (st_messages_by_participant st))
  /\ dict_get p (st_message_lengths_by_participant st')
     = option_map (fun l => l ++ map msg_length (by_role p (messages c)))
         (dict_get p (st_message_lengths_by_participant st))
  /\ dict_get p (st_conversations_started_by st')
     = option_map (fun n => n + (if opened_by p c then 1 else 0))
         (dict_get p (st_conversations_started_by st))
  /\ period_count q (st_time_periods st')
     = period_count q (st_time_periods st)
       + (if in_period q c then message_count c else 0).
Proof.
  unfold process_conversation; intros H.
  apply bind_ok in H as (d & Hd & H).
  apply bind_ok in H as (tp & Htp & H).
  apply bind_ok in H as (first & Hf & H).
  apply bind_ok in H as (sb & Hsb & H).
  pose proof (count_messages_inv _ _ _ H) as He.
  destruct (count_messages_dicts _ _ _ p H) as [H1 H2].
  cbn [st_messages_by_participant st_message_lengths_by_participant] in H1, H2.
  split; [exact H1 |]. split; [exact H2 |]. split.
  - rewrite (me_started _ _ _ He); cbn [st_conversations_started_by].
    rewrite (dict_get_modify _ p _ _ _ Hsb).
    unfold opened_by, first_message in *.
    destruct (messages c) as [| m ms]; [discriminate |].
    injection Hf as <-. rewrite (String.eqb_sym (role m) p).
    destruct (String.eqb p (role m));
      destruct (dict_get p (st_conversations_started_by st)); simpl;
      try reflexivity; f_equal; lia.
  - rewrite (me_periods _ _ _ He); cbn [st_time_periods].
    unfold in_period, message_count; rewrite Htp.
    destruct tp, q; simpl; lia.
Qed.

Lemma conversations_dicts (l : list Session) (n : nat) (st st' : stats)
  (p : string) (q : period) :
  for_each process_conversation (enumerate_from n l) st = Ok st' ->
  dict_get p (st_messages_by_participant st')
  = option_map (fun k => k + List.length (by_role p (flat_map messages l)))
      (dict_get p (st_messages_by_participant st))
  /\ dict_get p (st_message_lengths_by_participant st')
     = option_map
         (fun ls => ls ++ map msg_length (by_role p (flat_map messages l)))
         (dict_get p (st_message_lengths_by_participant st))
  /\ dict_get p (st_conversations_started_by st')
     = option_map (fun k => k + List.length (filter (opened_by p) l))
         (dict_get p (st_conversations_started_by st))
  /\ period_count q (st_time_periods st')
     = period_count q (st_time_periods st)
       + total_count (filter (in_period q) l).
Proof.
  revert n st; induction l as [| c l IH]; intros n st.
  - simpl; intros [= <-]; unfold total_count; simpl.
    repeat split; try lia;
      destruct (dict_get p _); simpl; rewrite ?Nat.add_0_r, ?app_nil_r;
      reflexivity.
  - rewrite enumerate_from_cons; cbn [for_each]; intros H.
    apply bind_ok in H as (st1 & H1 & H2).
    destruct (IH _ _ H2) as (I1 & I2 & I3 & I4).
    destruct (process_conversation_dicts _ _ _ _ p q H1) as (P1 & P2 & P3 & P4).
    rewrite I1, I2, I3, I4, P1, P2, P3, P4; clear.
    cbn [flat_map filter]; unfold by_role; rewrite !filter_app.
    repeat split.
    + destruct (dict_get p _); simpl; [| reflexivity].
      rewrite length_app; f_equal; lia.
    + destruct (dict_get p _); simpl; [| reflexivity].
      rewrite map_app, <- app_assoc; reflexivity.
    + destruct (dict_get p _); simpl; [| reflexivity].
      destruct (opened_by p c); simpl; f_equal; lia.
    + destruct (in_period q c); unfold total_count; simpl; lia.
Qed.

(** The entries of the statistics returned, participant by participant and
    period by period. *)
Lemma get_basic_stats_dicts (data : Log) (st : stats) (p : string)
  (q : period) :
  get_basic_stats data = Ok st ->
  let known (A : Type) (v : A) :=
    if in_dec string_dec p (detect_participants data) then Some v else None in
  dict_get p (st_messages_by_participant st)
  = known _ (List.length (by_role p (all_messages data)))
  /\ dict_get p (st_message_lengths_by_participant st)
     = known _ (map msg_length (by_role p (all_messages data)))
  /\ dict_get p (st_conversations_started_by st)
     = known _ (List.length (filter (opened_by p) (conversations data)))
  /\ period_count q (st_time_periods st)
     = total_count (filter (in_period q) (conversations data)).
Proof.
  unfold get_basic_stats; intros H.
  destruct (date data) as [label |]; [| discriminate].
  cbn [bind] in H.
  destruct (conversations_dicts _ _ _ _ p q H) as (H1 & H2 & H3 & H4).
  cbn [initial_stats st_messages_by_participant st_time_periods
       st_message_lengths_by_participant st_conversations_started_by] in *.
  rewrite !dict_get_from_keys in *.
  rewrite H1, H2, H3, H4; unfold all_messages.
  destruct (in_dec string_dec p (detect_participants data)); destruct q;
    simpl; auto.
Qed.

Lemma total_count_messages (l : list Session) :
  total_count l = List.length (flat_map messages l).
Proof.
  unfold total_count, message_count; induction l as [| c l IH]; simpl;
    [reflexivity |].
  rewrite length_app, IH; reflexivity.
Qed.

(** X15. In the statistics of a well-formed log, [total_messages] is the
    number of messages of the log, and [messages_by_participant] holds for
    each participant the number of messages with that role, and nothing
    for any other name. *)
Theorem messages_by_participant_exact (data : Log) (label : string) :
  date data = Some label ->
  Forall well_formed_session (conversations data) ->
  exists st,
    get_basic_stats data = Ok st
    /\ st_total_messages st = List.length (all_messages data)
    /\ (forall p, In p (detect_participants data) ->
          dict_get p (st_messages_by_participant st)
          = Some (List.length (by_role p (all_messages data))))
    /\ (forall p, ~ In p (detect_participants data) ->
          dict_get p (st_messages_by_participant st) = None).
Proof.
  intros Hd Hwf.
  destruct (get_basic_stats_ok data label Hd Hwf) as [st Hst].
  exists st; split; [assumption |].
  split.
  - destruct (get_basic_stats_inv data st Hst) as (? & ? & _ & _ & Hl).
    rewrite (le_total _ _ _ _ Hl); simpl; apply total_count_messages.
  - split; intros p Hp;
      destruct (get_basic_stats_dicts data st p Morning Hst) as (H & _);
      rewrite H; destruct (in_dec string_dec p (detect_participants data));
      tauto.
Qed.

Lemma messages_by_participant_exact_witness :
  exists st,
    get_basic_stats tie_log = Ok st
    /\ st_total_messages st = 2
    /\ dict_get "bob" (st_messages_by_participant st) = Some 1.
Proof.
  destruct (messages_by_participant_exact tie_log "2025-10-30" eq_refl
              tie_log_well_formed) as (st & Hst & Ht & Hp & _).
  exists st; split; [exact Hst |]. split; [exact Ht |].
  apply (Hp "bob"); vm_compute; right; left; reflexivity.
Defined.

(** X16. In the statistics of a well-formed log,
    [conversations_started_by] holds for each participant the number of
    conversations whose first message has that role. *)
Theorem conversations_started_by_exact (data : Log) (label : string) :
  date data = Some label ->
  Forall well_formed_session (conversations data) ->
  exists st,
    get_basic_stats data = Ok st
    /\ (forall p, In p (detect_participants data) ->
          dict_get p (st_conversations_started_by st)
          = Some (List.length (filter (opened_by p) (conversations data))))
    /\ (forall p, ~ In p (detect_participants data) ->
          dict_get p (st_conversations_started_by st) = None).
Proof.
  intros Hd Hwf.
  destruct (get_basic_stats_ok data label Hd Hwf) as [st Hst].
  exists st; split; [assumption |].
  split; intros p Hp;
    destruct (get_basic_stats_dicts data st p Morning Hst) as (_ & _ & H & _);
    rewrite H; destruct (in_dec string_dec p (detect_participants data));
    tauto.
Qed.

Lemma conversations_started_by_exact_witness :
  exists st,
    get_basic_stats tie_log = Ok st
    /\ dict_get "alice" (st_conversations_started_by st) = Some 1.
Proof.
  destruct (conversations_started_by_exact tie_log "2025-10-30" eq_refl
              tie_log_well_formed) as (st & Hst & Hp & _).
  exists st; split; [exact Hst |].
  apply (Hp "alice"); vm_compute; left; reflexivity.
Defined.

(** X17. In the statistics of a well-formed log,
    [message_lengths_by_participant] holds for each participant the
    lengths of the messages with that role, in the order of the log. *)
Theorem message_lengths_exact (data : Log) (label : string) :
  date data = Some label ->
  Forall well_formed_session (conversations data) ->
  exists st,
    get_basic_stats data = Ok st
    /\ (forall p, In p (detect_participants data) ->
          dict_get p (st_message_lengths_by_participant st)
          = Some (map msg_length (by_role p (all_messages data))))
    /\ (forall p, ~ In p (detect_participants data) ->
          dict_get p (st_message_lengths_by_participant st) = None).
Proof.
  intros Hd Hwf.
  destruct (get_basic_stats_ok data label Hd Hwf) as [st Hst].
  exists st; split; [assumption |].
  split; intros p Hp;
    destruct (get_basic_stats_dicts data st p Morning Hst) as (_ & H & _);
    rewrite H; destruct (in_dec string_dec p (detect_participants data));
    tauto.
Qed.

Lemma message_lengths_exact_witness :
  exists st,
    get_basic_stats tie_log = Ok st
    /\ dict_get "alice" (st_message_lengths_by_participant st) = Some [12].
Proof.
  destruct (message_lengths_exact tie_log "2025-10-30" eq_refl
              tie_log_well_formed) as (st & Hst & Hp & _).
  exists st; split; [exact Hst |].
  apply (Hp "alice"); vm_compute; left; reflexivity.
Defined.

(** X18. In the statistics of a well-formed log, the counter of each
    period of the day is the number of messages of the conversations that
    start in that period. *)
Theorem time_periods_exact (data : Log) (label : string) :
  date data = Some label ->
  Forall well_formed_session (conversations data) ->
  exists st,
    get_basic_stats data = Ok st
    /\ n_morning (st_time_periods st)
       = total_count (filter (in_period Morning) (conversations data))
    /\ n_afternoon (st_time_periods st)
       = total_count (filter (in_period Afternoon) (conversations data))
    /\ n_evening (st_time_periods st)
       = total_count (filter (in_period Evening) (conversations data))
    /\ n_night (st_time_periods st)
       = total_count (filter (in_period Night) (conversations data)).
Proof.
  intros Hd Hwf.
  destruct (get_basic_stats_ok data label Hd Hwf) as [st Hst].
  exists st; split; [assumption |].
  pose proof (fun q => proj2 (proj2 (proj2
                (get_basic_stats_dicts data st "" q Hst)))) as H.
  repeat split;
    [apply (H Morning) | apply (H Afternoon) | apply (H Evening)
     | apply (H Night)].
Qed.

Lemma time_periods_exact_witness :
  exists st,
    get_basic_stats tie_log = Ok st
    /\ n_morning (st_time_periods st) = 1
    /\ n_afternoon (st_time_periods st) = 1.
Proof.
  destruct (time_periods_exact tie_log "2025-10-30" eq_refl
              tie_log_well_formed) as (st & Hst & Hm & Ha & _).
  exists st; split; [exact Hst |].
  split; [rewrite Hm | rewrite Ha]; vm_compute; reflexivity.
Defined.

Lemma summaries_nth (l : list Session) (n : nat) (infos : list conv_info)
  (i : nat) (c : Session) :
  summaries n l infos -> nth_error l i = Some c ->
  exists info, nth_error infos i = Some info /\ summarize (n + i) c = Ok info.
Proof.
  unfold summaries; revert n infos i; induction l as [| c0 l IH];
    intros n infos i H Hi; [destruct i; discriminate |].
  rewrite enumerate_from_cons in H.
  inversion H as [| ? info ? infos' Hc Hl]; subst; simpl in Hc.
  destruct i as [| i]; simpl in Hi.
  - injection Hi as ->. exists info; rewrite Nat.add_0_r; auto.
  - destruct (IH _ _ _ Hl Hi) as (info' & Hn & Hs).
    exists info'; simpl; split; [assumption |].
    rewrite Nat.add_succ_r; assumption.
Qed.

Lemma summaries_message_counts (l : list Session) (n : nat)
  (infos : list conv_info) :
  summaries n l infos -> map ci_message_count infos = map message_count l.
Proof.
  unfold summaries; revert n infos; induction l as [| c l IH];
    intros n infos H.
  - inversion H; reflexivity.
  - rewrite enumerate_from_cons in H.
    inversion H as [| ? info ? infos' Hc Hl]; subst; simpl in Hc.
    apply summarize_fields in Hc as (_ & Hm & _).
    simpl; rewrite (IH _ _ Hl), Hm; reflexivity.
Qed.

(** X19. In the statistics of a well-formed log, [conversation_lengths]
    holds one summary per conversation, in the order of the log: the
    summary at position [i] carries the index [i + 1], the number of
    messages, the two timestamps, the duration and the period of the
    conversation at position [i]; and the message counts of the summaries
    add up to [total_messages]. *)
Theorem conversation_lengths_exact (data : Log) (label : string) :
  date data = Some label ->
  Forall well_formed_session (conversations data) ->
  exists st,
    get_basic_stats data = Ok st
    /\ List.length (st_conversation_lengths st)
       = List.length (conversations data)
    /\ (forall i c,
          nth_error (conversations data) i = Some c ->
          exists info,
            nth_error (st_conversation_lengths st) i = Some info
            /\ ci_index info = i + 1
            /\ ci_message_count info = List.length (messages c)
            /\ ci_start_time info = start_time c
            /\ ci_end_time info = end_time c
            /\ calculate_duration (start_time c) (end_time c)
               = Ok (ci_duration_minutes info)
            /\ categorize_time_period (start_time c)
               = Ok (ci_time_period info))
    /\ list_sum (map ci_message_count (st_conversation_lengths st))
       = st_total_messages st.
Proof.
  intros Hd Hwf.
  destruct (get_basic_stats_ok data label Hd Hwf) as [st Hst].
  exists st; split; [assumption |].
  destruct (get_basic_stats_inv data st Hst) as (label' & infos & _ & Hs & Hl).
  pose proof (le_lengths _ _ _ _ Hl) as Hlen; simpl in Hlen.
  pose proof (le_total _ _ _ _ Hl) as Htot; simpl in Htot.
  rewrite Hlen, Htot.
  split; [apply (summaries_length _ _ _ Hs) |].
  split.
  - intros i c Hi.
    destruct (summaries_nth _ _ _ _ _ Hs Hi) as (info & Hn & Hsum).
    exists info; split; [assumption |].
    apply (summarize_fields i c info Hsum).
  - rewrite (summaries_message_counts _ _ _ Hs); reflexivity.
Qed.

Lemma conversation_lengths_exact_witness :
  exists st info,
    get_basic_stats tie_log = Ok st
    /\ nth_error (st_conversation_lengths st) 1 = Some info
    /\ ci_index info = 2
    /\ ci_start_time info = "02:00 PM"
    /\ calculate_duration "02:00 PM" "02:02 PM" = Ok (ci_duration_minutes info).
Proof.
  destruct (conversation_lengths_exact tie_log "2025-10-30" eq_refl
              tie_log_well_formed) as (st & Hst & _ & Hn & _).
  destruct (Hn 1 (mk_session [mk_message "bob" (Text "quick chat")]
                    "02:00 PM" "02:02 PM") eq_refl)
    as (info & H1 & H2 & _ & H3 & _ & H4 & _).
  exists st, info; repeat split; assumption.
Defined.

(** X20. The statistics of a well-formed log carry the label of the log as
    their date, the number of its conversations, and its participants as
    [detect_participants] lists them; the three dictionaries by participant
    have exactly these participants as keys, in that order. *)
Theorem stats_header_exact (data : Log) (label : string) :
  date data = Some label ->
  Forall well_formed_session (conversations data) ->
  exists st,
    get_basic_stats data = Ok st
    /\ st_date st = label
    /\ st_num_conversations st = List.length (conversations data)
    /\ st_participants st = detect_participants data
    /\ dict_keys (st_messages_by_participant st) = detect_participants data
    /\ dict_keys (st_conversations_started_by st) = detect_participants data
    /\ dict_keys (st_message_lengths_by_participant st)
       = detect_participants data.
Proof.
  intros Hd Hwf.
  destruct (get_basic_stats_ok data label Hd Hwf) as [st Hst].
  exists st; split; [assumption |].
  destruct (get_basic_stats_inv data st Hst) as (label' & infos & Hd' & _ & Hl).
  assert (label' = label) as -> by congruence.
  destruct (le_keys _ _ _ _ Hl _ (initial_stats_keys label data _))
    as (K1 & K2 & K3).
  rewrite (le_date _ _ _ _ Hl), (le_num _ _ _ _ Hl),
    (le_participants _ _ _ _ Hl).
  repeat split; assumption.
Qed.

Lemma stats_header_exact_witness :
  exists st,
    get_basic_stats tie_log = Ok st
    /\ st_date st = "2025-10-30"
    /\ dict_keys (st_conversations_started_by st) = ["alice"; "bob"].
Proof.
  destruct (stats_header_exact tie_log "2025-10-30" eq_refl
              tie_log_well_formed) as (st & Hst & Hd & _ & _ & _ & Hk & _).
  exists st; split; [exact Hst |]. split; [exact Hd |].
  rewrite Hk; vm_compute; reflexivity.
Defined.

(** ** The report of the topics *)

Lemma string_length_append (a b : string) :
  String.length (a ++ b) = String.length a + String.length b.
Proof. induction a as [| c a IH]; simpl; [| rewrite IH]; reflexivity. Qed.

Lemma repeat_char_length (c : ascii) (n : nat) :
  String.length (repeat_char c n) = n.
Proof. induction n as [| n IH]; simpl; [| rewrite IH]; reflexivity. Qed.

Lemma ljust_length (w : nat) (s : string) :
  String.length (ljust w s) = Nat.max w (String.length s).
Proof.
  unfold ljust; rewrite string_length_append, repeat_char_length; lia.
Qed.

Lemma rjust_length (w : nat) (s : string) :
  String.length (rjust w s) = Nat.max w (String.length s).
Proof.
  unfold rjust; rewrite string_length_append, repeat_char_length; lia.
Qed.

Lemma fits_below_spec (w bound n : nat) :
  fits_below w bound = true -> n < bound ->
  String.length (str_of_nat n) <= w.
Proof.
  unfold fits_below; rewrite forallb_forall; intros H Hn.
  apply Nat.leb_le, H, in_seq; lia.
Qed.

Lemma two_digits_below_100 : fits_below 2 100 = true.
Proof. vm_compute; reflexivity. Qed.

Lemma three_digits_below_1000 : fits_below 3 1000 = true.
Proof. vm_compute; reflexivity. Qed.

Lemma io_for_print {A : Type} (f : A -> string) (l : list A) :
  io_for l (fun a => print_str (f a)) = (map (fun a => [Str (f a)]) l, Returns tt).
Proof.
  induction l as [| a l IH]; [reflexivity |].
  cbn [io_for map]; rewrite IH; reflexivity.
Qed.

Lemma print_topics_output (topics : list (string * nat)) :
  print_topics topics
  = ([Str (nl ++ rule)] :: [Str "Main Topics Discussed"]
       :: [Str (rule ++ nl)]
       :: map (fun e => [Str (topic_line e)]) (enumerate_from_1 topics)
       ++ [[Str (nl ++ rule ++ nl)]],
     Returns tt).
Proof. unfold print_topics; rewrite io_for_print; reflexivity. Qed.

Lemma combine_seq_nth {A : Type} (l : list A) (n k : nat) (a : A) :
  nth_error l k = Some a ->
  nth_error (combine (seq n (List.length l)) l) k = Some (n + k, a).
Proof.
  revert n k; induction l as [| x l IH]; intros n k Hk;
    [destruct k; discriminate |].
  destruct k as [| k]; simpl in *.
  - injection Hk as ->; rewrite Nat.add_0_r; reflexivity.
  - rewrite (IH (S n) k Hk); f_equal; f_equal; lia.
Qed.

Lemma enumerate_from_1_nth {A : Type} (l : list A) (k : nat) (a : A) :
  nth_error l k = Some a -> nth_error (enumerate_from_1 l) k = Some (k + 1, a).
Proof.
  intros H; unfold enumerate_from_1.
  rewrite (combine_seq_nth l 1 k a H), (Nat.add_comm 1 k); reflexivity.
Qed.

(** X21. [print_topics] never fails and prints four lines of frame and one
    line per topic, in the order of the topics and numbered from 1. When
    the rank is below 100, the word has at most 20 characters and the count
    is below 1000, the line of a topic is exactly 39 characters wide, so
    the columns line up. *)
Theorem print_topics_lines (topics : list (string * nat)) :
  snd (print_topics topics) = Returns tt
  /\ List.length (fst (print_topics topics)) = List.length topics + 4
  /\ (forall k word count,
        nth_error topics k = Some (word, count) ->
        nth_error (fst (print_topics topics)) (3 + k)
        = Some [Str (topic_line (k + 1, (word, count)))])
  /\ (forall i word count,
        i < 100 -> String.length word <= 20 -> count < 1000 ->
        String.length (topic_line (i, (word, count))) = 39).
Proof.
  rewrite print_topics_output; cbn [fst snd].
  split; [reflexivity |]. split; [| split].
  - cbn [List.length]; rewrite length_app, length_map.
    unfold enumerate_from_1; rewrite length_combine, length_seq, Nat.min_id.
    simpl; lia.
  - intros k word count Hk; cbn [nth_error Nat.add].
    rewrite nth_error_app1.
    + rewrite nth_error_map, (enumerate_from_1_nth _ _ _ Hk); reflexivity.
    + rewrite length_map; unfold enumerate_from_1.
      rewrite length_combine, length_seq, Nat.min_id.
      apply nth_error_Some; rewrite Hk; discriminate.
  - intros i word count Hi Hw Hc; unfold topic_line.
    pose proof (fits_below_spec 2 100 i two_digits_below_100 Hi).
    pose proof (fits_below_spec 3 1000 count three_digits_below_1000 Hc).
    rewrite !string_length_append, !rjust_length, ljust_length.
    change (String.length ". ") with 2.
    change (String.length " (") with 2.
    change (String.length " mentions)") with 10.
    lia.
Qed.

Lemma print_topics_lines_witness :
  nth_error (fst (print_topics [("hello", 2); ("today", 12)])) 4
  = Some [Str " 2. today                ( 12 mentions)"]
  /\ String.length (topic_line (2, ("today", 12))) = 39.
Proof.
  destruct (print_topics_lines [("hello", 2); ("today", 12)])
    as (_ & _ & Hn & Hw).
  split.
  - exact (Hn 1 "today" 12 eq_refl).
  - apply Hw; simpl; lia.
Defined.

(** ** The report of the statistics *)

Lemma snd_io_bind_returns {A B : Type} (m : io A) (k : A -> io B) (a : A) :
  snd m = Returns a -> snd (io_bind m k) = snd (k a).
Proof.
  destruct m as [out r]; simpl; intros ->.
  destruct (k a); reflexivity.
Qed.

Lemma snd_io_bind_raises {A B : Type} (m : io A) (k : A -> io B)
  (e : py_exception) :
  snd m = Raises e -> snd (io_bind m k) = Raises e.
Proof. destruct m as [out r]; simpl; intros ->; reflexivity. Qed.

Lemma io_for_returns {A : Type} (l : list A) (body : A -> io unit) :
  (forall a, In a l -> snd (body a) = Returns tt) ->
  snd (io_for l body) = Returns tt.
Proof.
  induction l as [| a l IH]; intros H; [reflexivity |].
  cbn [io_for]; rewrite (snd_io_bind_returns _ _ tt).
  - apply IH; intros x Hx; apply H; simpl; auto.
  - apply H; simpl; auto.
Qed.

Lemma lift_lookup_returns {V : Type} (p : string) (d : list (string * V)) :
  In p (dict_keys d) -> exists v, lift (dict_lookup p d) = ([], Returns v).
Proof.
  intros H; destruct (dict_get_in p d H) as [v Hv].
  exists v; unfold dict_lookup; rewrite Hv; reflexivity.
Qed.

Ltac step_returns :=
  rewrite (snd_io_bind_returns _ _ tt); [| try reflexivity].

(** The part of [print_stats] that comes before the shortest conversation
    is read never fails on statistics whose participants are known; what
    follows fails exactly when no shortest or longest conversation is
    stored. *)
Lemma print_stats_outcome (st : stats) :
  participants_known st ->
  snd (print_stats st)
  = match st_shortest_conversation st, st_longest_conversation st with
    | Some _, Some _ => Returns tt
    | _, _ => Raises TypeError
    end.
Proof.
  intros Hk; unfold print_stats.
  do 5 step_returns.
  step_returns.
  2:{ apply io_for_returns; intros p Hp.
      destruct (lift_lookup_returns p _ (proj1 (Hk p Hp))) as [v ->].
      reflexivity. }
  step_returns.
  step_returns.
  2:{ apply io_for_returns; intros [period count] _.
      destruct (0 <? st_total_messages st); reflexivity. }
  do 2 step_returns.
  step_returns.
  2:{ apply io_for_returns; intros p Hp.
      destruct (lift_lookup_returns p _ (proj1 (proj2 (Hk p Hp)))) as [v ->].
      reflexivity. }
  step_returns.
  2:{ apply io_for_returns; intros p Hp.
      destruct (lift_lookup_returns p _ (proj2 (proj2 (Hk p Hp)))) as [v ->].
      destruct v; reflexivity. }
  do 2 step_returns.
  destruct (st_shortest_conversation st) as [sc |];
    [| apply snd_io_bind_raises; reflexivity].
  step_returns. step_returns.
  destruct (st_longest_conversation st) as [lc |];
    [| apply snd_io_bind_raises; reflexivity].
  step_returns.
  step_returns; [reflexivity |].
  destruct (st_conversation_lengths st); reflexivity.
Qed.

(** The stored extremes are missing exactly when the log has no
    conversation. *)
Lemma stats_extremes (data : Log) (st : stats) :
  get_basic_stats data = Ok st ->
  match conversations data with
  | [] =>
      st_shortest_conversation st = None /\ st_longest_conversation st = None
  | _ :: _ =>
      exists s l,
        st_shortest_conversation st = Some s
        /\ st_longest_conversation st = Some l
  end.
Proof.
  intros Hst.
  destruct (get_basic_stats_inv data st Hst) as (label & infos & _ & Hs & Hl).
  pose proof (summaries_length _ _ _ Hs) as Hlen.
  pose proof (le_shortest _ _ _ _ Hl) as H1.
  pose proof (le_longest _ _ _ _ Hl) as H2.
  cbn [initial_stats st_shortest_conversation st_longest_conversation] in H1, H2.
  destruct (conversations data) as [| c convs].
  - destruct infos; [| discriminate]; auto.
  - destruct infos as [| i0 infos]; [discriminate |].
    pose proof (running_extreme_from_none
                  (fun i => Z.of_nat (ci_message_count i)) new_shortest
                  (fun _ => eq_refl) new_shortest_key (i0 :: infos))
      as (_ & s & _ & _ & Hfs & _).
    pose proof (running_extreme_from_none
                  (fun i => (- Z.of_nat (ci_message_count i))%Z) new_longest
                  (fun _ => eq_refl) new_longest_key (i0 :: infos))
      as (_ & l & _ & _ & Hfl & _).
    exists s, l; split; congruence.
Qed.

Lemma stats_participants_known (data : Log) (st : stats) :
  get_basic_stats data = Ok st -> participants_known st.
Proof.
  intros Hst.
  destruct (get_basic_stats_inv data st Hst) as (label & infos & _ & _ & Hl).
  destruct (le_keys _ _ _ _ Hl _ (initial_stats_keys label data _))
    as (K1 & K2 & K3).
  intros p Hp.
  rewrite (le_participants _ _ _ _ Hl) in Hp; cbn [initial_stats st_participants] in Hp.
  rewrite K1, K2, K3; auto.
Qed.

(** X22. On the statistics of a well-formed log with at least one
    conversation [print_stats] prints the whole report and returns. On the
    statistics of a log without conversation it raises [TypeError], after
    the heading of the shortest conversation: there is no summary to
    read. *)
Theorem print_stats_of_stats (data : Log) (label : string) :
  date data = Some label ->
  Forall well_formed_session (conversations data) ->
  exists st,
    get_basic_stats data = Ok st
    /\ (conversations data <> [] -> snd (print_stats st) = Returns tt)
    /\ (conversations data = [] ->
        snd (print_stats st) = Raises TypeError
        /\ last (fst (print_stats st)) []
           = [Str (nl ++ "Shortest Conversation:")]).
Proof.
  intros Hd Hwf.
  destruct (get_basic_stats_ok data label Hd Hwf) as [st Hst].
  exists st; split; [assumption |].
  pose proof (stats_extremes data st Hst) as He.
  pose proof (print_stats_outcome st (stats_participants_known data st Hst))
    as Ho.
  split.
  - intros Hne; destruct (conversations data); [contradiction |].
    destruct He as (sc & lc & Hs & Hl); rewrite Ho, Hs, Hl; reflexivity.
  - intros Hnil; rewrite Hnil in He; destruct He as [Hs Hl].
    split; [rewrite Ho, Hs; reflexivity |].
    revert Hst; unfold get_basic_stats; rewrite Hd, Hnil; cbn [bind].
    intros [= <-]; unfold detect_participants; rewrite Hnil.
    reflexivity.
Qed.

Lemma print_stats_of_stats_witness :
  exists st,
    get_basic_stats tie_log = Ok st /\ snd (print_stats st) = Returns tt.
Proof.
  destruct (print_stats_of_stats tie_log "2025-10-30" eq_refl
              tie_log_well_formed) as (st & Hst & Hr & _).
  exists st; split; [exact Hst |].
  apply Hr; discriminate.
Defined.

(** ** The command line *)

Lemma io_bind_returns {A B : Type} (m : io A) (k : A -> io B) (a : A) :
  snd m = Returns a -> io_bind m k = (fst m ++ fst (k a), snd (k a)).
Proof.
  destruct m as [out r]; simpl; intros ->.
  destruct (k a); reflexivity.
Qed.

(** X23. Without a file name on the command line [main] prints the two
    lines of usage and leaves with status 1; it reads no file. *)
Theorem main_usage (argv : list string) (read : string -> read_result) :
  List.length argv < 2 -> main argv read = (usage_lines, Exits 1).
Proof.
  destruct argv as [| prog [| path rest]]; simpl; intros H;
    try reflexivity; lia.
Qed.

Lemma main_usage_witness :
  main ["conversation_analyzer.py"] (fun _ => FileNotFoundError)
  = (usage_lines, Exits 1).
Proof.
  apply main_usage; simpl; lia.
Defined.

(** X24. With a file name, [main] announces the file and then: a missing
    file and a file that is not JSON are each reported in two lines, and
    [main] leaves with status 1; a file whose JSON value is neither an
    array nor an object with a ['conversations'] entry is not reported:
    the [ValueError] of [load_conversation_file] leaves [main] uncaught. *)
Theorem main_unreadable (prog filepath : string) (rest : list string)
  (read : string -> read_result) :
  (read filepath = FileNotFoundError ->
   main (prog :: filepath :: rest) read
   = (loading_line filepath :: not_found_lines filepath, Exits 1))
  /\ (read filepath = JSONDecodeError ->
      main (prog :: filepath :: rest) read
      = (loading_line filepath :: not_json_lines filepath, Exits 1))
  /\ (forall raw,
        read filepath = Loaded raw ->
        raw = RawOther \/ (exists d, raw = RawDict d None) ->
        main (prog :: filepath :: rest) read
        = ([loading_line filepath], Raises (Core ValueError_format))).
Proof.
  repeat split.
  - intros H; unfold main; rewrite H; reflexivity.
  - intros H; unfold main; rewrite H; reflexivity.
  - intros raw H [-> | [d ->]]; unfold main; rewrite H; reflexivity.
Qed.

Lemma main_unreadable_witness :
  main ["prog"; "notes.json"] (fun _ => Loaded RawOther)
  = ([loading_line "notes.json"], Raises (Core ValueError_format))
  /\ main ["prog"; "notes.json"] (fun _ => FileNotFoundError)
     = (loading_line "notes.json" :: not_found_lines "notes.json", Exits 1).
Proof.
  destruct (main_unreadable "prog" "notes.json" [] (fun _ => Loaded RawOther))
    as (_ & _ & H3).
  destruct (main_unreadable "prog" "notes.json" [] (fun _ => FileNotFoundError))
    as (H1 & _).
  split; [exact (H3 RawOther eq_refl (or_introl eq_refl)) | exact (H1 eq_refl)].
Defined.

(** X25. When the file is read but [get_basic_stats] fails, the exception
    leaves [main] uncaught after the line that announces the statistics:
    no part of the report is printed. *)
Theorem main_analysis_fails (prog filepath : string) (rest : list string)
  (read : string -> read_result) (raw : raw_data) (data : Log) (e : exn) :
  read filepath = Loaded raw ->
  load_conversation_file filepath raw = Ok data ->
  get_basic_stats data = Raise e ->
  main (prog :: filepath :: rest) read
  = ([loading_line filepath; [Str "Calculating statistics..."]],
     Raises (Core e)).
Proof.
  intros Hr Hl Hs; unfold main; rewrite Hr, Hl; cbn.
  rewrite Hs; reflexivity.
Qed.

Lemma main_analysis_fails_witness :
  main ["prog"; "chat.json"] read_empty_session
  = ([loading_line "chat.json"; [Str "Calculating statistics..."]],
     Raises (Core IndexError)).
Proof.
  refine (main_analysis_fails "prog" "chat.json" [] read_empty_session
            (RawList (conversations log_with_empty_session))
            (mk_log (Some "Unknown Date") (conversations log_with_empty_session))
            IndexError eq_refl _ _).
  - vm_compute; reflexivity.
  - vm_compute; reflexivity.
Defined.

(** X26. When the file holds a log with a label and at least one
    conversation, all well formed, [main] returns after printing the three
    lines of progress, the whole report of the statistics and then the
    report of the fifteen first topics; what follows the file name on the
    command line is ignored. *)
Theorem main_succeeds (prog filepath : string) (rest : list string)
  (read : string -> read_result) (raw : raw_data) (data : Log)
  (label : string) :
  read filepath = Loaded raw ->
  load_conversation_file filepath raw = Ok data ->
  date data = Some label ->
  Forall well_formed_session (conversations data) ->
  conversations data <> [] ->
  exists st,
    get_basic_stats data = Ok st
    /\ snd (print_stats st) = Returns tt
    /\ main (prog :: filepath :: rest) read
       = (loading_line filepath
            :: [Str "Calculating statistics..."]
            :: [Str "Extracting topics..."]
            :: fst (print_stats st)
            ++ fst (print_topics (extract_topics data 15)),
          Returns tt).
Proof.
  intros Hr Hl Hd Hwf Hne.
  destruct (get_basic_stats_ok data label Hd Hwf) as [st Hst].
  assert (Hp : snd (print_stats st) = Returns tt).
  { rewrite (print_stats_outcome st (stats_participants_known data st Hst)).
    pose proof (stats_extremes data st Hst) as He.
    destruct (conversations data); [contradiction |].
    destruct He as (sc & lc & -> & ->); reflexivity. }
  exists st; split; [assumption |]. split; [assumption |].
  unfold main; rewrite Hr, Hl; cbn [io_bind print_str print lift app].
  rewrite Hst; cbn [io_bind print_str print lift app].
  rewrite (io_bind_returns _ _ tt Hp), print_topics_output; reflexivity.
Qed.

Lemma main_succeeds_witness :
  exists st,
    get_basic_stats (mk_log (Some "2025-10-30") (conversations tie_log)) = Ok st
    /\ snd (main ["prog"; "chat_2025-10-30.json"; "ignored"] read_tie_log)
       = Returns tt.
Proof.
  destruct (main_succeeds "prog" "chat_2025-10-30.json" ["ignored"] read_tie_log
              (RawList (conversations tie_log))
              (mk_log (Some "2025-10-30") (conversations tie_log))
              "2025-10-30" eq_refl)
    as (st & Hst & _ & Hm).
  - vm_compute; reflexivity.
  - reflexivity.
  - exact tie_log_well_formed.
  - discriminate.
  - exists st; split; [exact Hst |]. rewrite Hm; reflexivity.
Defined.

(** X27. When the file holds a log with a label and no conversation, such
    as an empty array, [main] ends with an uncaught [TypeError]: the
    statistics are computed, and the report stops after the heading of the
    shortest conversation. *)
Theorem main_no_conversation (prog filepath : string) (rest : list string)
  (read : string -> read_result) (raw : raw_data) (data : Log)
  (label : string) :
  read filepath = Loaded raw ->
  load_conversation_file filepath raw = Ok data ->
  date data = Some label ->
  conversations data = [] ->
  snd (main (prog :: filepath :: rest) read) = Raises TypeError
  /\ last (fst (main (prog :: filepath :: rest) read)) []
     = [Str (nl ++ "Shortest Conversation:")].
Proof.
  intros Hr Hl Hd Hnil.
  unfold main; rewrite Hr, Hl; cbn [io_bind print_str print lift app].
  unfold get_basic_stats, detect_participants, extract_topics, count_words.
  rewrite Hd, Hnil; cbn.
  split; reflexivity.
Qed.

Lemma main_no_conversation_witness :
  snd (main ["prog"; "empty.json"] (fun _ => Loaded (RawList [])))
  = Raises TypeError.
Proof.
  exact (proj1 (main_no_conversation "prog" "empty.json" []
                  (fun _ => Loaded (RawList [])) (RawList [])
                  (mk_log (Some "Unknown Date") []) "Unknown Date"
                  eq_refl eq_refl eq_refl eq_refl)).
Defined.
